(** * sphinx-notebook: execution cache orchestration and the glue store

    A shallow embedding of [myst_nb/cache.py] (staging, executing and merging
    notebook outputs through jupyter-cache) and of the [NbGlueDomain] store of
    [myst_nb/nb_glue/domain.py], with the properties of the design document
    stated and settled against them. *)

From Stdlib Require Import ZArith String Ascii List Bool Lia.
From stdpp Require Import base option list gmap strings fin_maps fin_sets.

Local Open Scope string_scope.
Local Open Scope list_scope.
Local Open Scope Z_scope.

(** ** Python strings

    The builtin [str] operations the two files rely on, over [string]. Indices
    are [Z], as in Python: [rfind] answers [-1] when there is no occurrence and
    a negative slice bound counts from the end. *)
Module PyStr.

Definition len (s : string) : Z := Z.of_nat (String.length s).

(** [sub in s] *)
Fixpoint contains (sub s : string) : bool :=
  String.prefix sub s ||
  match s with
  | EmptyString => false
  | String _ s' => contains sub s'
  end.

(** [s.rfind(sub)], scanning left to right and remembering in [last] the
    highest index seen so far at which [sub] starts. *)
Fixpoint rfind_from (sub s : string) (i last : Z) : Z :=
  match s with
  | EmptyString => if String.prefix sub EmptyString then i else last
  | String _ s' =>
      rfind_from sub s' (i + 1) (if String.prefix sub s then i else last)
  end.

Definition rfind (s sub : string) : Z := rfind_from sub s 0 (-1).

(** A slice bound clipped to [0..len], negative bounds counted from the
    end. *)
Definition clip (n i : Z) : Z :=
  if i <? 0 then Z.max 0 (n + i) else Z.min i n.

(** [s[start:stop]] *)
Definition slice (s : string) (start stop : Z) : string :=
  let lo := clip (len s) start in
  let hi := clip (len s) stop in
  String.substring (Z.to_nat lo) (Z.to_nat (hi - lo)) s.

(** [s[start:]] *)
Definition slice_from (s : string) (start : Z) : string :=
  slice s start (len s).

(** [s.replace(old, "")]: every occurrence of [old], leftmost first and
    without overlap, is removed. [skip] counts the characters of an
    occurrence still to be dropped. An empty [old] occurs between any two
    characters and removing it changes nothing. *)
Fixpoint remove_from (old s : string) (skip : nat) : string :=
  match s with
  | EmptyString => EmptyString
  | String c s' =>
      match skip with
      | S k => remove_from old s' k
      | O =>
          if String.prefix old s
          then remove_from old s' (String.length old - 1)
          else String c (remove_from old s' O)
      end
  end.

Definition remove_all (s old : string) : string :=
  match old with
  | EmptyString => s
  | _ => remove_from old s O
  end.

End PyStr.

(** ** Paths

    [pathlib.Path] on a POSIX system, as far as the two files use it. A path
    made from a string keeps a root and a list of names: the root is [//]
    for a string that starts with exactly two slashes and [/] for one that
    starts with one slash or with three and more; an empty name and the name
    [.] are dropped. *)
Module PyPath.

(** [s.split("/")] *)
Fixpoint split (s : string) : list string :=
  match s with
  | EmptyString => [EmptyString]
  | String c s' =>
      if Ascii.eqb c "/" then EmptyString :: split s'
      else
        match split s' with
        | p :: ps => String c p :: ps
        | [] => [String c EmptyString]
        end
  end.

Definition root (s : string) : string :=
  match s with
  | String "/" (String "/" (String "/" _)) => "/"
  | String "/" (String "/" _) => "//"
  | String "/" _ => "/"
  | _ => ""
  end.

Definition is_name (p : string) : bool :=
  negb (String.eqb p "") && negb (String.eqb p ".").

Definition names_of (s : string) : list string :=
  List.filter is_name (split s).

(** A name as a path keeps it: not empty, not [.], without a slash. *)
Definition component (p : string) : Prop :=
  is_name p = true /\ PyStr.contains "/" p = false.

(** ["/".join(ps)] *)
Fixpoint join (ps : list string) : string :=
  match ps with
  | [] => ""
  | [p] => p
  | p :: ps' => p +:+ "/" +:+ join ps'
  end.

Record t : Type := mk {
  anchor : string;
  names : list string
}.

(** [Path(s)] *)
Definition parse (s : string) : t := mk (root s) (names_of s).

(** [str(path)]; the path without root and names prints as [.]. *)
Definition str (p : t) : string :=
  match names p with
  | [] => if String.eqb (anchor p) "" then "." else anchor p
  | ns => anchor p +:+ join ns
  end.

(** [path.joinpath(other)]: a rooted [other] replaces the path. *)
Definition joinpath (p : t) (other : string) : t :=
  if String.eqb (root other) "" then mk (anchor p) (names p ++ names_of other)
  else parse other.

End PyPath.

(** ** Python dictionaries that are iterated

    A [dict] keeps its keys in insertion order and its iteration order shows
    wherever a comprehension lets a later item overwrite an earlier one, so the
    dictionaries the code iterates over are association lists: [set] replaces
    the value of a key where it stands and appends a new key, [pop] removes
    the entry of a key (a dict holds at most one). *)
Module PyDict.

Definition t (V : Type) : Type := list (string * V).

(** [d.get(k)] *)
Fixpoint get {V} (k : string) (d : t V) : option V :=
  match d with
  | [] => None
  | (k', v) :: d' => if String.eqb k k' then Some v else get k d'
  end.

(** [d[k] = v] *)
Fixpoint set {V} (k : string) (v : V) (d : t V) : t V :=
  match d with
  | [] => [(k, v)]
  | (k', v') :: d' =>
      if String.eqb k k' then (k', v) :: d' else (k', v') :: set k v d'
  end.

(** [d.pop(k, None)] *)
Definition pop {V} (k : string) (d : t V) : t V :=
  List.filter (fun kv => negb (String.eqb k (fst kv))) d.

End PyDict.

(** ** Exceptions and stateful computations

    A Python call either returns a value or raises, and in both cases leaves a
    state behind: what was mutated before the exception stays mutated. *)
Inductive exn : Type :=
  | KeyError
  | TypeError
  | OSError
  | NotImplementedError (msg : string).

Inductive Res (S A : Type) : Type :=
  | Ok (a : A) (s : S)
  | Raise (e : exn) (s : S).
Arguments Ok {S A} a s.
Arguments Raise {S A} e s.

Definition M (S A : Type) : Type := S -> Res S A.

Definition ret {S A} (a : A) : M S A := fun s => Ok a s.

Definition bind {S A B} (m : M S A) (k : A -> M S B) : M S B :=
  fun s =>
    match m s with
    | Ok a s' => k a s'
    | Raise e s' => Raise e s'
    end.

Definition raise {S A} (e : exn) : M S A := fun s => Raise e s.

Definition modify {S} (f : S -> S) : M S unit := fun s => Ok tt (f s).

Definition gets {S A} (f : S -> A) : M S A := fun s => Ok (f s) s.

Declare Scope py_scope.
Delimit Scope py_scope with py.
Notation "x <- m ;; k" := (bind m (fun x => k))
  (at level 100, m at next level, right associativity) : py_scope.
Notation "m ;;; k" := (bind m (fun _ => k))
  (at level 100, right associativity) : py_scope.

(** The state a computation leaves, returned or raised. *)
Definition final {S A} (r : Res S A) : S :=
  match r with
  | Ok _ s => s
  | Raise _ s => s
  end.

(** ** Notebooks

    A notebook is an ordered sequence of cells; a code cell carries a list of
    outputs; an output carries, for a display or result output, its
    mimebundle under ["data"]. *)
Definition Mimebundle : Type := PyDict.t string.

Record Output : Type := mkOutput {
  output_type : string;
  data : option Mimebundle;
  metadata : PyDict.t string
}.

Record Cell : Type := mkCell {
  cell_type : string;
  source : string;
  outputs : list Output
}.

Record Notebook : Type := mkNotebook { cells : list Cell }.

Definition is_code (c : Cell) : bool := String.eqb (cell_type c) "code".

(** ** [myst_nb/cache.py] *)
Module Cache.

(** *** jupyter-cache, as the module consumes it

    The records of [jupyter_cache.cache.db] and the methods of the cache
    object returned by [get_cache] that [cache.py] calls. A lookup that
    raises [KeyError] for a missing record answers [None]. *)
Record NbStageRecord : Type := mkStage {
  stage_pk : Z;
  stage_uri : string;
  traceback : option string
}.

Record NbCacheRecord : Type := mkCache {
  pk : Z;
  uri : string;
  created : Z
}.

Record RunResult : Type := mkRun {
  succeeded : list string;
  excepted : list string;
  errored : list string
}.

Class CacheBase (E : Type) : Type := {
  stage_notebook_file : string -> E -> NbStageRecord * E;
  cache_notebook_file : string -> bool -> E -> E;
  get_staged_record : string -> E -> option NbStageRecord;
  records_from_uri : string -> E -> list NbCacheRecord;
  get_cache_record : Z -> E -> option NbCacheRecord;
  merge_match_into_notebook : Notebook -> E -> option (Z * Notebook);
  (** [load_executor("basic", cache_base)]: [Some msg] is an [ImportError]
      with that message. *)
  load_executor : string -> E -> option string;
  (** [executor.run_and_cache(filter_pks=...)] *)
  run_and_cache : option (list Z) -> E -> RunResult * E
}.

(** *** The world [cache.py] acts on *)
Inductive Call : Type :=
  | CallStage (path : string)
  | CallCache (path : string) (overwrite : bool)
  | CallRun (filter_pks : option (list Z)).

Inductive Level : Type := ERROR | INFO.

Record World (E : Type) : Type := mkWorld {
  engine : E;                         (* the cache behind [get_cache] *)
  calls : list Call;                  (* mutating calls made on it, oldest first *)
  logs : list (Level * string);       (* records sent to [logger], oldest first *)
  notebooks : gmap string Notebook;   (* notebook files readable on disk *)
  dirs : gset string;                 (* directories made by [ensuredir] *)
  files : gmap string string;         (* text files written *)
  cwd : string                        (* [os.getcwd()] *)
}.
Arguments mkWorld {E}.
Arguments engine {E}.
Arguments calls {E}.
Arguments logs {E}.
Arguments notebooks {E}.
Arguments dirs {E}.
Arguments files {E}.
Arguments cwd {E}.

(** What [stage_and_execute] reads of [env.env]. *)
Record BuildEnv : Type := mkEnv {
  jupyter_notebook_force_run : bool;
  execution_excludepatterns : list string;
  doc2path : string -> string
}.

(** Truth value of the [path_cache] argument: [None] stands for a false or
    missing setting, [Some p] for a path given as a string. *)
Definition truthy (path_cache : option string) : bool :=
  match path_cache with
  | None => false
  | Some p => negb (String.eqb p "")
  end.

Section WithEngine.
Context {E : Type} `{CacheBase E}.

Definition W : Type := World E.

Definition log (lvl : Level) (msg : string) : M W unit :=
  modify (fun w =>
    mkWorld (engine w) (calls w) (logs w ++ [(lvl, msg)])
            (notebooks w) (dirs w) (files w) (cwd w)).

Definition on_engine (c : Call) (f : E -> E) : M W unit :=
  modify (fun w =>
    mkWorld (f (engine w)) (calls w ++ [c]) (logs w)
            (notebooks w) (dirs w) (files w) (cwd w)).

(** [cache_base.stage_notebook_file(source_path)] *)
Definition stage_file (source_path : string) : M W NbStageRecord :=
  fun w =>
    let '(r, e) := stage_notebook_file source_path (engine w) in
    Ok r (mkWorld e (calls w ++ [CallStage source_path]) (logs w)
                  (notebooks w) (dirs w) (files w) (cwd w)).

(** [cache_base.cache_notebook_file(source_path, overwrite=...)] *)
Definition cache_file (source_path : string) (overwrite : bool) : M W unit :=
  on_engine (CallCache source_path overwrite)
            (cache_notebook_file source_path overwrite).

(** [executor.run_and_cache(filter_pks=...)] *)
Definition run_staged (filter_pks : option (list Z)) : M W RunResult :=
  fun w =>
    let '(r, e) := run_and_cache filter_pks (engine w) in
    Ok r (mkWorld e (calls w ++ [CallRun filter_pks]) (logs w)
                  (notebooks w) (dirs w) (files w) (cwd w)).

(** [with open(source_path, "r") as f: ntbk = nbf.read(f, as_version=4)] *)
Definition read_notebook (source_path : string) : M W Notebook :=
  fun w =>
    match notebooks w !! source_path with
    | Some ntbk => Ok ntbk w
    | None => Raise OSError w
    end.

(** [ensuredir(reports_dir)] *)
Definition ensuredir (d : string) : M W unit :=
  modify (fun w =>
    mkWorld (engine w) (calls w) (logs w)
            (notebooks w) ({[d]} ∪ dirs w) (files w) (cwd w)).

(** [with open(full_path, "w") as log_file: log_file.write(text)] *)
Definition write_file (full_path text : string) : M W unit :=
  modify (fun w =>
    mkWorld (engine w) (calls w) (logs w)
            (notebooks w) (dirs w) (<[full_path := text]> (files w)) (cwd w)).

(** [all(len(cell.outputs) != 0 for cell in ntbk.cells
         if cell["cell_type"] == "code")] *)
Definition has_outputs (ntbk : Notebook) : bool :=
  forallb (fun cell => negb (length (outputs cell) =? 0)%nat)
          (List.filter is_code (cells ntbk)).

(** [True in [x in nb for x in env.env.config["execution_excludepatterns"]]] *)
Definition excluded (env : BuildEnv) (nb : string) : bool :=
  existsb (fun x => PyStr.contains x nb) (execution_excludepatterns env).

Definition will_not_run_msg (source_path : string) : string :=
  "Will not run notebook with pre-populated outputs or no output cells, will directly cache: "
    +:+ source_path.

(** [execute_staged_nb]: the status [1] when the executor cannot be
    loaded, else what [run_and_cache] returns; [pk_list or None] turns
    the empty list into [None]. *)
Definition or_None (pk_list : option (list Z)) : option (list Z) :=
  match pk_list with
  | Some (_ :: _) => pk_list
  | _ => None
  end.

Definition execute_staged_nb (pk_list : option (list Z)) : M W (Z + RunResult) :=
  (e <- gets engine ;;
   match load_executor "basic" e with
   | Some error => log ERROR error ;;; ret (inl 1)
   | None =>
       result <- run_staged (or_None pk_list) ;;
       ret (inr result)
   end)%py.

(** The [for nb in nb_list] loop of [stage_and_execute]; [pk_list] is the
    loop-carried variable, [None] until the first notebook is staged. *)
Fixpoint stage_loop (env : BuildEnv) (nb_list : list string)
    (pk_list : option (list Z)) : M W (option (list Z)) :=
  match nb_list with
  | [] => ret pk_list
  | nb :: rest =>
      if excluded env nb then stage_loop env rest pk_list
      else
        let source_path := doc2path env nb in
        (ntbk <- read_notebook source_path ;;
         let has_outputs := has_outputs ntbk in
         if jupyter_notebook_force_run env || negb has_outputs then
           let pk_list := match pk_list with None => [] | Some l => l end in
           stage_record <- stage_file source_path ;;
           stage_loop env rest (Some (pk_list ++ [stage_pk stage_record]))
         else
           (if has_outputs then cache_file source_path true else ret tt) ;;;
           log ERROR (will_not_run_msg source_path) ;;;
           stage_loop env rest pk_list)%py
  end.

(** [stage_and_execute(env, nb_list, path_cache)]. [nb_list] is a set; the
    list is the order in which the loop meets its members. The guarded
    import of [JupyterCacheBase] cannot fail in a module that has already
    imported [get_cache] from the same package, so its handler is not
    modelled. *)
Definition stage_and_execute (env : BuildEnv) (nb_list : list string)
    (path_cache : option string) : M W unit :=
  if truthy path_cache then
    (pk_list <- stage_loop env nb_list None ;;
     execute_staged_nb pk_list ;;;
     ret tt)%py
  else ret tt.

(** [_relative_file_path] *)
Definition _relative_file_path (currentdir file_path : string) : string :=
  let dir_index := PyStr.rfind currentdir "/" in
  PyStr.slice_from file_path (dir_index + 1).

(** The [for item in cache_list] loop of [add_notebook_outputs]: the pair
    [(latest, latest_pk)] it leaves, starting from [latest = None]. *)
Definition pick_step (acc : option (Z * Z)) (item : NbCacheRecord)
    : option (Z * Z) :=
  match acc with
  | None => Some (created item, pk item)
  | Some (latest, latest_pk) =>
      if latest >? created item then Some (created item, pk item)
      else Some (latest, latest_pk)
  end.

Definition pick_latest (cache_list : list NbCacheRecord) : option (Z * Z) :=
  fold_left pick_step cache_list None.

(** The [try] block: the record kept in [cache_record], together with
    whether the [KeyError] handler ran. *)
Definition find_cache_record (file_path : string) (e : E)
    : option NbCacheRecord * bool :=
  match pick_latest (records_from_uri file_path e) with
  | None => (None, false)
  | Some (_, latest_pk) =>
      match get_cache_record latest_pk e with
      | Some r => (Some r, false)
      | None => (None, true)
      end
  end.

Definition no_cache_key_msg (r_file_path : string) : string :=
  "Couldn't find cache key for notebook file " +:+ r_file_path
    +:+ ". Outputs will not be inserted".

(** [r_file_path[r_file_path.rfind("/") + 1 : r_file_path.rfind(".")]] *)
Definition report_name (r_file_path : string) : string :=
  PyStr.slice r_file_path (PyStr.rfind r_file_path "/" + 1)
              (PyStr.rfind r_file_path ".").

Definition report_path (reports_dir file_name : string) : string :=
  reports_dir +:+ "/" +:+ file_name +:+ ".log".

Definition traceback_saved_msg (file_name full_path : string) : string :=
  "Execution traceback for " +:+ file_name +:+ " is saved in " +:+ full_path.

(** [stage_record and stage_record.traceback]: the traceback when there is
    a record and its traceback is a non-empty string. *)
Definition failed_traceback (stage_record : option NbStageRecord)
    : option string :=
  match stage_record with
  | Some r =>
      match traceback r with
      | Some tb => if String.eqb tb "" then None else Some tb
      | None => None
      end
  | None => None
  end.

(** [add_notebook_outputs(file_path, ntbk, path_cache, dest_path)] *)
Definition add_notebook_outputs (file_path : string) (ntbk : Notebook)
    (path_cache : option string) (dest_path : string) : M W Notebook :=
  let reports_dir := dest_path +:+ "/reports" in
  if truthy path_cache then
    (currentdir <- gets cwd ;;
     let r_file_path := _relative_file_path currentdir file_path in
     e <- gets engine ;;
     let '(cache_record, missing) := find_cache_record file_path e in
     (if missing then log ERROR (no_cache_key_msg r_file_path) else ret tt) ;;;
     match cache_record with
     | Some _ =>
         match merge_match_into_notebook ntbk e with
         | Some (_, merged) => ret merged
         | None => raise KeyError
         end
     | None =>
         let stage_record := get_staged_record r_file_path e in
         match failed_traceback stage_record with
         | Some tb =>
             ensuredir reports_dir ;;;
             let file_name := report_name r_file_path in
             let full_path := report_path reports_dir file_name in
             write_file full_path tb ;;;
             log INFO (traceback_saved_msg file_name full_path) ;;;
             ret ntbk
         | None => ret ntbk
         end
     end)%py
  else ret ntbk.

End WithEngine.

End Cache.

(** ** A reference execution engine *)
Module RefEngine.
Import Cache.

(** Modelled from the spec: jupyter-cache, the engine behind [get_cache], is
    an external package and not part of the sources. This small in-memory
    engine follows the interface the design document gives for it:
    [stage(path)], [cacheDirect(path, overwrite)], [runBatch(identifiers or
    null)] where null asks for all staged notebooks, [getStagedRecord(path)]
    and [recordsForPath(path)]; a cache record is matched to a notebook by a
    key derived from the notebook's code, and running a notebook is left to an
    opaque [kernel] that returns the notebook with outputs or a traceback. *)
Record t : Type := mk {
  disk : gmap string Notebook;
  kernel : Notebook -> Notebook + string;
  executors : list string;
  staged : list NbStageRecord;
  cached : list (NbCacheRecord * Notebook);
  next_pk : Z;
  clock : Z;
  executed : list Z     (* primary keys of the staged records run, oldest first *)
}.

Definition content_key (nb : Notebook) : list string :=
  List.map source (List.filter is_code (cells nb)).

Definition same_key (nb : Notebook) (entry : NbCacheRecord * Notebook) : bool :=
  bool_decide (content_key (snd entry) = content_key nb).

Definition stage (path : string) (e : t) : NbStageRecord * t :=
  match List.find (fun r => String.eqb (stage_uri r) path) (staged e) with
  | Some r => (r, e)
  | None =>
      let r := mkStage (next_pk e) path None in
      (r, mk (disk e) (kernel e) (executors e) (staged e ++ [r]) (cached e)
             (next_pk e + 1) (clock e) (executed e))
  end.

Definition add_record (path : string) (nb : Notebook) (e : t) : t :=
  mk (disk e) (kernel e) (executors e) (staged e)
     (List.filter (fun entry => negb (same_key nb entry)) (cached e)
        ++ [(mkCache (next_pk e) path (clock e), nb)])
     (next_pk e + 1) (clock e + 1) (executed e).

Definition cache_direct (path : string) (overwrite : bool) (e : t) : t :=
  match disk e !! path with
  | None => e
  | Some nb =>
      if existsb (same_key nb) (cached e) && negb overwrite then e
      else add_record path nb e
  end.

Definition staged_record (path : string) (e : t) : option NbStageRecord :=
  List.find (fun r => String.eqb (stage_uri r) path) (staged e).

Definition records_for (path : string) (e : t) : list NbCacheRecord :=
  List.map fst (List.filter (fun entry => String.eqb (uri (fst entry)) path) (cached e)).

Definition cache_record (k : Z) (e : t) : option NbCacheRecord :=
  List.find (fun r => pk r =? k) (List.map fst (cached e)).

(** The outputs of the stored notebook's code cells, put on the code cells
    of [cs] in order. *)
Fixpoint merge_cells (cs stored : list Cell) : list Cell :=
  match cs with
  | [] => []
  | c :: cs' =>
      if is_code c then
        match stored with
        | s :: stored' =>
            mkCell (cell_type c) (source c) (outputs s) :: merge_cells cs' stored'
        | [] => c :: merge_cells cs' []
        end
      else c :: merge_cells cs' stored
  end.

Definition merge_match (nb : Notebook) (e : t) : option (Z * Notebook) :=
  match List.find (same_key nb) (cached e) with
  | Some (r, stored) =>
      Some (pk r, mkNotebook (merge_cells (cells nb)
                                (List.filter is_code (cells stored))))
  | None => None
  end.

Definition load (name : string) (e : t) : option string :=
  if existsb (String.eqb name) (executors e) then None
  else Some ("No executor registered under " +:+ name).

Definition selected (filter_pks : option (list Z)) (r : NbStageRecord) : bool :=
  match filter_pks with
  | None => true
  | Some pks => existsb (Z.eqb (stage_pk r)) pks
  end.

Definition set_traceback (k : Z) (tb : string) (r : NbStageRecord)
    : NbStageRecord :=
  if stage_pk r =? k then mkStage (stage_pk r) (stage_uri r) (Some tb) else r.

(** One staged notebook run: a success is cached and leaves the staging
    area, a failure keeps its staged record, now with the traceback. *)
Definition run_one (acc : RunResult * t) (r : NbStageRecord) : RunResult * t :=
  let '(res, e) := acc in
  let ran := executed e ++ [stage_pk r] in
  match disk e !! stage_uri r with
  | None =>
      (mkRun (succeeded res) (excepted res) (errored res ++ [stage_uri r]),
       mk (disk e) (kernel e) (executors e) (staged e) (cached e)
          (next_pk e) (clock e) ran)
  | Some nb =>
      match kernel e nb with
      | inl done =>
          let e' := add_record (stage_uri r) done e in
          (mkRun (succeeded res ++ [stage_uri r]) (excepted res) (errored res),
           mk (disk e') (kernel e') (executors e')
              (List.filter (fun r' => negb (stage_pk r' =? stage_pk r)) (staged e'))
              (cached e') (next_pk e') (clock e') ran)
      | inr tb =>
          (mkRun (succeeded res) (excepted res ++ [stage_uri r]) (errored res),
           mk (disk e) (kernel e) (executors e)
              (List.map (set_traceback (stage_pk r) tb) (staged e)) (cached e)
              (next_pk e) (clock e) ran)
      end
  end.

Definition run (filter_pks : option (list Z)) (e : t) : RunResult * t :=
  fold_left run_one (List.filter (selected filter_pks) (staged e))
            (mkRun [] [] [], e).

(** Modelled from the spec: the operations above as the cache object
    [cache.py] calls. *)
#[global] Instance cache_base : CacheBase t := {
  stage_notebook_file := stage;
  cache_notebook_file := cache_direct;
  get_staged_record := staged_record;
  records_from_uri := records_for;
  get_cache_record := cache_record;
  merge_match_into_notebook := merge_match;
  load_executor := load;
  run_and_cache := run
}.

End RefEngine.

(** ** [myst_nb/nb_glue/domain.py]: the [NbGlueDomain] store *)
Module Glue.

(** Outputs are Python objects: the cache holds references to them, and a
    reference handed out by [get] with [view=False] is the stored one. *)
Definition loc : Type := positive.

(** [env.domaindata["nb"]], with the objects its cache refers to. *)
Record Domaindata : Type := mkData {
  heap : gmap loc Output;
  cache : gmap string loc;
  docmap : PyDict.t (gset string)
}.

(** What the module imports from the rest of [myst_nb.nb_glue], whose
    sources are not part of this development: the prefix constant and the
    key extraction routine, which answers the new keys with references to
    the notebook's own output objects. [Ntbk] is the notebook as that
    routine sees it. *)
Class Imports (Ntbk : Type) : Type := {
  GLUE_PREFIX : string;
  find_all_keys : Ntbk -> gmap string string -> string -> gmap string loc
}.

(** The JSON document [write_cache] dumps: document names in [docmap]
    order, each with its keys and their outputs. *)
Definition Snapshot : Type := PyDict.t (gmap string Output).

Section Domain.
Context {Ntbk : Type} `{Imports Ntbk}.

(** [copy.deepcopy(output)]: [None] copies to [None], an object to a new
    object with the same content. (A reference always leads to an object;
    the remaining case only makes the function total.) *)
Definition deepcopy (output : option loc) : M Domaindata (option loc) :=
  fun s =>
    match output with
    | None => Ok None s
    | Some l =>
        match heap s !! l with
        | Some o =>
            let l' := fresh (dom (heap s)) in
            Ok (Some l') (mkData (<[l' := o]> (heap s)) (cache s) (docmap s))
        | None => Ok None s
        end
    end.

(** [{key.replace(GLUE_PREFIX, ""): val for key, val in data.items()}] *)
Definition strip_prefix (d : Mimebundle) : Mimebundle :=
  fold_left (fun acc kv =>
               PyDict.set (PyStr.remove_all (fst kv) GLUE_PREFIX) (snd kv) acc)
            d [].

(** [output["data"] = ...] on the object at [l] *)
Definition set_data (l : loc) (o : Output) (d : Mimebundle)
    : M Domaindata unit :=
  modify (fun s =>
    mkData (<[l := mkOutput (output_type o) (Some d) (metadata o)]> (heap s))
           (cache s) (docmap s)).

(** [get(key, view, replace)]: subscripting [None], the answer of
    [cache.get] for an unknown key, raises [TypeError]; a missing ["data"]
    entry raises [KeyError]. *)
Definition get (key : string) (view replace : bool)
    : M Domaindata (option loc) :=
  (output <- gets (fun s => cache s !! key) ;;
   output <- (if view then deepcopy output else ret output) ;;
   if replace then
     match output with
     | None => raise TypeError
     | Some l =>
         o <- gets (fun s => heap s !! l) ;;
         match o with
         | None => raise TypeError
         | Some o =>
             match data o with
             | None => raise KeyError
             | Some d => set_data l o (strip_prefix d) ;;; ret output
             end
         end
     end
   else ret output)%py.

(** What a reference returned by [get] shows to its caller. *)
Definition deref (s : Domaindata) (output : option loc) : option Output :=
  match output with
  | Some l => heap s !! l
  | None => None
  end.

(** [{k: self.cache[k] for k in vs if k in self.cache}] *)
Definition doc_entries (s : Domaindata) (vs : gset string)
    : gmap string Output :=
  omap (fun l => heap s !! l)
       (filter (fun kv => fst kv ∈ vs) (cache s)).

(** The dictionary handed to [json.dump]; [if vs] keeps the documents
    whose key set is not empty. *)
Definition snapshot (s : Domaindata) : Snapshot :=
  List.map (fun dvs => (fst dvs, doc_entries s (snd dvs)))
           (List.filter (fun dvs => negb (bool_decide (snd dvs = ∅)))
                        (docmap s)).

(** The file [write_cache(path)] opens: no [path] means
    [glue_cache.json] under [env.doctreedir]. *)
Definition cache_file_path (doctreedir : string) (path : option string)
    : string :=
  PyPath.str
    match path with
    | None => PyPath.joinpath (PyPath.parse doctreedir) "glue_cache.json"
    | Some p => PyPath.parse p
    end.

(** [write_cache(path)] on a disk of JSON files. *)
Definition write_cache (doctreedir : string) (path : option string)
    (s : Domaindata) (json_files : gmap string Snapshot)
    : gmap string Snapshot :=
  <[cache_file_path doctreedir path := snapshot s]> json_files.

(** [{v: k for k, vs in self.docmap.items() for v in vs}] *)
Definition existing_keys (dm : PyDict.t (gset string)) : gmap string string :=
  fold_left (fun acc kvs =>
               set_fold (fun v acc => <[v := fst kvs]> acc) acc (snd kvs))
            dm ∅.

(** [add_notebook(ntbk, docname)] *)
Definition add_notebook (ntbk : Ntbk) (docname : string) (s : Domaindata)
    : Domaindata :=
  let new_keys := find_all_keys ntbk (existing_keys (docmap s)) docname in
  mkData (heap s) (new_keys ∪ cache s)
         (PyDict.set docname (dom new_keys) (docmap s)).

(** [clear_doc(docname)] *)
Definition clear_doc (docname : string) (s : Domaindata) : Domaindata :=
  let keys := default ∅ (PyDict.get docname (docmap s)) in
  mkData (heap s)
         (set_fold (fun key c => delete key c) (cache s) keys)
         (PyDict.pop docname (docmap s)).

(** [merge_domaindata(docnames, otherdata)] *)
Definition merge_domaindata (docnames : list string) (otherdata : Domaindata)
    : M Domaindata unit :=
  raise (NotImplementedError
           "merge_domaindata must be implemented in <class 'myst_nb.nb_glue.domain.NbGlueDomain'> to be able to do parallel builds!").

End Domain.

End Glue.

(** ** Vocabulary for the statements about [cache.py] *)
Module CacheSpec.
Import Cache.

(** The call one document of a build pass leads to, when its notebook can
    be read: none for an excluded document, else staging or direct
    caching. *)
Definition planned (env : BuildEnv) (nbs : gmap string Notebook)
    (nb : string) : list Call :=
  if excluded env nb then []
  else
    match nbs !! doc2path env nb with
    | None => []
    | Some ntbk =>
        if jupyter_notebook_force_run env || negb (has_outputs ntbk)
        then [CallStage (doc2path env nb)]
        else [CallCache (doc2path env nb) true]
    end.

Definition is_stage (c : Call) : bool :=
  match c with
  | CallStage _ => true
  | _ => false
  end.

(** The effect of a recorded call on the engine. *)
Definition replay {E} `{CacheBase E} (e : E) (c : Call) : E :=
  match c with
  | CallStage path => snd (stage_notebook_file path e)
  | CallCache path overwrite => cache_notebook_file path overwrite e
  | CallRun filter_pks => snd (run_and_cache filter_pks e)
  end.

(** A document of the pass that is not staged: excluded, or holding
    outputs while no forced run is asked for. *)
Definition stays_unstaged (env : BuildEnv) (nbs : gmap string Notebook)
    (nb : string) : Prop :=
  excluded env nb = true \/
  (jupyter_notebook_force_run env = false /\
   exists ntbk, nbs !! doc2path env nb = Some ntbk /\ has_outputs ntbk = true).

(** Every document the loop has to open can be read. *)
Definition readable (env : BuildEnv) (nbs : gmap string Notebook)
    (nb_list : list string) : Prop :=
  forall nb, In nb nb_list -> excluded env nb = false ->
             is_Some (nbs !! doc2path env nb).

End CacheSpec.

(** ** Sample data

    A small documentation tree, used to run the definitions: [done] holds the
    output of its code cell, [bare] does not, [legacy] was staged by an
    earlier build pass and is not part of the current one. *)
Module Sample.
Import Cache.

Definition result_4 : Output :=
  mkOutput "execute_result" (Some [("text/plain", "4")]) [].

Definition nb_done : Notebook :=
  mkNotebook [mkCell "markdown" "# Sums" []; mkCell "code" "2 + 2" [result_4]].

Definition nb_bare : Notebook :=
  mkNotebook [mkCell "markdown" "# Products" []; mkCell "code" "2 * 2" []].

Definition nb_legacy : Notebook :=
  mkNotebook [mkCell "code" "4 - 0" []].

Definition source_tree : gmap string Notebook :=
  {[ "/proj/docs/done.ipynb" := nb_done;
     "/proj/docs/bare.ipynb" := nb_bare;
     "/proj/docs/legacy.ipynb" := nb_legacy ]}.

Definition env : BuildEnv :=
  mkEnv false ["index"] (fun docname => "/proj/docs/" +:+ docname +:+ ".ipynb").

(** Every code cell evaluates to 4. *)
Definition kernel (nb : Notebook) : Notebook + string :=
  inl (mkNotebook
         (List.map (fun c => if is_code c
                             then mkCell (cell_type c) (source c) [result_4]
                             else c)
                   (cells nb))).

Definition fresh_engine : RefEngine.t :=
  RefEngine.mk source_tree kernel ["basic"] [] [] 1 1000 [].

Definition world_of (e : RefEngine.t) : World RefEngine.t :=
  mkWorld e [] [] source_tree ∅ ∅ "/proj/docs".

(** [legacy] is still staged from an earlier pass. *)
Definition engine_with_legacy : RefEngine.t :=
  RefEngine.mk source_tree kernel ["basic"]
               [mkStage 1 "/proj/docs/legacy.ipynb" None] [] 2 1000 [].

(** Two executions of [done] are on record, the second made after its
    code was edited. *)
Definition older : NbCacheRecord := mkCache 1 "/proj/docs/done.ipynb" 1000.
Definition newer : NbCacheRecord := mkCache 2 "/proj/docs/done.ipynb" 2000.

Definition nb_done_before_edit : Notebook :=
  mkNotebook [mkCell "markdown" "# Sums" []; mkCell "code" "1 + 3" [result_4]].

Definition engine_with_history : RefEngine.t :=
  RefEngine.mk source_tree kernel ["basic"] []
               [(older, nb_done_before_edit); (newer, nb_done)] 3 3000 [].

(** A kernel in which every notebook fails. *)
Definition failing_kernel (nb : Notebook) : Notebook + string :=
  inr "ZeroDivisionError: division by zero".

Definition engine_with_failing_kernel : RefEngine.t :=
  RefEngine.mk source_tree failing_kernel ["basic"] [] [] 1 1000 [].

(** One build pass over [docs] with the cache at [.jupyter_cache]. *)
Definition build_pass (env : BuildEnv) (docs : list string)
    (w : World RefEngine.t) : World RefEngine.t :=
  final (stage_and_execute env docs (Some ".jupyter_cache") w).

(** The user saves [nb] as [path]. *)
Definition save (path : string) (nb : Notebook) (w : World RefEngine.t)
    : World RefEngine.t :=
  let e := engine w in
  mkWorld (RefEngine.mk (<[path := nb]> (RefEngine.disk e)) (RefEngine.kernel e)
                        (RefEngine.executors e) (RefEngine.staged e)
                        (RefEngine.cached e) (RefEngine.next_pk e)
                        (RefEngine.clock e) (RefEngine.executed e))
          (calls w) (logs w) (<[path := nb]> (notebooks w))
          (dirs w) (files w) (cwd w).

(** [sums.ipynb] in two versions, each saved with the output of its cell,
    and the first version again with the output cleared. *)
Definition result_3 : Output :=
  mkOutput "execute_result" (Some [("text/plain", "3")]) [].

Definition sums_v1 : Notebook := mkNotebook [mkCell "code" "2 + 1" [result_3]].
Definition sums_v2 : Notebook := mkNotebook [mkCell "code" "2 + 2" [result_4]].
Definition sums_v1_cleared : Notebook := mkNotebook [mkCell "code" "2 + 1" []].

(** From now on [sums] is left to the reader's own execution. *)
Definition env_without_sums : BuildEnv :=
  mkEnv false ["index"; "sums"]
        (fun docname => "/proj/docs/" +:+ docname +:+ ".ipynb").

(** [sums.ipynb] is built in its first version, edited and built again;
    then the edit is taken back, the output cleared and the document
    excluded from execution, and a third pass is made. *)
Definition world_after_revert : World RefEngine.t :=
  build_pass env_without_sums ["sums"]
    (save "/proj/docs/sums.ipynb" sums_v1_cleared
       (build_pass env ["sums"]
          (save "/proj/docs/sums.ipynb" sums_v2
             (build_pass env ["sums"]
                (save "/proj/docs/sums.ipynb" sums_v1
                   (world_of fresh_engine)))))).

(** [sums.ipynb] is built in its first version; the file is then renamed
    to [totals.ipynb], its output cleared and the document excluded from
    execution, and a second pass is made. *)
Definition env_without_totals : BuildEnv :=
  mkEnv false ["index"; "totals"]
        (fun docname => "/proj/docs/" +:+ docname +:+ ".ipynb").

Definition world_after_rename : World RefEngine.t :=
  build_pass env_without_totals ["totals"]
    (save "/proj/docs/totals.ipynb" sums_v1_cleared
       (build_pass env ["sums"]
          (save "/proj/docs/sums.ipynb" sums_v1 (world_of fresh_engine)))).

End Sample.

(** ** Sample glue data

    Notebooks that glue one of two objects under the keys [x] and [y], and
    the stores they lead to. *)
Module GlueSample.
Import Glue.

(** A notebook as the key extraction sees it: the glue name of each tagged
    output and the output object. *)
Definition Ntbk : Type := gmap string loc.

(** Modelled from the spec: [GLUE_PREFIX] and [find_all_keys] are defined in
    [myst_nb/nb_glue/__init__.py] and [myst_nb/nb_glue/utils.py], which are
    not part of the sources. The prefix is the reservation prefix put in
    front of the MIME types of a glued output; the extraction is made over
    the existing keys to avoid collisions: it yields the glue-tagged outputs
    of the notebook under their keys and leaves out every key the
    dictionary of existing keys already holds. *)
#[global] Instance imports : Imports Ntbk := {
  GLUE_PREFIX := "application/papermill.record/";
  find_all_keys := fun ntbk existing_keys _ =>
    filter (fun kv => existing_keys !! fst kv = None) ntbk
}.

Definition glued (value : string) : Output :=
  mkOutput "display_data"
           (Some [("application/papermill.record/text/plain", value);
                  ("application/papermill.record/text/html",
                   "<b>" +:+ value +:+ "</b>")])
           [("scrapbook", "x")].

Definition objects : gmap loc Output :=
  {[ 1%positive := glued "1"; 2%positive := glued "2" ]}.

Definition n1 : Ntbk := {[ "x" := 1%positive ]}.
Definition n2 : Ntbk := {[ "x" := 2%positive ]}.

(** A notebook gluing the second object under [y]. *)
Definition n_y : Ntbk := {[ "y" := 2%positive ]}.

Definition fresh_store : Domaindata := mkData objects ∅ [].

(** [docB] has glued [x]. *)
Definition glued_store : Domaindata :=
  mkData objects {[ "x" := 2%positive ]} [("docB", {["x"]})].

End GlueSample.

(** ** More Python strings

    The builtin operations of the paste roles and nodes. *)
Module PyStrMore.

(** [s.endswith(suffix)] *)
Definition endswith (s suffix : string) : bool :=
  (PyStr.len suffix <=? PyStr.len s) &&
  String.eqb (PyStr.slice_from s (PyStr.len s - PyStr.len suffix)) suffix.

(** [s.rsplit(sep, 1)] for a separator that is not empty: the text before
    the last occurrence of [sep] and the text behind it, or [s] alone. *)
Definition rsplit1 (s sep : string) : list string :=
  let i := PyStr.rfind s sep in
  if i <? 0 then [s]
  else [PyStr.slice s 0 i; PyStr.slice_from s (i + PyStr.len sep)].

(** [s.lstrip(c)] for a single character *)
Fixpoint lstrip (c : ascii) (s : string) : string :=
  match s with
  | EmptyString => EmptyString
  | String a s' => if Ascii.eqb a c then lstrip c s' else s
  end.

(** [s.rstrip(c)] for a single character *)
Fixpoint rstrip (c : ascii) (s : string) : string :=
  match s with
  | EmptyString => EmptyString
  | String a s' =>
      match rstrip c s' with
      | EmptyString => if Ascii.eqb a c then EmptyString else String a EmptyString
      | r => String a r
      end
  end.

(** [s.strip(c)] for a single character *)
Definition strip (c : ascii) (s : string) : string := rstrip c (lstrip c s).

(** [c * n] *)
Fixpoint repeated (c : ascii) (n : nat) : string :=
  match n with
  | O => EmptyString
  | S n' => String c (repeated c n')
  end.

End PyStrMore.

(** ** [myst_nb/cache.py]: [execution_cache] *)
Module CacheApp.
Import Cache.

(** The value of the [jupyter_cache] setting: [True], a false value
    ([False], [None]), or a path given as a string. *)
Inductive CacheSetting : Type :=
  | UseDefault
  | Disabled
  | CachePath (p : string).

Record AppConfig : Type := mkConfig {
  build : BuildEnv;
  jupyter_execute_notebooks : bool;
  jupyter_cache : CacheSetting;
  srcdir : string
}.

(** The world together with the [path_cache] attribute of [app.env]. *)
Record App (E : Type) : Type := mkApp {
  world : World E;
  env_path_cache : option string
}.
Arguments mkApp {E}.
Arguments world {E}.
Arguments env_path_cache {E}.

(** [Path(env.env.srcdir).joinpath(".jupyter_cache")], as the string the
    path prints as. *)
Definition default_cache_path (srcdir : string) : string :=
  PyPath.str (PyPath.joinpath (PyPath.parse srcdir) ".jupyter_cache").

(** [execution_cache(app, env, added, changed, removed)]. The three
    arguments are sets of document names; the loop of [stage_and_execute]
    meets the members of [nb_list] in the order [elements] lists them. *)
Definition execution_cache {E} `{CacheBase E} (cfg : AppConfig)
    (added changed removed : gset string) : M (App E) (gset string) :=
  fun a =>
    let nb_list := added ∪ changed in
    if jupyter_execute_notebooks cfg then
      let '(path_cache, a1) :=
        match jupyter_cache cfg with
        | UseDefault =>
            let path_cache := default_cache_path (srcdir cfg) in
            (Some path_cache, mkApp (world a) (Some path_cache))
        | Disabled => (None, a)
        | CachePath p => (Some p, a)
        end in
      match stage_and_execute (build cfg) (elements nb_list) path_cache (world a1) with
      | Ok _ w => Ok nb_list (mkApp w (env_path_cache a1))
      | Raise e w => Raise e (mkApp w (env_path_cache a1))
      end
    else Ok nb_list a.

End CacheApp.

(** ** [myst_nb/nb_glue/domain.py]: paste nodes and roles *)
Module Paste.

(** A [PasteNode]: its [key] attribute and its [location], the source path
    and the line number when there is a reliable one. *)
Record PasteNode : Type := mkPaste {
  key : string;
  location : string * option Z
}.

(** A [PasteTextNode]: a paste node with a [formatting] attribute. *)
Record PasteTextNode : Type := mkPasteText {
  text_key : string;
  formatting : option string;
  text_location : string * option Z
}.

(** What the module takes from the standard library without the sources
    saying how: [str(Path(path).with_suffix(""))], which raises
    [ValueError] for a path without a name ([None] here), and
    [f"{float(text):>{formatting}}"], where [float] and the format may each
    raise [ValueError] ([None] here). *)
Class StdLib : Type := {
  with_suffix_empty : string -> option string;
  format_float : string -> string -> option string
}.

Section Roles.
Context `{StdLib}.

(** The location both the directive and the role record: no line number
    for a notebook, and the path without its suffix. *)
Definition paste_location (path : string) (lineno : option Z)
    : option (string * option Z) :=
  let lineno := if PyStrMore.endswith path ".ipynb" then None else lineno in
  match with_suffix_empty path with
  | Some path => Some (path, lineno)
  | None => None
  end.

(** [Paste.run]: [argument] is [self.arguments[0]], [path] and [lineno] what
    [state_machine.get_source_and_line] answers. [None] is the [ValueError]
    of [with_suffix]. *)
Definition paste_run (argument path : string) (lineno : option Z)
    : option PasteNode :=
  match paste_location path lineno with
  | Some loc => Some (mkPaste argument loc)
  | None => None
  end.

(** [paste_text_role]: the node of the list it returns; [path] is
    [inliner.document.current_source]. *)
Definition paste_text_role (text : string) (lineno : Z) (path : string)
    : option PasteTextNode :=
  let parts := PyStrMore.rsplit1 text ":" in
  let '(key, formatting) :=
    match parts with
    | [key; formatting] => (key, Some formatting)
    | key :: _ => (key, None)
    | [] => (EmptyString, None)
    end in
  match paste_location path (Some lineno) with
  | Some loc => Some (mkPasteText key formatting loc)
  | None => None
  end.

(** [if self.formatting:] *)
Definition wants_format (node : PasteTextNode) : option string :=
  match formatting node with
  | Some f => if String.eqb f "" then None else Some f
  | None => None
  end.

(** [PasteTextNode.create_node(outputs)]: the text of the inline node it
    returns, [None] when it returns [None]. *)
Definition create_node (node : PasteTextNode) (outputs : Output)
    : M unit (option string) :=
  match data outputs with
  | None => raise KeyError
  | Some mimebundle =>
      match PyDict.get "text/plain" mimebundle with
      | Some plain =>
          let text := PyStrMore.strip "'"%char plain in
          let text :=
            match wants_format node with
            | Some f =>
                match format_float text f with
                | Some newtext => newtext
                | None => text
                end
            | None => text
            end in
          ret (Some text)
      | None => ret None
      end
  end.

End Roles.

End Paste.

(** ** [NbGlueDomain.__contains__] and vocabulary for the store *)
Module GlueSpec.
Import Glue.

(** [key in domain] *)
Definition __contains__ (key : string) (s : Domaindata) : bool :=
  bool_decide (is_Some (cache s !! key)).

(** [docmap] attributes [k] to the document [d]. *)
Definition owned (dm : PyDict.t (gset string)) (k d : string) : Prop :=
  exists vs, In (d, vs) dm /\ k ∈ vs.

(** A dict has one entry per key. *)
Definition unique {V} (d : PyDict.t V) : Prop := NoDup (List.map fst d).

(** No key is attributed to two documents. *)
Definition exclusive (s : Domaindata) : Prop :=
  forall k d1 d2, owned (docmap s) k d1 -> owned (docmap s) k d2 -> d1 = d2.

(** Every attributed key is in the cache. *)
Definition owned_cached (s : Domaindata) : Prop :=
  forall k d, owned (docmap s) k d -> is_Some (cache s !! k).

Definition consistent (s : Domaindata) : Prop :=
  unique (docmap s) /\ exclusive s /\ owned_cached s.

(** Every reference of the cache leads to an object. *)
Definition live (s : Domaindata) : Prop :=
  forall k l, cache s !! k = Some l -> is_Some (heap s !! l).

(** A mimebundle with [GLUE_PREFIX] put in front of each MIME type. *)
Definition prefixed {Ntbk} `{Imports Ntbk} (plain : Mimebundle) : Mimebundle :=
  List.map (fun kv => (GLUE_PREFIX +:+ fst kv, snd kv)) plain.

(** An extraction that yields no key a document already owns. *)
Definition avoids_known {Ntbk} `{Imports Ntbk} (ntbk : Ntbk) (docname : string)
    (s : Domaindata) : Prop :=
  forall k, k ∈ dom (find_all_keys ntbk (existing_keys (docmap s)) docname) ->
            existing_keys (docmap s) !! k = None.

End GlueSpec.

(** ** More sample data *)
Module SampleMore.
Import Cache CacheApp Glue GlueSample Paste.

(** The sample tree built with a forced run. *)
Definition forced_env : BuildEnv :=
  mkEnv true ["index"] (fun docname => "/proj/docs/" +:+ docname +:+ ".ipynb").

(** A cache for which no executor is installed. *)
Definition engine_without_executor : RefEngine.t :=
  RefEngine.mk Sample.source_tree Sample.kernel [] [] [] 1 1000 [].

(** A cache that lists the records of its database but has lost the rows:
    every fetch by primary key raises [KeyError]. *)
Record Lossy : Type := mkLossy { listed : RefEngine.t }.

#[global] Instance lossy_cache : CacheBase Lossy := {
  stage_notebook_file path e :=
    (fst (RefEngine.stage path (listed e)),
     mkLossy (snd (RefEngine.stage path (listed e))));
  cache_notebook_file path overwrite e :=
    mkLossy (RefEngine.cache_direct path overwrite (listed e));
  get_staged_record path e := RefEngine.staged_record path (listed e);
  records_from_uri path e := RefEngine.records_for path (listed e);
  get_cache_record _ _ := None;
  merge_match_into_notebook ntbk e := RefEngine.merge_match ntbk (listed e);
  load_executor name e := RefEngine.load name (listed e);
  run_and_cache filter_pks e :=
    (fst (RefEngine.run filter_pks (listed e)),
     mkLossy (snd (RefEngine.run filter_pks (listed e))))
}.

Definition lossy_world : World Lossy :=
  mkWorld (mkLossy Sample.engine_with_history) [] [] Sample.source_tree ∅ ∅
          "/proj/docs".

(** A configuration that executes notebooks and keeps the cache at the
    default place. *)
Definition config : AppConfig :=
  mkConfig Sample.env true UseDefault "/proj/docs".

Definition app : App RefEngine.t :=
  mkApp (Sample.world_of Sample.fresh_engine) None.

(** A store in which [docA] owns [x] and [docB] owns [y]. *)
Definition tidy_store : Domaindata :=
  mkData objects {[ "x" := 1%positive; "y" := 2%positive ]}
         [("docA", {["x"]}); ("docB", {["y"]})].

(** A notebook gluing a third value under [z]. *)
Definition n_z : GlueSample.Ntbk := {[ "z" := 2%positive ]}.

(** A store holding an artifact with plain MIME types. *)
Definition plain_store : Domaindata :=
  mkData {[ 1%positive := Sample.result_4 ]} {[ "four" := 1%positive ]}
         [("docA", {["four"]})].

(** A stand-in for the standard library, used to run the definitions: the
    suffix of a path is what follows its last [.], and no text is taken for
    a number. *)
#[global] Instance stdlib : StdLib := {
  with_suffix_empty path :=
    if PyStr.rfind path "." <? 0 then Some path
    else Some (PyStr.slice path 0 (PyStr.rfind path "."));
  format_float _ _ := None
}.

Definition text_node : PasteTextNode :=
  mkPasteText "x" None ("/proj/docs/done", None).

Definition quoted_output : Output :=
  mkOutput "display_data" (Some [("text/plain", "'abc'")]) [].

End SampleMore.

(** * Properties *)

(** ** Python strings *)
Section PyStrExamples.
Import PyStr.

Example contains_index : contains "index" "docs/index" = true.
Proof. reflexivity. Qed.

Example contains_empty_pattern : contains "" "abc" = true.
Proof. reflexivity. Qed.

Example contains_needs_adjacency : contains "xz" "abxyz" = false.
Proof. reflexivity. Qed.

Example rfind_last_slash : rfind "a/b/c.ipynb" "/" = 3.
Proof. reflexivity. Qed.

Example rfind_absent : rfind "abc" "/" = -1.
Proof. reflexivity. Qed.

Example slice_inner : slice "docs/nb.ipynb" 5 7 = "nb".
Proof. reflexivity. Qed.

Example slice_negative_stop : slice "README" 0 (-1) = "READM".
Proof. reflexivity. Qed.

Example slice_crossed_bounds : slice "a.b/c" 4 1 = "".
Proof. reflexivity. Qed.

Example slice_from_past_end : slice_from "abc" 7 = "".
Proof. reflexivity. Qed.

Example remove_all_prefix :
  remove_all "application/papermill.record/text/plain"
             "application/papermill.record/" = "text/plain".
Proof. reflexivity. Qed.

Example remove_all_no_overlap : remove_all "aaa" "aa" = "a".
Proof. reflexivity. Qed.

Example remove_all_everywhere : remove_all "xabyabz" "ab" = "xyz".
Proof. reflexivity. Qed.

End PyStrExamples.

Module PyStrFacts.
Import PyStr.

Lemma app_empty b : "" +:+ b = b.
Proof. reflexivity. Qed.

Lemma app_cons x a b : String x a +:+ b = String x (a +:+ b).
Proof. reflexivity. Qed.

Lemma len_nonneg s : 0 <= len s.
Proof. unfold len. lia. Qed.

Lemma len_empty : len "" = 0.
Proof. reflexivity. Qed.

Lemma len_cons a s : len (String a s) = len s + 1.
Proof. unfold len. cbn [String.length]. lia. Qed.

Lemma len_app a b : len (a +:+ b) = len a + len b.
Proof.
  induction a as [|x a IH].
  - rewrite app_empty, len_empty. lia.
  - rewrite app_cons, !len_cons, IH. lia.
Qed.

Lemma app_assoc a b c : (a +:+ b) +:+ c = a +:+ (b +:+ c).
Proof.
  induction a as [|x a IH]; [reflexivity |].
  now rewrite !app_cons, IH.
Qed.

Lemma prefix_empty s : String.prefix "" s = true.
Proof. destruct s; reflexivity. Qed.

Lemma contains_char_cons c a s :
  contains (String c "") (String a s)
  = if Ascii.ascii_dec c a then true else contains (String c "") s.
Proof.
  simpl. destruct (Ascii.ascii_dec c a); [now rewrite prefix_empty |].
  reflexivity.
Qed.

Lemma contains_char_app c a b :
  contains (String c "") (a +:+ b)
  = contains (String c "") a || contains (String c "") b.
Proof.
  induction a as [|x a IH].
  - reflexivity.
  - rewrite app_cons, !contains_char_cons, IH.
    now destruct (Ascii.ascii_dec c x).
Qed.

Lemma rfind_from_absent c s i last :
  contains (String c "") s = false ->
  rfind_from (String c "") s i last = last.
Proof.
  revert i last. induction s as [|a s IH]; intros i last Hs.
  - reflexivity.
  - rewrite contains_char_cons in Hs.
    destruct (Ascii.ascii_dec c a) as [|Hne] eqn:Hd; [discriminate |].
    cbn [rfind_from String.prefix]. rewrite Hd. now apply IH.
Qed.

Lemma rfind_from_app c a b i last :
  rfind_from (String c "") (a +:+ String c b) i last
  = rfind_from (String c "") b (i + len a + 1) (i + len a).
Proof.
  revert i last. induction a as [|x a IH]; intros i last.
  - rewrite app_empty, len_empty. cbn [rfind_from String.prefix].
    destruct (Ascii.ascii_dec c c) as [_|Hne]; [| now destruct Hne].
    rewrite prefix_empty. f_equal; lia.
  - rewrite app_cons. cbn [rfind_from]. rewrite IH, len_cons.
    f_equal; lia.
Qed.

(** The last occurrence of a character: behind it the character does not
    occur again. *)
Lemma rfind_last c a b :
  contains (String c "") b = false ->
  rfind (a +:+ String c b) (String c "") = len a.
Proof.
  intros Hb. unfold rfind. rewrite rfind_from_app, rfind_from_absent by assumption.
  lia.
Qed.

Lemma rfind_none c s :
  contains (String c "") s = false -> rfind s (String c "") = -1.
Proof. intros Hs. unfold rfind. now apply rfind_from_absent. Qed.

Lemma substring_skip a n s :
  String.substring (String.length a) n (a +:+ s) = String.substring 0 n s.
Proof.
  induction a as [|x a IH]; [reflexivity |].
  rewrite app_cons. cbn [String.length String.substring]. exact IH.
Qed.

Lemma substring_take b c :
  String.substring 0 (String.length b) (b +:+ c) = b.
Proof.
  induction b as [|x b IH].
  - rewrite app_empty. now destruct c.
  - rewrite app_cons. cbn [String.length String.substring]. now rewrite IH.
Qed.

Lemma slice_middle a b c :
  slice (a +:+ b +:+ c) (len a) (len a + len b) = b.
Proof.
  unfold slice, clip. rewrite !len_app.
  pose proof (len_nonneg a). pose proof (len_nonneg b). pose proof (len_nonneg c).
  destruct (Z.ltb_spec (len a) 0); [lia |].
  destruct (Z.ltb_spec (len a + len b) 0); [lia |].
  rewrite !Z.min_l by lia.
  replace (len a + len b - len a) with (len b) by lia.
  unfold len. rewrite !Nat2Z.id.
  now rewrite substring_skip, substring_take.
Qed.

Lemma app_empty_r b : b +:+ "" = b.
Proof.
  induction b as [|x b IH]; [reflexivity |].
  now rewrite app_cons, IH.
Qed.

Lemma slice_from_app a b : slice_from (a +:+ b) (len a) = b.
Proof.
  unfold slice_from. rewrite len_app.
  rewrite <- (app_empty_r b) at 1. apply slice_middle.
Qed.

End PyStrFacts.

(** ** Paths *)
Module PyPathFacts.
Import PyStr PyPath.

Example root_of_single_slash : root "/proj/docs" = "/".
Proof. reflexivity. Qed.

Example root_of_two_slashes : root "//host/share" = "//".
Proof. reflexivity. Qed.

Example root_of_three_slashes : root "///proj" = "/".
Proof. reflexivity. Qed.

Example parse_drops_empty_names_and_dots :
  str (parse "proj//docs/./_build/") = "proj/docs/_build".
Proof. reflexivity. Qed.

Example parse_of_empty_string : str (parse "") = ".".
Proof. reflexivity. Qed.

Example joinpath_on_root : str (joinpath (parse "/") ".jupyter_cache") = "/.jupyter_cache".
Proof. reflexivity. Qed.

Example joinpath_on_relative :
  str (joinpath (parse "docs/") "glue_cache.json") = "docs/glue_cache.json".
Proof. reflexivity. Qed.

Lemma split_cons_other c s :
  Ascii.eqb c "/" = false ->
  split (String c s)
  = match split s with
    | p :: ps => String c p :: ps
    | [] => [String c EmptyString]
    end.
Proof. intros Hc. cbn [split]. now rewrite Hc. Qed.

Lemma no_slash_cons c p :
  contains "/" (String c p) = false ->
  Ascii.eqb c "/" = false /\ contains "/" p = false.
Proof.
  rewrite PyStrFacts.contains_char_cons.
  destruct (Ascii.ascii_dec "/" c) as [<- | Hne]; [discriminate |].
  intros Hp. split; [| assumption].
  apply Ascii.eqb_neq. congruence.
Qed.

Lemma split_name p : contains "/" p = false -> split p = [p].
Proof.
  induction p as [|c p IH]; [reflexivity |].
  intros [Hc Hp]%no_slash_cons.
  rewrite split_cons_other, IH by assumption. reflexivity.
Qed.

Lemma split_name_slash p s :
  contains "/" p = false -> split (p +:+ "/" +:+ s) = p :: split s.
Proof.
  induction p as [|c p IH].
  - reflexivity.
  - intros [Hc Hp]%no_slash_cons.
    rewrite PyStrFacts.app_cons, split_cons_other, IH by assumption.
    reflexivity.
Qed.

Lemma split_join comps :
  Forall component comps -> comps <> [] -> split (join comps) = comps.
Proof.
  induction 1 as [|p comps [_ Hp] Hall IH]; [congruence |]. intros _.
  destruct comps as [|q comps].
  - now apply split_name.
  - cbn [join]. rewrite split_name_slash by assumption.
    f_equal. now apply IH.
Qed.

Lemma filter_components comps :
  Forall component comps -> List.filter is_name comps = comps.
Proof.
  induction 1 as [|p comps [Hp _] Hall IH]; [reflexivity |].
  cbn [List.filter]. now rewrite Hp, IH.
Qed.

Lemma split_slash s : split (String "/" s) = "" :: split s.
Proof. reflexivity. Qed.

Lemma names_of_rooted comps :
  Forall component comps -> names_of ("/" +:+ join comps) = comps.
Proof.
  intros Hall. unfold names_of.
  change ("/" +:+ join comps) with (String "/" (join comps)).
  rewrite split_slash.
  change (List.filter is_name ("" :: split (join comps)))
    with (List.filter is_name (split (join comps))).
  destruct comps as [|p comps]; [reflexivity |].
  rewrite split_join by (assumption || discriminate).
  now apply filter_components.
Qed.

Lemma root_rooted comps :
  Forall component comps -> root ("/" +:+ join comps) = "/".
Proof.
  intros Hall.
  change ("/" +:+ join comps) with (String "/" (join comps)).
  destruct Hall as [|p comps [Hname Hp] Hall]; [reflexivity |].
  destruct p as [|c p]; [discriminate Hname |].
  apply no_slash_cons in Hp as [Hc _].
  assert (Hjoin : exists rest, join (String c p :: comps) = String c rest).
  { destruct comps; cbn [join]; eauto. }
  destruct Hjoin as [rest ->]. cbn [root].
  apply Ascii.eqb_neq in Hc.
  destruct c as [[] [] [] [] [] [] [] []]; try reflexivity.
  now destruct Hc.
Qed.

Lemma join_snoc_not_empty ps p : p <> "" -> join (ps ++ [p]) <> "".
Proof.
  intros Hp. induction ps as [|q ps IH]; [exact Hp |].
  cbn [app]. destruct (ps ++ [p]) as [|r rest] eqn:Hrest.
  - now destruct ps.
  - change (join (q :: r :: rest)) with (q +:+ "/" +:+ join (r :: rest)).
    intros Hempty. apply (f_equal len) in Hempty.
    rewrite !PyStrFacts.len_app, PyStrFacts.len_empty in Hempty.
    pose proof (PyStrFacts.len_nonneg q).
    pose proof (PyStrFacts.len_nonneg (join (r :: rest))).
    change (len "/") with 1 in Hempty. lia.
Qed.

(** Joining a name to a path never gives the empty string. *)
Lemma str_joinpath_name s name :
  component name -> str (joinpath (parse s) name) <> "".
Proof.
  intros [Hname Hslash].
  assert (Hroot : root name = "").
  { destruct name as [|c name]; [reflexivity |].
    apply no_slash_cons in Hslash as [Hc _]. apply Ascii.eqb_neq in Hc.
    cbn [root]. destruct c as [[] [] [] [] [] [] [] []]; try reflexivity.
    now destruct Hc. }
  assert (Hnames : names_of name = [name]).
  { unfold names_of. rewrite split_name by assumption.
    cbn [List.filter]. now rewrite Hname. }
  unfold joinpath. rewrite Hroot, Hnames. cbn [String.eqb].
  unfold str, parse. cbn [names anchor].
  assert (Hne : name <> "") by (intros ->; discriminate Hname).
  pose proof (join_snoc_not_empty (names_of s) name Hne) as Hjoin.
  destruct (names_of s ++ [name]) as [|p ps] eqn:Hl.
  - now destruct (names_of s).
  - intros Hempty. apply Hjoin.
    destruct (root s); [exact Hempty | discriminate Hempty].
Qed.

(** On a rooted path in normal form, joining a name appends it behind a
    slash. *)
Lemma str_joinpath_rooted comps name :
  Forall component comps -> component name ->
  str (joinpath (parse ("/" +:+ join comps)) name)
  = "/" +:+ join (comps ++ [name]).
Proof.
  intros Hall [Hname Hslash].
  assert (Hroot : root name = "").
  { destruct name as [|c name]; [reflexivity |].
    apply no_slash_cons in Hslash as [Hc _]. apply Ascii.eqb_neq in Hc.
    cbn [root]. destruct c as [[] [] [] [] [] [] [] []]; try reflexivity.
    now destruct Hc. }
  assert (Hnames : names_of name = [name]).
  { unfold names_of. rewrite split_name by assumption.
    cbn [List.filter]. now rewrite Hname. }
  unfold joinpath, parse. rewrite Hroot, Hnames, root_rooted, names_of_rooted
    by assumption.
  cbn [String.eqb anchor names]. unfold str. cbn [names anchor].
  destruct (comps ++ [name]) as [|p ps] eqn:Hl; [now destruct comps |].
  reflexivity.
Qed.

End PyPathFacts.

(** ** [cache.py]: the staging loop *)
Module CacheFacts.
Import Cache CacheSpec.

Section WithEngine.
Context {E : Type} `{CacheBase E}.

Lemma planned_stage_iff env nbs nb p :
  In (CallStage p) (planned env nbs nb) <->
  excluded env nb = false /\ p = doc2path env nb /\
  exists ntbk, nbs !! p = Some ntbk /\
    jupyter_notebook_force_run env || negb (has_outputs ntbk) = true.
Proof.
  unfold planned. split.
  - destruct (excluded env nb); [intros [] |].
    destruct (nbs !! doc2path env nb) as [ntbk|] eqn:Hnb; [| intros []].
    destruct (jupyter_notebook_force_run env || negb (has_outputs ntbk)) eqn:Hd.
    + intros [Heq | []]. injection Heq as <-. eauto.
    + intros [Heq | []]. discriminate.
  - intros (-> & -> & ntbk & -> & ->). now left.
Qed.

Lemma planned_unstaged env nbs nb :
  stays_unstaged env nbs nb ->
  List.filter is_stage (planned env nbs nb) = [].
Proof.
  unfold planned. intros [-> | (Hf & ntbk & -> & Ho)]; [reflexivity |].
  destruct (excluded env nb); [reflexivity |].
  now rewrite Hf, Ho.
Qed.

(** The loop, when every notebook it opens is readable: it returns, its
    calls are the planned ones in order, it leaves the disk alone, and
    the batch grows by one primary key per staging call. *)
Lemma stage_loop_returns env nb_list : forall pk_list (w : World E),
  readable env (notebooks w) nb_list ->
  exists pk_list' w',
    stage_loop env nb_list pk_list w = Ok pk_list' w' /\
    calls w' = calls w ++ flat_map (planned env (notebooks w)) nb_list /\
    engine w' = fold_left replay
                  (flat_map (planned env (notebooks w)) nb_list) (engine w) /\
    notebooks w' = notebooks w /\ files w' = files w /\
    dirs w' = dirs w /\ cwd w' = cwd w /\
    match List.filter is_stage (flat_map (planned env (notebooks w)) nb_list) with
    | [] => pk_list' = pk_list
    | staged =>
        exists pks, pk_list' = Some (default [] pk_list ++ pks) /\
                    length pks = length staged
    end.
Proof.
  induction nb_list as [|nb rest IH]; intros pk_list w Hread.
  - exists pk_list, w. cbn. rewrite app_nil_r. repeat split; reflexivity.
  - assert (Hrest : forall w' : World E, notebooks w' = notebooks w ->
                               readable env (notebooks w') rest).
    { intros w' Hw' nb' Hin. rewrite Hw'. apply Hread. now right. }
    cbn [stage_loop flat_map].
    destruct (excluded env nb) eqn:Hex.
    { assert (Hpl : planned env (notebooks w) nb = [])
        by (unfold planned; now rewrite Hex).
      rewrite Hpl. cbn [app]. apply IH. now apply Hrest. }
    destruct (Hread nb (or_introl eq_refl) Hex) as [ntbk Hnb].
    unfold bind at 1. unfold read_notebook. rewrite Hnb.
    destruct (jupyter_notebook_force_run env || negb (has_outputs ntbk)) eqn:Hd;
      [ assert (Hpl : planned env (notebooks w) nb = [CallStage (doc2path env nb)])
          by (unfold planned; now rewrite Hex, Hnb, Hd)
      | assert (Hpl : planned env (notebooks w) nb = [CallCache (doc2path env nb) true])
          by (unfold planned; now rewrite Hex, Hnb, Hd) ];
      rewrite Hpl.
    + unfold bind at 1. unfold stage_file.
      destruct (stage_notebook_file (doc2path env nb) (engine w)) as [r e] eqn:Hst.
      set (w1 := mkWorld e (calls w ++ [CallStage (doc2path env nb)]) (logs w)
                         (notebooks w) (dirs w) (files w) (cwd w)).
      destruct (IH (Some (default [] pk_list ++ [stage_pk r])) w1
                   (Hrest w1 eq_refl))
        as (pk' & w' & Hrun & Hcalls & Heng & Hnbs & Hfiles & Hdirs & Hcwd & Hbatch).
      exists pk', w'.
      replace (match pk_list with Some l => l | None => [] end)
        with (default [] pk_list) by now destruct pk_list.
      split; [exact Hrun |].
      split; [rewrite Hcalls; cbn; rewrite <- List.app_assoc; reflexivity |].
      split; [rewrite Heng; cbn; now rewrite Hst |].
      repeat (split; [assumption |]).
      cbn [app List.filter is_stage]. cbn [notebooks w1] in Hbatch.
      destruct (List.filter is_stage (flat_map (planned env (notebooks w)) rest))
        as [|c cs].
      * exists [stage_pk r]. now subst pk'.
      * destruct Hbatch as (pks & -> & Hlen).
        exists (stage_pk r :: pks). split.
        -- simpl. now rewrite <- List.app_assoc.
        -- cbn [length]. now rewrite Hlen.
    + apply orb_false_iff in Hd as [_ Hout]. apply negb_false_iff in Hout.
      rewrite Hout.
      set (w1 := mkWorld (cache_notebook_file (doc2path env nb) true (engine w))
                         (calls w ++ [CallCache (doc2path env nb) true])
                         (logs w ++ [(ERROR, will_not_run_msg (doc2path env nb))])
                         (notebooks w) (dirs w) (files w) (cwd w)).
      destruct (IH pk_list w1 (Hrest w1 eq_refl))
        as (pk' & w' & Hrun & Hcalls & Heng & Hnbs & Hfiles & Hdirs & Hcwd & Hbatch).
      exists pk', w'.
      split; [exact Hrun |].
      split; [rewrite Hcalls; cbn; rewrite <- List.app_assoc; reflexivity |].
      split; [rewrite Heng; reflexivity |].
      repeat (split; [assumption |]).
      exact Hbatch.
Qed.

(** Whether it returns or raises, the loop makes only planned calls. *)
Lemma stage_loop_calls_planned env nb_list : forall pk_list (w : World E),
  exists new,
    calls (final (stage_loop env nb_list pk_list w)) = calls w ++ new /\
    forall c, In c new -> In c (flat_map (planned env (notebooks w)) nb_list).
Proof.
  induction nb_list as [|nb rest IH]; intros pk_list w.
  - exists []. cbn. rewrite app_nil_r. split; [reflexivity | auto].
  - cbn [stage_loop flat_map].
    destruct (excluded env nb) eqn:Hex.
    { destruct (IH pk_list w) as (new & Hcalls & Hsub).
      exists new. split; [assumption |].
      intros c Hc. apply in_or_app. right. now apply Hsub. }
    unfold bind at 1. unfold read_notebook.
    destruct (notebooks w !! doc2path env nb) as [ntbk|] eqn:Hnb.
    2:{ exists []. cbn. rewrite app_nil_r. split; [reflexivity | intros c []]. }
    destruct (jupyter_notebook_force_run env || negb (has_outputs ntbk)) eqn:Hd;
      [ assert (Hpl : planned env (notebooks w) nb = [CallStage (doc2path env nb)])
          by (unfold planned; now rewrite Hex, Hnb, Hd)
      | assert (Hpl : planned env (notebooks w) nb = [CallCache (doc2path env nb) true])
          by (unfold planned; now rewrite Hex, Hnb, Hd) ];
      rewrite Hpl.
    + unfold bind at 1. unfold stage_file.
      destruct (stage_notebook_file (doc2path env nb) (engine w)) as [r e].
      match goal with
      | |- context [stage_loop env rest ?p ?w1] =>
          destruct (IH p w1) as (new & Hcalls & Hsub)
      end.
      exists (CallStage (doc2path env nb) :: new). split.
      * rewrite Hcalls. cbn. now rewrite <- List.app_assoc.
      * intros c [<- | Hc]; [now left | right; now apply Hsub].
    + apply orb_false_iff in Hd as [_ Hout]. apply negb_false_iff in Hout.
      rewrite Hout.
      match goal with
      | |- context [final (bind _ _ w)] =>
          unfold bind at 1, cache_file, on_engine, modify;
          unfold bind at 1, log, modify
      end.
      match goal with
      | |- context [stage_loop env rest ?p ?w1] =>
          destruct (IH p w1) as (new & Hcalls & Hsub)
      end.
      exists (CallCache (doc2path env nb) true :: new). split.
      * rewrite Hcalls. cbn. now rewrite <- List.app_assoc.
      * intros c [<- | Hc]; [now left | right; now apply Hsub].
Qed.

Lemma planned_shape env nbs nb_list c :
  In c (flat_map (planned env nbs) nb_list) ->
  exists path overwrite, c = CallStage path \/ c = CallCache path overwrite.
Proof.
  intros (nb & _ & Hc)%in_flat_map. unfold planned in Hc.
  destruct (excluded env nb); [destruct Hc |].
  destruct (nbs !! doc2path env nb) as [ntbk|]; [| destruct Hc].
  destruct (jupyter_notebook_force_run env || negb (has_outputs ntbk));
    destruct Hc as [<- | []]; exists (doc2path env nb), true; auto.
Qed.

Lemma unstaged_plan env nbs nb_list :
  (forall nb, In nb nb_list -> stays_unstaged env nbs nb) ->
  List.filter is_stage (flat_map (planned env nbs) nb_list) = [].
Proof.
  induction nb_list as [|nb rest IH]; intros Hall; [reflexivity |].
  cbn [flat_map]. rewrite List.filter_app.
  rewrite planned_unstaged by (apply Hall; now left).
  apply IH. intros nb' Hin. apply Hall. now right.
Qed.

Lemma unstaged_readable env nbs nb_list :
  (forall nb, In nb nb_list -> stays_unstaged env nbs nb) ->
  readable env nbs nb_list.
Proof.
  intros Hall nb Hin Hex.
  destruct (Hall nb Hin) as [Hex' | (_ & ntbk & Hnb & _)]; [congruence |].
  now exists ntbk.
Qed.

Lemma has_outputs_spec ntbk :
  has_outputs ntbk = true <->
  forall cell, In cell (cells ntbk) -> cell_type cell = "code" ->
               outputs cell <> [].
Proof.
  unfold has_outputs. rewrite forallb_forall. split.
  - intros Hall cell Hin Hcode Hnil.
    assert (Hf : In cell (List.filter is_code (cells ntbk))).
    { apply filter_In. split; [assumption |].
      unfold is_code. now apply String.eqb_eq. }
    specialize (Hall cell Hf). rewrite Hnil in Hall. discriminate.
  - intros Hall cell Hin. apply filter_In in Hin as [Hin Hcode].
    unfold is_code in Hcode. apply String.eqb_eq in Hcode.
    specialize (Hall cell Hin Hcode).
    destruct (outputs cell); [contradiction | reflexivity].
Qed.

(** [execute_staged_nb] always returns; it calls the engine at most
    once, with [pk_list or None]. *)
Lemma execute_staged_nb_returns pk_list (w : World E) :
  exists status w',
    execute_staged_nb pk_list w = Ok status w' /\
    notebooks w' = notebooks w /\
    match load_executor "basic" (engine w) with
    | Some error =>
        status = inl 1 /\ calls w' = calls w /\ engine w' = engine w /\
        logs w' = logs w ++ [(ERROR, error)]
    | None =>
        calls w' = calls w ++ [CallRun (or_None pk_list)] /\
        engine w' = snd (run_and_cache (or_None pk_list) (engine w)) /\
        status = inr (fst (run_and_cache (or_None pk_list) (engine w)))
    end.
Proof.
  unfold execute_staged_nb, bind, gets.
  destruct (load_executor "basic" (engine w)) as [error|].
  - eexists _, _. cbn. repeat split.
  - unfold run_staged.
    destruct (run_and_cache (or_None pk_list) (engine w)) as [r e].
    eexists _, _. cbn. repeat split.
Qed.

(** The [for item in cache_list] loop keeps the record created first:
    the timestamp it leaves in [latest] is the least of the list. *)
Lemma pick_latest_least cache_list :
  cache_list <> [] ->
  exists item, In item cache_list /\
    pick_latest cache_list = Some (created item, pk item) /\
    forall other, In other cache_list -> created item <= created other.
Proof.
  intros Hne. unfold pick_latest.
  assert (Hinv : forall l seen acc,
    match acc with
    | None => seen = []
    | Some (c, k) =>
        exists item, In item seen /\ c = created item /\ k = pk item /\
          forall other, In other seen -> c <= created other
    end ->
    match fold_left pick_step l acc with
    | None => seen ++ l = []
    | Some (c, k) =>
        exists item, In item (seen ++ l) /\ c = created item /\ k = pk item /\
          forall other, In other (seen ++ l) -> c <= created other
    end).
  { induction l as [|x l IH]; intros seen acc Hacc.
    - cbn. rewrite app_nil_r. exact Hacc.
    - cbn [fold_left].
      replace (seen ++ x :: l) with ((seen ++ [x]) ++ l)
        by now rewrite <- List.app_assoc.
      apply IH. destruct acc as [[c k]|]; cbn.
      + destruct Hacc as (item & Hin & -> & -> & Hmin).
        destruct (Z.gtb_spec (created item) (created x)).
        * exists x. split; [apply in_or_app; right; now left |].
          repeat split. intros other [Ho | [<- | []]]%in_app_or; [| lia].
          specialize (Hmin other Ho). lia.
        * exists item. split; [apply in_or_app; now left |].
          repeat split. intros other [Ho | [<- | []]]%in_app_or; [| lia].
          now apply Hmin.
      + subst seen. exists x. split; [now left |].
        repeat split. intros other [<- | []]. lia. }
  specialize (Hinv cache_list [] None eq_refl). cbn [app] in Hinv.
  destruct (fold_left pick_step cache_list None) as [[c k]|].
  - destruct Hinv as (item & Hin & -> & -> & Hmin). eauto.
  - contradiction.
Qed.

(** C3. A document of the pass that no exclusion pattern matches, whose
    code cells all carry at least one output, is, when no forced run is
    asked for, never staged: whether the pass completes or a notebook fails
    to load, it makes no [stage_notebook_file] call for the document's
    path. With a cache path set and every notebook the pass opens readable,
    the pass completes and has called
    [cache_notebook_file(path, overwrite=True)] for the document, and the
    batch handed to the execution step holds one primary key per staging
    call. The cache the loop leaves is the one in which the document has
    been recorded: the result of [cache_notebook_file(path, overwrite=True)]
    on the cache as the documents before it left it, followed by what the
    documents behind it do; the execution step changes it by its one
    [run_and_cache] call only. *)
Theorem outputs_present_cached_not_staged env nb_list path_cache
    (w : World E) d ntbk :
  In d nb_list ->
  excluded env d = false ->
  jupyter_notebook_force_run env = false ->
  notebooks w !! doc2path env d = Some ntbk ->
  (forall cell, In cell (cells ntbk) -> cell_type cell = "code" ->
                outputs cell <> []) ->
  (exists new,
     calls (final (stage_and_execute env nb_list path_cache w)) = calls w ++ new /\
     ~ In (CallStage (doc2path env d)) new) /\
  (truthy path_cache = true ->
   readable env (notebooks w) nb_list ->
   exists pk_list w1 w' new,
     stage_loop env nb_list None w = Ok pk_list w1 /\
     stage_and_execute env nb_list path_cache w = Ok tt w' /\
     calls w' = calls w ++ new /\
     In (CallCache (doc2path env d) true) new /\
     ~ In (CallStage (doc2path env d)) new /\
     length (default [] pk_list) = length (List.filter is_stage new) /\
     (exists before after,
        nb_list = before ++ d :: after /\
        engine w1
        = fold_left replay (flat_map (planned env (notebooks w)) after)
            (cache_notebook_file (doc2path env d) true
               (fold_left replay (flat_map (planned env (notebooks w)) before)
                          (engine w)))) /\
     engine w' = match load_executor "basic" (engine w1) with
                 | Some _ => engine w1
                 | None => snd (run_and_cache (or_None pk_list) (engine w1))
                 end).
Proof.
  intros Hin Hex Hforce Hnb Hout.
  apply has_outputs_spec in Hout.
  set (plan := flat_map (planned env (notebooks w)) nb_list).
  assert (Hd : planned env (notebooks w) d = [CallCache (doc2path env d) true]).
  { unfold planned. now rewrite Hex, Hnb, Hforce, Hout. }
  assert (Hcached : In (CallCache (doc2path env d) true) plan).
  { apply in_flat_map. exists d. split; [assumption |]. rewrite Hd. now left. }
  assert (Hnot : ~ In (CallStage (doc2path env d)) plan).
  { intros (nb & _ & Hst)%in_flat_map.
    apply planned_stage_iff in Hst as (_ & _ & ntbk' & Hnb' & Hdec).
    rewrite Hnb in Hnb'. injection Hnb' as <-.
    rewrite Hforce, Hout in Hdec. discriminate. }
  split.
  - destruct (stage_loop_calls_planned env nb_list None w) as (new & Hcalls & Hsub).
    unfold stage_and_execute. destruct (truthy path_cache).
    2:{ exists []. cbn. rewrite app_nil_r. split; [reflexivity | intros []]. }
    unfold bind at 1.
    destruct (stage_loop env nb_list None w) as [pk_list w1 | e w1]; cbn in Hcalls.
    + destruct (execute_staged_nb_returns pk_list w1)
        as (status & w' & Hexec & _ & Hrun).
      unfold bind at 1. rewrite Hexec. cbn.
      destruct (load_executor "basic" (engine w1)) as [error|].
      * destruct Hrun as (_ & -> & _). exists new. split; [assumption |].
        intros Hst. apply Hnot. now apply Hsub.
      * destruct Hrun as (-> & _). exists (new ++ [CallRun (or_None pk_list)]).
        split; [rewrite Hcalls; now rewrite <- List.app_assoc |].
        intros [Hst | [Hst | []]]%in_app_or; [| discriminate].
        apply Hnot. now apply Hsub.
    + exists new. split; [assumption |].
      intros Hst. apply Hnot. now apply Hsub.
  - intros Hpc Hread.
    destruct (stage_loop_returns env nb_list None w Hread)
      as (pk_list & w1 & Hloop & Hcalls & Heng & Hnbs & _ & _ & _ & Hbatch).
    destruct (execute_staged_nb_returns pk_list w1)
      as (status & w' & Hexec & _ & Hrun).
    fold plan in Hcalls, Heng, Hbatch.
    assert (Hlen : length (default [] pk_list) = length (List.filter is_stage plan)).
    { destruct (List.filter is_stage plan) as [|c cs].
      - now subst pk_list.
      - destruct Hbatch as (pks & -> & Hlen). exact Hlen. }
    assert (Hrun_all : stage_and_execute env nb_list path_cache w = Ok tt w').
    { unfold stage_and_execute. rewrite Hpc. unfold bind at 1. rewrite Hloop.
      unfold bind at 1. now rewrite Hexec. }
    assert (Hrecorded : exists before after,
              nb_list = before ++ d :: after /\
              engine w1
              = fold_left replay (flat_map (planned env (notebooks w)) after)
                  (cache_notebook_file (doc2path env d) true
                     (fold_left replay
                        (flat_map (planned env (notebooks w)) before)
                        (engine w)))).
    { destruct (in_split d nb_list Hin) as (before & after & Hsplit).
      exists before, after. split; [exact Hsplit |].
      rewrite Heng. unfold plan. rewrite Hsplit, flat_map_app. cbn [flat_map].
      rewrite Hd, !fold_left_app. reflexivity. }
    destruct (load_executor "basic" (engine w1)) as [error|] eqn:Hload.
    + destruct Hrun as (_ & Hc & He & _). exists pk_list, w1, w', plan.
      rewrite Hc, Hcalls, Hload.
      split; [assumption |]. split; [assumption |]. split; [reflexivity |].
      split; [assumption |]. split; [assumption |]. split; [assumption |].
      split; assumption.
    + destruct Hrun as (Hc & He & _).
      exists pk_list, w1, w', (plan ++ [CallRun (or_None pk_list)]).
      rewrite Hload.
      split; [assumption |]. split; [assumption |].
      split; [rewrite Hc, Hcalls; now rewrite <- List.app_assoc |].
      split; [apply in_or_app; now left |].
      split; [intros [Hp | [Hp | []]]%in_app_or; [now apply Hnot | discriminate] |].
      split; [rewrite List.filter_app; cbn; now rewrite app_nil_r |].
      split; assumption.
Qed.

(** C2, as amended. A pass that stages no document (each one is excluded,
    or holds outputs while no forced run is asked for) leaves the batch
    unstarted, and with a cache path set and the executor available the
    execution step is invoked all the same: after the direct caching calls
    the pass makes one [run_and_cache] call, with [filter_pks=None], and
    leaves the cache as that call leaves it. An empty batch fares no
    differently: [execute_staged_nb] sends [filter_pks=None] for [[]] as it
    does for [None]. *)
Theorem unstaged_pass_runs_without_filter env nb_list path_cache (w : World E) :
  truthy path_cache = true ->
  (forall nb, In nb nb_list -> stays_unstaged env (notebooks w) nb) ->
  let plan := flat_map (planned env (notebooks w)) nb_list in
  load_executor "basic" (fold_left replay plan (engine w)) = None ->
  (exists w1 w',
     stage_loop env nb_list None w = Ok None w1 /\
     stage_and_execute env nb_list path_cache w = Ok tt w' /\
     calls w' = calls w ++ plan ++ [CallRun None] /\
     (forall c, In c plan -> exists path overwrite, c = CallCache path overwrite) /\
     engine w' = snd (run_and_cache None (fold_left replay plan (engine w)))) /\
  (forall w0 : World E,
     load_executor "basic" (engine w0) = None ->
     execute_staged_nb (Some []) w0 = execute_staged_nb None w0 /\
     calls (final (execute_staged_nb (Some []) w0)) = calls w0 ++ [CallRun None] /\
     engine (final (execute_staged_nb (Some []) w0))
     = snd (run_and_cache None (engine w0))).
Proof.
  intros Hpc Hall plan Hload. split.
  - destruct (stage_loop_returns env nb_list None w (unstaged_readable _ _ _ Hall))
      as (pk_list & w1 & Hloop & Hcalls & Heng & _ & _ & _ & _ & Hbatch).
    fold plan in Hcalls, Heng, Hbatch.
    pose proof (unstaged_plan _ _ _ Hall) as Hnone. fold plan in Hnone.
    rewrite Hnone in Hbatch. subst pk_list.
    destruct (execute_staged_nb_returns None w1)
      as (status & w' & Hexec & _ & Hrun).
    rewrite Heng, Hload in Hrun. destruct Hrun as (Hc & He & _).
    exists w1, w'. split; [assumption |]. split.
    { unfold stage_and_execute. rewrite Hpc. unfold bind at 1. rewrite Hloop.
      unfold bind at 1. now rewrite Hexec. }
    split; [rewrite Hc, Hcalls; now rewrite <- List.app_assoc |].
    split; [| exact He].
    intros c Hc'.
    destruct (planned_shape env (notebooks w) nb_list c Hc')
      as (path & overwrite & [-> | ->]); [| eauto].
    assert (Hst : In (CallStage path) (List.filter is_stage plan))
      by (apply filter_In; split; [exact Hc' | reflexivity]).
    rewrite Hnone in Hst. destruct Hst.
  - intros w0 Hload0.
    destruct (execute_staged_nb_returns (Some []) w0)
      as (status & w0' & Hexec & _ & Hrun).
    rewrite Hload0 in Hrun. destruct Hrun as (Hc & He & _).
    split; [reflexivity |]. rewrite Hexec. cbn [final]. split; assumption.
Qed.

(** C1, as amended. When the cache lists records under the path of the
    document and the one the loop selects can be fetched, the outputs
    merged are those of the record that [merge_match_into_notebook] matches
    to the notebook: the call is given the notebook alone, and the world is
    left as it was. Which of the listed records the loop selected, and at
    what time any of them was created, has no part in it. When the cache
    lists no record under the path, the notebook is returned as it was
    given, whatever record may match its content. *)
Theorem merge_is_decided_by_the_notebook file_path ntbk path_cache dest_path
    (w : World E) :
  truthy path_cache = true ->
  (forall latest latest_pk,
     pick_latest (records_from_uri file_path (engine w))
       = Some (latest, latest_pk) ->
     is_Some (get_cache_record latest_pk (engine w)) ->
     records_from_uri file_path (engine w) <> [] /\
     add_notebook_outputs file_path ntbk path_cache dest_path w
     = match merge_match_into_notebook ntbk (engine w) with
       | Some (_, merged) => Ok merged w
       | None => Raise KeyError w
       end) /\
  (records_from_uri file_path (engine w) = [] ->
   exists w',
     add_notebook_outputs file_path ntbk path_cache dest_path w = Ok ntbk w' /\
     engine w' = engine w).
Proof.
  intros Hpc. split.
  - intros latest latest_pk Hpick [r Hr]. split.
    + intros Hnil. rewrite Hnil in Hpick. discriminate.
    + unfold add_notebook_outputs. rewrite Hpc.
      unfold bind, gets, find_cache_record. rewrite Hpick, Hr. cbn.
      destruct (merge_match_into_notebook ntbk (engine w)) as [[k merged]|];
        reflexivity.
  - intros Hnone. unfold add_notebook_outputs. rewrite Hpc.
    unfold bind, gets, find_cache_record. rewrite Hnone.
    cbn -[_relative_file_path report_name report_path traceback_saved_msg].
    destruct (failed_traceback
                (get_staged_record (_relative_file_path (cwd w) file_path)
                                   (engine w))) as [tb|];
      eexists; split; reflexivity.
Qed.

(** C6. When the cache holds no record for the document and the staging
    area holds no record for its relative path, or one without a
    traceback, [add_notebook_outputs] returns the notebook it was given
    and raises nothing; it leaves the world as it found it. *)
Theorem no_record_returns_notebook_unchanged file_path ntbk path_cache
    dest_path (w : World E) :
  records_from_uri file_path (engine w) = [] ->
  (let staged := get_staged_record (_relative_file_path (cwd w) file_path)
                                   (engine w) in
   staged = None \/
   exists r, staged = Some r /\ (traceback r = None \/ traceback r = Some "")) ->
  add_notebook_outputs file_path ntbk path_cache dest_path w = Ok ntbk w.
Proof.
  intros Hnone Hstaged. unfold add_notebook_outputs.
  destruct (truthy path_cache); [| reflexivity].
  unfold bind, gets, find_cache_record. rewrite Hnone. cbn.
  destruct Hstaged as [-> | (r & -> & [Htb | Htb])]; cbn;
    [reflexivity | now rewrite Htb | now rewrite Htb].
Qed.

(** A record listed for the document but gone when looked up by primary
    key: the [KeyError] is caught and logged, and the notebook comes back
    as it was given. *)
Lemma stale_cache_key_is_logged file_path ntbk path_cache dest_path
    (w : World E) latest latest_pk :
  truthy path_cache = true ->
  pick_latest (records_from_uri file_path (engine w)) = Some (latest, latest_pk) ->
  get_cache_record latest_pk (engine w) = None ->
  get_staged_record (_relative_file_path (cwd w) file_path) (engine w) = None ->
  add_notebook_outputs file_path ntbk path_cache dest_path w
  = Ok ntbk (mkWorld (engine w) (calls w)
               (logs w ++ [(ERROR, no_cache_key_msg
                                     (_relative_file_path (cwd w) file_path))])
               (notebooks w) (dirs w) (files w) (cwd w)).
Proof.
  intros Hpc Hpick Hgone Hstaged. unfold add_notebook_outputs. rewrite Hpc.
  unfold bind, gets, find_cache_record. rewrite Hpick, Hgone.
  cbn -[_relative_file_path no_cache_key_msg]. now rewrite Hstaged.
Qed.

Lemma report_name_stem dir base ext :
  (dir = "" \/ exists d, dir = d +:+ "/") ->
  PyStr.contains "/" base = false ->
  PyStr.contains "/" ext = false ->
  PyStr.contains "." ext = false ->
  report_name (dir +:+ base +:+ "." +:+ ext) = base.
Proof.
  intros Hdir Hbase Hext Hdot. unfold report_name.
  assert (Hrest : PyStr.contains "/" (base +:+ "." +:+ ext) = false).
  { rewrite !PyStrFacts.contains_char_app, Hbase, Hext. reflexivity. }
  assert (Hslash : PyStr.rfind (dir +:+ base +:+ "." +:+ ext) "/" + 1
                   = PyStr.len dir).
  { destruct Hdir as [-> | [d ->]].
    - rewrite PyStrFacts.app_empty, PyStrFacts.rfind_none by assumption.
      reflexivity.
    - rewrite PyStrFacts.app_assoc.
      change ("/" +:+ base +:+ "." +:+ ext)
        with (String "/" (base +:+ "." +:+ ext)).
      rewrite PyStrFacts.rfind_last by assumption.
      rewrite PyStrFacts.len_app. reflexivity. }
  assert (Hlast : PyStr.rfind (dir +:+ base +:+ "." +:+ ext) "."
                  = PyStr.len dir + PyStr.len base).
  { rewrite <- (PyStrFacts.app_assoc dir base).
    change ("." +:+ ext) with (String "." ext).
    rewrite PyStrFacts.rfind_last by assumption.
    apply PyStrFacts.len_app. }
  rewrite Hslash, Hlast. apply PyStrFacts.slice_middle.
Qed.

(** The reporting branch. When the cache holds no record for the document
    and the staging area answers, for its relative path, a record that
    carries a non-empty traceback,
    [add_notebook_outputs] makes the directory [<dest_path>/reports],
    writes the traceback as the whole content of
    [<dest_path>/reports/<name>.log] and logs at level INFO a message
    naming that file; it returns the notebook it was given. [<name>] is
    the slice of the relative path the code takes, and for a relative
    path of the form [dir/base.ext] it is [base]; the relative path is
    the document's path without its first characters, as many as the
    working directory has up to and with its last [/]. *)
Lemma traceback_branch_writes_report file_path ntbk path_cache dest_path
    (w : World E) r tb :
  truthy path_cache = true ->
  records_from_uri file_path (engine w) = [] ->
  get_staged_record (_relative_file_path (cwd w) file_path) (engine w)
    = Some r ->
  traceback r = Some tb ->
  tb <> "" ->
  let r_file_path := _relative_file_path (cwd w) file_path in
  let file_name := report_name r_file_path in
  let full_path := dest_path +:+ "/reports/" +:+ file_name +:+ ".log" in
  (exists w',
     add_notebook_outputs file_path ntbk path_cache dest_path w = Ok ntbk w' /\
     files w' = <[full_path := tb]> (files w) /\
     logs w' = logs w ++
       [(INFO, "Execution traceback for " +:+ file_name
                 +:+ " is saved in " +:+ full_path)] /\
     dirs w' = {[dest_path +:+ "/reports"]} ∪ dirs w /\
     engine w' = engine w /\ calls w' = calls w /\
     notebooks w' = notebooks w) /\
  (forall dir base ext,
     r_file_path = dir +:+ base +:+ "." +:+ ext ->
     (dir = "" \/ exists d, dir = d +:+ "/") ->
     PyStr.contains "/" base = false ->
     PyStr.contains "/" ext = false ->
     PyStr.contains "." ext = false ->
     file_name = base) /\
  (forall above rest,
     file_path = above +:+ rest ->
     PyStr.len above = PyStr.rfind (cwd w) "/" + 1 ->
     r_file_path = rest).
Proof.
  intros Hpc Hnone Hst Htb Hne r_file_path file_name full_path.
  split; [| split].
  - unfold add_notebook_outputs. rewrite Hpc.
    unfold bind, gets, find_cache_record. rewrite Hnone.
    cbn -[_relative_file_path report_name report_path traceback_saved_msg].
    rewrite Hst. unfold failed_traceback. rewrite Htb.
    apply String.eqb_neq in Hne. rewrite Hne.
    eexists. split; [reflexivity |].
    cbn -[_relative_file_path report_name report_path traceback_saved_msg].
    fold r_file_path. fold file_name.
    assert (Hpath : report_path (dest_path +:+ "/reports") file_name = full_path).
    { unfold report_path, full_path.
      rewrite PyStrFacts.app_assoc. reflexivity. }
    unfold traceback_saved_msg. rewrite Hpath. repeat split.
  - intros dir base ext Hshape Hdir Hbase Hext Hdot.
    unfold file_name. rewrite Hshape. now apply report_name_stem.
  - intros above rest -> Hlen. unfold r_file_path, _relative_file_path.
    rewrite <- Hlen. apply PyStrFacts.slice_from_app.
Qed.

(** The staging area is asked for the relative path only: when it has no
    record under that name, no report is written and nothing is logged at
    level INFO, whatever is staged under the path of the document. *)
Lemma no_report_without_record_of_relative_path file_path ntbk path_cache
    dest_path (w : World E) :
  get_staged_record (_relative_file_path (cwd w) file_path) (engine w) = None ->
  let w' := final (add_notebook_outputs file_path ntbk path_cache dest_path w) in
  files w' = files w /\ dirs w' = dirs w /\
  forall msg, In (INFO, msg) (logs w') -> In (INFO, msg) (logs w).
Proof.
  intros Hstaged. unfold add_notebook_outputs.
  destruct (truthy path_cache); [| cbn; auto].
  unfold bind, gets. destruct (find_cache_record file_path (engine w)) as [rec missing].
  assert (Hlog : forall w0 : World E,
            files (final ((if missing
                           then log ERROR (no_cache_key_msg
                                  (_relative_file_path (cwd w) file_path))
                           else ret tt) w0)) = files w0).
  { intros w0. destruct missing; reflexivity. }
  destruct missing; cbn -[_relative_file_path no_cache_key_msg];
    destruct rec as [r|];
    try (destruct (merge_match_into_notebook ntbk (engine w)) as [[k merged]|]);
    try rewrite Hstaged; cbn -[_relative_file_path no_cache_key_msg];
    (split; [reflexivity |]; split; [reflexivity |]);
    intros msg Hin; try exact Hin;
    apply in_app_or in Hin as [Hin | [Hin | []]]; (assumption || discriminate).
Qed.

End WithEngine.
End CacheFacts.

(** ** Runs on the sample tree *)
Module CacheRuns.
Import Cache CacheSpec Sample.

Example pass_stages_bare_and_caches_done :
  let w' := final (stage_and_execute env ["index"; "bare"; "done"]
                     (Some ".jupyter_cache") (world_of fresh_engine)) in
  calls w' = [CallStage "/proj/docs/bare.ipynb";
              CallCache "/proj/docs/done.ipynb" true;
              CallRun (Some [1])] /\
  RefEngine.executed (engine w') = [1].
Proof. vm_compute. split; reflexivity. Qed.

Example unreadable_notebook_raises :
  exists w', stage_and_execute env ["missing"; "bare"] (Some ".jupyter_cache")
               (world_of fresh_engine) = Raise OSError w'.
Proof. eexists. vm_compute. reflexivity. Qed.

Example relative_path_drops_parent_of_cwd :
  _relative_file_path "/proj/docs" "/proj/docs/bare.ipynb" = "docs/bare.ipynb".
Proof. reflexivity. Qed.

Example report_name_of_notebook : report_name "docs/bare.ipynb" = "bare".
Proof. reflexivity. Qed.

(** Without a [.] behind the last [/] the slice is not the base name:
    [rfind] answers [-1], which as a slice bound drops the last character,
    or an index before the slice starts. *)
Example report_name_without_extension : report_name "docs/README" = "READM".
Proof. reflexivity. Qed.

Example report_name_dot_in_directory_only : report_name "v1.2/notes" = "".
Proof. reflexivity. Qed.

(** The loop of [add_notebook_outputs] on two records of [done.ipynb],
    created at 1000 and at 2000: in whichever order it meets them, it
    leaves the primary key of the one created at 1000 in [latest_pk]. *)
Example selection_on_a_history_of_two :
  records_from_uri "/proj/docs/done.ipynb" engine_with_history = [older; newer] /\
  pick_latest [older; newer] = Some (created older, pk older) /\
  pick_latest [newer; older] = Some (created older, pk older) /\
  find_cache_record "/proj/docs/done.ipynb" engine_with_history
    = (Some older, false).
Proof. vm_compute. repeat split; reflexivity. Qed.

(** C1 fails as stated. [sums.ipynb] was built in a first version and,
    after an edit, in a second one, so that the cache lists two records
    under its path; the edit was then taken back and the document excluded
    from execution. The outputs merged into the notebook are those of the
    first build, the record created first, and not those of the record with
    the most recent creation time: the merge goes by the notebook's
    content. And where the cache lists no record under the path of the
    document, as after a renaming, nothing is merged, though a record
    matches the content of the notebook. *)
Lemma reverted_notebook_gets_outputs_of_older_record :
  let w := world_after_revert in
  let first := mkCache 1 "/proj/docs/sums.ipynb" 1000 in
  let second := mkCache 2 "/proj/docs/sums.ipynb" 1001 in
  (calls w = [CallCache "/proj/docs/sums.ipynb" true; CallRun None;
              CallCache "/proj/docs/sums.ipynb" true; CallRun None;
              CallRun None] /\
   RefEngine.cached (engine w) = [(first, sums_v1); (second, sums_v2)] /\
   records_from_uri "/proj/docs/sums.ipynb" (engine w) = [first; second] /\
   created first < created second /\
   merge_match_into_notebook sums_v1_cleared (engine w)
     = Some (pk first, sums_v1) /\
   add_notebook_outputs "/proj/docs/sums.ipynb" sums_v1_cleared
     (Some ".jupyter_cache") "/proj/_build" w = Ok sums_v1 w /\
   List.map outputs (cells sums_v1) <> List.map outputs (cells sums_v2)) /\
  (let w := world_after_rename in
   RefEngine.cached (engine w) = [(first, sums_v1)] /\
   records_from_uri "/proj/docs/totals.ipynb" (engine w) = [] /\
   merge_match_into_notebook sums_v1_cleared (engine w)
     = Some (pk first, sums_v1) /\
   add_notebook_outputs "/proj/docs/totals.ipynb" sums_v1_cleared
     (Some ".jupyter_cache") "/proj/_build" w = Ok sums_v1_cleared w /\
   sums_v1_cleared <> sums_v1).
Proof.
  vm_compute. split; repeat split; try reflexivity; discriminate.
Qed.

Lemma merge_is_decided_by_the_notebook_witness :
  add_notebook_outputs "/proj/docs/sums.ipynb" sums_v1_cleared
    (Some ".jupyter_cache") "/proj/_build" world_after_revert
  = Ok sums_v1 world_after_revert.
Proof.
  assert (Hpc : truthy (Some ".jupyter_cache") = true) by reflexivity.
  assert (Hpick : pick_latest (records_from_uri "/proj/docs/sums.ipynb"
                                 (engine world_after_revert))
                  = Some (1000, 1)) by (vm_compute; reflexivity).
  assert (Hsome : is_Some (get_cache_record 1 (engine world_after_revert)))
    by (eexists; vm_compute; reflexivity).
  assert (Hmerge : merge_match_into_notebook sums_v1_cleared
                     (engine world_after_revert) = Some (1, sums_v1))
    by (vm_compute; reflexivity).
  destruct (CacheFacts.merge_is_decided_by_the_notebook
              "/proj/docs/sums.ipynb" sums_v1_cleared (Some ".jupyter_cache")
              "/proj/_build" world_after_revert Hpc) as [Hlisted _].
  destruct (Hlisted 1000 1 Hpick Hsome) as [_ Hrun].
  rewrite Hrun, Hmerge. reflexivity.
Defined.

(** A pass that raises at an unreadable notebook leaves what it staged
    before in the staging area: this is how [legacy.ipynb] came to be staged
    without having been run. *)
Example interrupted_pass_leaves_legacy_staged :
  engine (final (stage_and_execute env ["legacy"; "missing"]
                   (Some ".jupyter_cache") (world_of fresh_engine)))
  = engine_with_legacy.
Proof. vm_compute. reflexivity. Qed.

(** C2 fails as stated: a pass over no document at all, on a cache in
    which [legacy.ipynb] is still staged, stages nothing and yet has the
    engine execute the staged record 1. *)
Lemma empty_pass_executes_legacy_notebook :
  let w := world_of engine_with_legacy in
  let w' := final (stage_and_execute env [] (Some ".jupyter_cache") w) in
  stage_loop env [] None w = Ok None w /\
  calls w' = [CallRun None] /\
  RefEngine.executed (engine w) = [] /\
  RefEngine.executed (engine w') = [1] /\
  RefEngine.executed (engine w') <> RefEngine.executed (engine w).
Proof. vm_compute. repeat split; try reflexivity. discriminate. Qed.

Lemma unstaged_pass_runs_without_filter_witness :
  exists w1 w',
    stage_loop env ["index"; "done"] None (world_of engine_with_legacy)
      = Ok None w1 /\
    stage_and_execute env ["index"; "done"] (Some ".jupyter_cache")
      (world_of engine_with_legacy) = Ok tt w' /\
    calls w' = [CallCache "/proj/docs/done.ipynb" true; CallRun None].
Proof.
  assert (Hload : load_executor "basic"
            (fold_left replay
               (flat_map (planned env (notebooks (world_of engine_with_legacy)))
                         ["index"; "done"])
               (engine (world_of engine_with_legacy))) = None)
    by (vm_compute; reflexivity).
  destruct (CacheFacts.unstaged_pass_runs_without_filter
              env ["index"; "done"] (Some ".jupyter_cache")
              (world_of engine_with_legacy)) as [(w1 & w' & Hloop & Hrun & Hcalls & _) _].
  - reflexivity.
  - intros nb [<- | [<- | []]].
    + left. reflexivity.
    + right. split; [reflexivity |].
      exists nb_done. split; reflexivity.
  - exact Hload.
  - exists w1, w'. split; [exact Hloop |]. split; [exact Hrun |].
    rewrite Hcalls. reflexivity.
Defined.

Lemma outputs_present_cached_not_staged_witness :
  exists pk_list w1 w' new,
    stage_loop env ["index"; "bare"; "done"] None (world_of fresh_engine)
      = Ok pk_list w1 /\
    stage_and_execute env ["index"; "bare"; "done"] (Some ".jupyter_cache")
      (world_of fresh_engine) = Ok tt w' /\
    calls w' = calls (world_of fresh_engine) ++ new /\
    In (CallCache (doc2path env "done") true) new /\
    ~ In (CallStage (doc2path env "done")) new /\
    length (default [] pk_list) = length (List.filter is_stage new) /\
    (exists before after,
       ["index"; "bare"; "done"] = before ++ "done" :: after /\
       engine w1
       = fold_left replay
           (flat_map (planned env (notebooks (world_of fresh_engine))) after)
           (cache_notebook_file (doc2path env "done") true
              (fold_left replay
                 (flat_map (planned env (notebooks (world_of fresh_engine)))
                           before)
                 (engine (world_of fresh_engine))))) /\
    engine w' = match load_executor "basic" (engine w1) with
                | Some _ => engine w1
                | None => snd (run_and_cache (or_None pk_list) (engine w1))
                end.
Proof.
  apply (CacheFacts.outputs_present_cached_not_staged
           env ["index"; "bare"; "done"] (Some ".jupyter_cache")
           (world_of fresh_engine) "done" nb_done).
  - simpl. auto.
  - reflexivity.
  - reflexivity.
  - reflexivity.
  - intros cell [<- | [<- | []]] Hcode.
    + discriminate Hcode.
    + discriminate.
  - reflexivity.
  - intros nb [<- | [<- | [<- | []]]] Hex.
    + vm_compute in Hex. discriminate Hex.
    + exists nb_bare. reflexivity.
    + exists nb_done. reflexivity.
Defined.

(** After the pass the cache holds a record for [done.ipynb], made without
    a run, and none for [bare.ipynb] but the one its run produced. *)
Example done_is_on_record_after_the_pass :
  let w' := build_pass env ["index"; "bare"; "done"] (world_of fresh_engine) in
  records_from_uri "/proj/docs/done.ipynb" (engine w')
    = [mkCache 2 "/proj/docs/done.ipynb" 1000] /\
  records_from_uri "/proj/docs/bare.ipynb" (engine w')
    = [mkCache 3 "/proj/docs/bare.ipynb" 1001] /\
  RefEngine.executed (engine w') = [1].
Proof. vm_compute. repeat split; reflexivity. Qed.

Lemma no_record_returns_notebook_unchanged_witness :
  add_notebook_outputs "/proj/docs/bare.ipynb" nb_bare (Some ".jupyter_cache")
    "/proj/_build" (world_of fresh_engine)
  = Ok nb_bare (world_of fresh_engine).
Proof.
  apply (CacheFacts.no_record_returns_notebook_unchanged
           "/proj/docs/bare.ipynb" nb_bare (Some ".jupyter_cache")
           "/proj/_build" (world_of fresh_engine)).
  - reflexivity.
  - left. reflexivity.
Defined.

(** C9, at the failing input. [bare.ipynb] is staged by the pass under
    the path [doc2path] gives, its run fails, and the staged record of that
    path carries the traceback. [add_notebook_outputs] asks the staging
    area for the relative path [docs/bare.ipynb], under which nothing was
    staged: it finds no record, writes no report and logs nothing, and
    returns the notebook in a world left as it was. *)
Theorem failed_notebook_gets_no_report :
  let w := build_pass env ["bare"] (world_of engine_with_failing_kernel) in
  calls w = [CallStage "/proj/docs/bare.ipynb"; CallRun (Some [1])] /\
  get_staged_record "/proj/docs/bare.ipynb" (engine w)
    = Some (mkStage 1 "/proj/docs/bare.ipynb"
                    (Some "ZeroDivisionError: division by zero")) /\
  records_from_uri "/proj/docs/bare.ipynb" (engine w) = [] /\
  _relative_file_path (cwd w) "/proj/docs/bare.ipynb" = "docs/bare.ipynb" /\
  get_staged_record "docs/bare.ipynb" (engine w) = None /\
  add_notebook_outputs "/proj/docs/bare.ipynb" nb_bare (Some ".jupyter_cache")
    "/proj/_build" w = Ok nb_bare w /\
  files w = ∅ /\ logs w = [].
Proof. vm_compute. repeat split; reflexivity. Qed.

End CacheRuns.

(** ** Dictionaries *)
Module PyDictFacts.
Import PyDict.

Lemma get_set_eq {V} k (v : V) d : get k (set k v d) = Some v.
Proof.
  induction d as [|[k' v'] d IH]; cbn.
  - now rewrite String.eqb_refl.
  - destruct (String.eqb k k') eqn:Hk; cbn; rewrite Hk; [reflexivity | exact IH].
Qed.

Lemma get_set_ne {V} k k' (v : V) d : k <> k' -> get k' (set k v d) = get k' d.
Proof.
  intros Hne. induction d as [|[k0 v0] d IH]; cbn.
  - apply not_eq_sym in Hne. apply String.eqb_neq in Hne. now rewrite Hne.
  - destruct (String.eqb k k0) eqn:Hk; cbn.
    + apply String.eqb_eq in Hk. subst k0.
      apply not_eq_sym in Hne. apply String.eqb_neq in Hne. now rewrite Hne.
    + now rewrite IH.
Qed.

Lemma get_pop_eq {V} k (d : t V) : get k (pop k d) = None.
Proof.
  unfold pop. induction d as [|[k' v'] d IH]; cbn; [reflexivity |].
  destruct (String.eqb k k') eqn:Hk; cbn; [exact IH |].
  now rewrite Hk.
Qed.

Lemma get_pop_ne {V} k k' (d : t V) : k <> k' -> get k' (pop k d) = get k' d.
Proof.
  intros Hne. unfold pop. induction d as [|[k0 v0] d IH]; cbn; [reflexivity |].
  destruct (String.eqb k k0) eqn:Hk; cbn.
  - apply String.eqb_eq in Hk. subst k0.
    apply not_eq_sym in Hne. apply String.eqb_neq in Hne. now rewrite Hne.
  - now rewrite IH.
Qed.

Lemma pop_absent {V} k (d : t V) : get k d = None -> pop k d = d.
Proof.
  unfold pop. induction d as [|[k' v'] d IH]; cbn; [reflexivity |].
  destruct (String.eqb k k') eqn:Hk; [discriminate |].
  intros Hd. cbn. now rewrite IH.
Qed.

End PyDictFacts.

(** ** [NbGlueDomain] *)
Module GlueFacts.
Import Glue.

(** The cache after the [pop] loop of [clear_doc]. *)
Lemma pop_keys_lookup (c : gmap string loc) (keys : gset string) k :
  (k ∈ keys -> set_fold (fun key c => delete key c) c keys !! k = None) /\
  (k ∉ keys -> set_fold (fun key c => delete key c) c keys !! k = c !! k).
Proof.
  apply (set_fold_ind_L
           (fun (r : gmap string loc) (X : gset string) =>
              (k ∈ X -> r !! k = None) /\ (k ∉ X -> r !! k = c !! k))).
  - split; [set_solver | reflexivity].
  - intros x X r Hx [IHin IHout].
    destruct (decide (x = k)) as [->|Hne].
    + split; [intros _; apply lookup_delete_eq | set_solver].
    + rewrite lookup_delete_ne by assumption. split.
      * intros [Hs%elem_of_singleton | Hin]%elem_of_union;
          [congruence | now apply IHin].
      * intros Hout. apply IHout. intros Hin. apply Hout.
        apply elem_of_union. now right.
Qed.

(** C5. [merge_domaindata] raises [NotImplementedError] whatever the
    document names and the other store's data are, and leaves the store as
    it was. *)
Theorem merge_domaindata_always_raises docnames otherdata s :
  exists msg,
    merge_domaindata docnames otherdata s = Raise (NotImplementedError msg) s.
Proof. eexists. reflexivity. Qed.

Section Domain.
Context {Ntbk : Type} `{Imports Ntbk}.

(** C8. After two calls of [add_notebook] for the same document, the key
    set [docmap] holds for it is the key set of the second extraction alone
    (the extraction being made over the keys known after the first call). *)
Theorem add_notebook_twice_keeps_latest_keys (ntbk1 ntbk2 : Ntbk) docname s :
  let s1 := add_notebook ntbk1 docname s in
  let s2 := add_notebook ntbk2 docname s1 in
  PyDict.get docname (docmap s2)
  = Some (dom (find_all_keys ntbk2 (existing_keys (docmap s1)) docname)).
Proof. intros s1 s2. subst s2. cbn. apply PyDictFacts.get_set_eq. Qed.

Lemma doc_entries_lookup s (vs : gset string) k o :
  doc_entries s vs !! k = Some o <->
  k ∈ vs /\ deref s (cache s !! k) = Some o.
Proof.
  unfold doc_entries, deref. rewrite lookup_omap_Some. split.
  - intros (l & Hl & (Hk & Hin)%map_lookup_filter_Some).
    cbn in Hin. rewrite Hk. auto.
  - intros [Hin Hk]. destruct (cache s !! k) as [l|] eqn:Hc; [| discriminate].
    exists l. split; [assumption |].
    apply map_lookup_filter_Some. auto.
Qed.

Lemma snapshot_In s d entries :
  In (d, entries) (snapshot s) <->
  exists vs, In (d, vs) (docmap s) /\ vs <> ∅ /\ entries = doc_entries s vs.
Proof.
  unfold snapshot. rewrite in_map_iff. split.
  - intros ([d' vs] & [= <- <-] & [Hin Hvs]%filter_In).
    exists vs. cbn in Hvs. apply negb_true_iff, bool_decide_eq_false in Hvs. auto.
  - intros (vs & Hin & Hvs & ->). exists (d, vs). split; [reflexivity |].
    apply filter_In. split; [assumption |].
    cbn. now apply negb_true_iff, bool_decide_eq_false.
Qed.

(** A lookup that does not strip the prefix shows the stored artifact, be
    it through the stored object or through a copy. *)
Lemma get_plain key view s :
  exists out s',
    get key view false s = Ok out s' /\
    deref s' out = deref s (cache s !! key) /\
    cache s' = cache s /\ docmap s' = docmap s.
Proof.
  unfold get, bind, gets, ret. destruct view; [| eauto 6].
  unfold deepcopy. destruct (cache s !! key) as [l|] eqn:Hc; [| eauto 6].
  cbn [deref]. destruct (heap s !! l) as [o|] eqn:Hl.
  - eexists _, _. split; [reflexivity |]. cbn.
    rewrite lookup_insert_eq. auto.
  - eexists _, _. split; [reflexivity |]. cbn. auto.
Qed.

(** When every key a document owns is in the cache, no document of the
    snapshot has an empty mapping. *)
Lemma snapshot_without_empty_mapping s :
  (forall d vs k, In (d, vs) (docmap s) -> k ∈ vs ->
                  is_Some (deref s (cache s !! k))) ->
  forall d entries, In (d, entries) (snapshot s) -> entries <> ∅.
Proof.
  intros Hinv d entries (vs & Hin & Hvs & ->)%snapshot_In Hempty.
  apply set_choose_L in Hvs as [k Hk].
  destruct (Hinv d vs k Hin Hk) as [o Ho].
  assert (Hlook : doc_entries s vs !! k = Some o) by now apply doc_entries_lookup.
  rewrite Hempty, lookup_empty in Hlook. discriminate.
Qed.

(** A lookup that strips the prefix shows the stripped mimebundle, on the
    stored object or on a copy. *)
Lemma get_stripping key view l o d s :
  cache s !! key = Some l ->
  heap s !! l = Some o ->
  data o = Some d ->
  exists out s',
    get key view true s = Ok out s' /\
    deref s' out
    = Some (mkOutput (output_type o) (Some (strip_prefix d)) (metadata o)).
Proof.
  intros Hc Hl Hd. unfold get, bind, gets, ret, set_data, modify. rewrite Hc.
  destruct view.
  - unfold deepcopy. rewrite Hl. cbn. rewrite lookup_insert_eq, Hd.
    eexists _, _. split; [reflexivity |]. cbn. apply lookup_insert_eq.
  - cbn. rewrite Hl, Hd.
    eexists _, _. split; [reflexivity |]. cbn. apply lookup_insert_eq.
Qed.

(** With [view=True] the stripping is done on a new object: what the cache
    refers to stays as it was. *)
Lemma get_copy_leaves_store key replace s out s' :
  get key true replace s = Ok out s' ->
  cache s' = cache s /\ docmap s' = docmap s /\
  forall l, is_Some (heap s !! l) -> heap s' !! l = heap s !! l.
Proof.
  unfold get, bind, gets, ret, set_data, modify, deepcopy, raise.
  destruct (cache s !! key) as [l0|]; [| destruct replace; [discriminate |]].
  2:{ intros [= <- <-]. auto. }
  destruct (heap s !! l0) as [o|] eqn:Hl0; [| destruct replace; [discriminate |]].
  2:{ intros [= <- <-]. auto. }
  assert (Hfresh : forall l, is_Some (heap s !! l) -> fresh (dom (heap s)) <> l).
  { intros l Hl%elem_of_dom Heq. subst l.
    now apply (is_fresh (dom (heap s))). }
  destruct replace; cbn.
  - rewrite lookup_insert_eq. destruct (data o); [| discriminate].
    intros [= <- <-]. cbn. repeat split.
    intros l Hl. rewrite !lookup_insert_ne by now apply Hfresh. reflexivity.
  - intros [= <- <-]. cbn. repeat split.
    intros l Hl. rewrite lookup_insert_ne by now apply Hfresh. reflexivity.
Qed.

(** C10. For a key of the cache whose artifact holds a mimebundle,
    [get(key, view=False, replace=True)] returns the stored object itself
    after replacing its ["data"] by the prefix-stripped mapping: cache and
    [docmap] are as before, the object at the stored reference has the new
    ["data"], every later plain lookup of the key shows it, a later
    stripping lookup strips what is left of it once more, and every
    snapshot entry of the key holds it. *)
Theorem get_in_place_strips_the_stored_artifact key l o d s :
  cache s !! key = Some l ->
  heap s !! l = Some o ->
  data o = Some d ->
  let o' := mkOutput (output_type o) (Some (strip_prefix d)) (metadata o) in
  let s' := mkData (<[l := o']> (heap s)) (cache s) (docmap s) in
  get key false true s = Ok (Some l) s' /\
  deref s' (cache s' !! key) = Some o' /\
  (forall view, exists out s'',
     get key view false s' = Ok out s'' /\ deref s'' out = Some o') /\
  (forall view, exists out s'',
     get key view true s' = Ok out s'' /\
     deref s'' out
     = Some (mkOutput (output_type o) (Some (strip_prefix (strip_prefix d)))
                      (metadata o))) /\
  (forall doc vs, In (doc, vs) (docmap s) -> key ∈ vs ->
     exists entries, In (doc, entries) (snapshot s') /\
                     entries !! key = Some o').
Proof.
  intros Hc Hl Hd o' s'.
  assert (Hstored : deref s' (cache s' !! key) = Some o').
  { cbn. rewrite Hc. cbn. apply lookup_insert_eq. }
  split; [| split; [exact Hstored | split; [| split]]].
  - unfold get, bind, gets, ret, set_data, modify. rewrite Hc. cbn.
    rewrite Hl, Hd. reflexivity.
  - intros view. destruct (get_plain key view s') as (out & s'' & Hget & Hout & _).
    exists out, s''. split; [assumption | congruence].
  - intros view.
    apply (get_stripping key view l o' (strip_prefix d) s');
      [exact Hc | apply lookup_insert_eq | reflexivity].
  - intros doc vs Hin Hkey. exists (doc_entries s' vs). split.
    + apply snapshot_In. exists vs. split; [exact Hin |].
      split; [set_solver | reflexivity].
    + apply doc_entries_lookup. auto.
Qed.

End Domain.

End GlueFacts.

(** ** Runs on the sample glue data *)
Module GlueRuns.
Import Glue GlueSample.

Example glued_store_after_one_notebook :
  add_notebook n2 "docB" fresh_store = glued_store.
Proof. vm_compute. reflexivity. Qed.

(** A key that a document owns is left out of the extraction made for
    another document: the store keeps the earlier value and the second
    document owns nothing. *)
Example colliding_key_is_left_out :
  add_notebook n2 "docB" (add_notebook n1 "docA" fresh_store)
  = mkData objects {[ "x" := 1%positive ]} [("docA", {["x"]}); ("docB", ∅)].
Proof. vm_compute. reflexivity. Qed.

Example second_extraction_replaces_key_set :
  PyDict.get "docA"
    (docmap (add_notebook n_y "docA" (add_notebook n1 "docA" fresh_store)))
  = Some {["y"]}.
Proof. vm_compute. reflexivity. Qed.

Example get_of_unknown_key_raises :
  get "y" true true glued_store = Raise TypeError glued_store.
Proof. vm_compute. reflexivity. Qed.

Example copy_is_stripped_store_is_not :
  exists s',
    get "x" true true glued_store = Ok (Some 3%positive) s' /\
    deref s' (Some 3%positive)
    = Some (mkOutput "display_data"
                     (Some [("text/plain", "2"); ("text/html", "<b>2</b>")])
                     [("scrapbook", "x")]) /\
    deref s' (cache s' !! "x") = Some (glued "2").
Proof. eexists. vm_compute. repeat split; reflexivity. Qed.

(** C7 fails as stated: after [docB] has glued [x], the file written by
    [write_cache] lists [x] with the stored artifact, whose MIME types
    carry the glue prefix, while a lookup of [x] with the default arguments
    returns the artifact with plain MIME types. *)
Lemma written_artifact_is_not_what_get_returns :
  add_notebook n2 "docB" fresh_store = glued_store /\
  write_cache "/proj/_build/.doctrees" None glued_store ∅
    !! "/proj/_build/.doctrees/glue_cache.json"
  = Some [("docB", {[ "x" := glued "2" ]})] /\
  (exists out s',
     get "x" true true glued_store = Ok out s' /\
     deref s' out
     = Some (mkOutput "display_data"
                      (Some [("text/plain", "2"); ("text/html", "<b>2</b>")])
                      [("scrapbook", "x")]) /\
     deref s' out <> Some (glued "2")).
Proof.
  split; [vm_compute; reflexivity |].
  split; [vm_compute; reflexivity |].
  eexists _, _. split; [vm_compute; reflexivity |].
  split; [vm_compute; reflexivity |].
  vm_compute. discriminate.
Qed.

Lemma get_in_place_strips_the_stored_artifact_witness :
  let stripped :=
    mkOutput "display_data"
             (Some [("text/plain", "2"); ("text/html", "<b>2</b>")])
             [("scrapbook", "x")] in
  get "x" false true glued_store
  = Ok (Some 2%positive)
       (mkData (<[2%positive := stripped]> (heap glued_store))
               (cache glued_store) (docmap glued_store)) /\
  (exists entries,
     In ("docB", entries)
        (snapshot (mkData (<[2%positive := stripped]> (heap glued_store))
                          (cache glued_store) (docmap glued_store))) /\
     entries !! "x" = Some stripped).
Proof.
  intros stripped.
  assert (Hc : cache glued_store !! "x" = Some 2%positive) by reflexivity.
  assert (Hl : heap glued_store !! 2%positive = Some (glued "2")) by reflexivity.
  assert (Hd : data (glued "2")
               = Some [("application/papermill.record/text/plain", "2");
                       ("application/papermill.record/text/html", "<b>2</b>")])
    by reflexivity.
  pose proof (GlueFacts.get_in_place_strips_the_stored_artifact
                "x" 2%positive (glued "2") _ glued_store Hc Hl Hd)
    as (Hget & _ & _ & _ & Hsnap).
  split; [exact Hget |].
  apply (Hsnap "docB" {["x"]}).
  - left. reflexivity.
  - apply elem_of_singleton. reflexivity.
Defined.

End GlueRuns.

(** ** [cache.py]: what a build pass does and does not do *)
Module CacheMore.
Import Cache CacheSpec.

Section WithEngine.
Context {E : Type} `{CacheBase E}.

Lemma planned_origin env nbs nb c :
  In c (planned env nbs nb) ->
  excluded env nb = false /\
  (c = CallStage (doc2path env nb) \/ c = CallCache (doc2path env nb) true).
Proof.
  unfold planned. destruct (excluded env nb); [intros [] |].
  destruct (nbs !! doc2path env nb) as [ntbk|]; [| intros []].
  destruct (jupyter_notebook_force_run env || negb (has_outputs ntbk));
    intros [<- | []]; auto.
Qed.

(** The loop over a list put together from two: the second part starts
    from the batch and the world the first part leaves, and is not run at
    all when the first part raises. *)
Lemma stage_loop_app env l1 : forall l2 pk_list (w : World E),
  stage_loop env (l1 ++ l2) pk_list w
  = match stage_loop env l1 pk_list w with
    | Ok pk_list' w' => stage_loop env l2 pk_list' w'
    | Raise e w' => Raise e w'
    end.
Proof.
  induction l1 as [|nb rest IH]; intros l2 pk_list w; [reflexivity |].
  cbn [app stage_loop].
  destruct (excluded env nb); [apply IH |].
  unfold bind, read_notebook, stage_file, cache_file, on_engine, modify, log, ret.
  destruct (notebooks w !! doc2path env nb) as [ntbk|]; [| reflexivity].
  destruct (jupyter_notebook_force_run env || negb (has_outputs ntbk)).
  - destruct (stage_notebook_file (doc2path env nb) (engine w)) as [r e].
    apply IH.
  - destruct (has_outputs ntbk); apply IH.
Qed.

(** X1. Whatever the pass is given and however it ends, every call it
    makes on the cache is either the one [run_and_cache] call or a
    [stage_notebook_file] or [cache_notebook_file(..., overwrite=True)] for
    the path of a document of the pass that no exclusion pattern matches:
    an excluded document is neither staged nor cached. *)
Theorem calls_are_for_documents_not_excluded env nb_list path_cache
    (w : World E) :
  exists new,
    calls (final (stage_and_execute env nb_list path_cache w)) = calls w ++ new /\
    forall c, In c new ->
      (exists filter_pks, c = CallRun filter_pks) \/
      exists nb, In nb nb_list /\ excluded env nb = false /\
        (c = CallStage (doc2path env nb) \/
         c = CallCache (doc2path env nb) true).
Proof.
  destruct (CacheFacts.stage_loop_calls_planned env nb_list None w)
    as (new & Hcalls & Hsub).
  assert (Hplan : forall c, In c new ->
            exists nb, In nb nb_list /\ excluded env nb = false /\
              (c = CallStage (doc2path env nb) \/
               c = CallCache (doc2path env nb) true)).
  { intros c (nb & Hin & Hc)%Hsub%in_flat_map.
    exists nb. split; [assumption |]. now apply planned_origin in Hc. }
  unfold stage_and_execute. destruct (truthy path_cache).
  2:{ exists []. cbn. rewrite app_nil_r. split; [reflexivity | intros c []]. }
  unfold bind at 1.
  destruct (stage_loop env nb_list None w) as [pk_list w1 | e w1]; cbn in Hcalls.
  - destruct (CacheFacts.execute_staged_nb_returns pk_list w1)
      as (status & w' & Hexec & _ & Hrun).
    unfold bind at 1. rewrite Hexec. cbn.
    destruct (load_executor "basic" (engine w1)) as [error|].
    + destruct Hrun as (_ & -> & _). exists new. split; [assumption |].
      intros c Hc. right. now apply Hplan.
    + destruct Hrun as (-> & _). exists (new ++ [CallRun (or_None pk_list)]).
      split; [rewrite Hcalls; now rewrite <- List.app_assoc |].
      intros c [Hc | [<- | []]]%in_app_or; [right; now apply Hplan | eauto].
  - exists new. split; [assumption |]. intros c Hc. right. now apply Hplan.
Qed.

(** X2. A pass that completes makes the planned calls in the order of its
    documents and then, when the executor loads, exactly one
    [run_and_cache] call: with [None] when it staged nothing, else with a
    batch of one primary key per notebook it staged. *)
Theorem pass_ends_with_one_run env nb_list path_cache (w : World E) :
  truthy path_cache = true ->
  readable env (notebooks w) nb_list ->
  let plan := flat_map (planned env (notebooks w)) nb_list in
  load_executor "basic" (fold_left replay plan (engine w)) = None ->
  exists w' filter_pks,
    stage_and_execute env nb_list path_cache w = Ok tt w' /\
    calls w' = calls w ++ plan ++ [CallRun filter_pks] /\
    engine w' = snd (run_and_cache filter_pks (fold_left replay plan (engine w))) /\
    match List.filter is_stage plan with
    | [] => filter_pks = None
    | staged => exists pks, filter_pks = Some pks /\ length pks = length staged
    end.
Proof.
  intros Hpc Hread plan Hload.
  destruct (CacheFacts.stage_loop_returns env nb_list None w Hread)
    as (pk_list & w1 & Hloop & Hcalls & Heng & _ & _ & _ & _ & Hbatch).
  fold plan in Hcalls, Heng, Hbatch.
  destruct (CacheFacts.execute_staged_nb_returns pk_list w1)
    as (status & w' & Hexec & _ & Hrun).
  rewrite Heng, Hload in Hrun. destruct Hrun as (Hc & He & _).
  exists w', (or_None pk_list). split; [| split; [| split]].
  - unfold stage_and_execute. rewrite Hpc. unfold bind at 1. rewrite Hloop.
    unfold bind at 1. now rewrite Hexec.
  - rewrite Hc, Hcalls. now rewrite <- List.app_assoc.
  - exact He.
  - destruct (List.filter is_stage plan) as [|c cs].
    + now subst pk_list.
    + destruct Hbatch as (pks & -> & Hlen). exists pks. cbn [default app] in *.
      split; [| exact Hlen].
      destruct pks; [discriminate Hlen | reflexivity].
Qed.

(** X3. With a forced run every document of the pass that no pattern
    excludes is staged, whether it holds outputs or not, and no notebook is
    cached directly. *)
Theorem forced_run_stages_every_document env nb_list path_cache (w : World E) :
  truthy path_cache = true ->
  readable env (notebooks w) nb_list ->
  jupyter_notebook_force_run env = true ->
  exists w' new,
    stage_and_execute env nb_list path_cache w = Ok tt w' /\
    calls w' = calls w ++ new /\
    (forall nb, In nb nb_list -> excluded env nb = false ->
                In (CallStage (doc2path env nb)) new) /\
    (forall path overwrite, ~ In (CallCache path overwrite) new).
Proof.
  intros Hpc Hread Hforce.
  set (plan := flat_map (planned env (notebooks w)) nb_list).
  assert (Hforced : forall nb, In nb nb_list -> excluded env nb = false ->
                      planned env (notebooks w) nb = [CallStage (doc2path env nb)]).
  { intros nb Hin Hex. destruct (Hread nb Hin Hex) as [ntbk Hnb].
    unfold planned. now rewrite Hex, Hnb, Hforce. }
  assert (Hstaged : forall nb, In nb nb_list -> excluded env nb = false ->
                      In (CallStage (doc2path env nb)) plan).
  { intros nb Hin Hex. apply in_flat_map. exists nb. split; [assumption |].
    rewrite Hforced by assumption. now left. }
  assert (Hnocache : forall path overwrite, ~ In (CallCache path overwrite) plan).
  { intros path overwrite (nb & Hin & Hc)%in_flat_map.
    destruct (planned_origin _ _ _ _ Hc) as [Hex _].
    rewrite Hforced in Hc by assumption. destruct Hc as [Hc | []]. discriminate. }
  destruct (CacheFacts.stage_loop_returns env nb_list None w Hread)
    as (pk_list & w1 & Hloop & Hcalls & _).
  fold plan in Hcalls.
  destruct (CacheFacts.execute_staged_nb_returns pk_list w1)
    as (status & w' & Hexec & _ & Hrun).
  assert (Hall : stage_and_execute env nb_list path_cache w = Ok tt w').
  { unfold stage_and_execute. rewrite Hpc. unfold bind at 1. rewrite Hloop.
    unfold bind at 1. now rewrite Hexec. }
  destruct (load_executor "basic" (engine w1)) as [error|].
  - destruct Hrun as (_ & Hc & _). exists w', plan.
    rewrite Hc, Hcalls. auto.
  - destruct Hrun as (Hc & _). exists w', (plan ++ [CallRun (or_None pk_list)]).
    split; [assumption |].
    split; [rewrite Hc, Hcalls; now rewrite <- List.app_assoc |].
    split.
    + intros nb Hin Hex. apply in_or_app. left. now apply Hstaged.
    + intros path overwrite [Hp | [Hp | []]]%in_app_or;
        [now apply (Hnocache path overwrite) | discriminate].
Qed.

(** X4. A document with a code cell that has no output is staged, forced
    run or not, and no [cache_notebook_file] call is made for its path. *)
Theorem missing_output_is_staged env nb_list path_cache (w : World E) d ntbk cell :
  truthy path_cache = true ->
  readable env (notebooks w) nb_list ->
  In d nb_list ->
  excluded env d = false ->
  notebooks w !! doc2path env d = Some ntbk ->
  In cell (cells ntbk) -> cell_type cell = "code" -> outputs cell = [] ->
  exists w' new,
    stage_and_execute env nb_list path_cache w = Ok tt w' /\
    calls w' = calls w ++ new /\
    In (CallStage (doc2path env d)) new /\
    forall overwrite, ~ In (CallCache (doc2path env d) overwrite) new.
Proof.
  intros Hpc Hread Hin Hex Hnb Hcell Hcode Hout.
  assert (Hno : has_outputs ntbk = false).
  { destruct (has_outputs ntbk) eqn:Hho; [| reflexivity].
    pose proof (proj1 (CacheFacts.has_outputs_spec ntbk) Hho) as Hall.
    now destruct (Hall cell Hcell Hcode). }
  set (plan := flat_map (planned env (notebooks w)) nb_list).
  assert (Hd : planned env (notebooks w) d = [CallStage (doc2path env d)]).
  { unfold planned. rewrite Hex, Hnb, Hno. cbn. now rewrite orb_true_r. }
  assert (Hstaged : In (CallStage (doc2path env d)) plan).
  { apply in_flat_map. exists d. split; [assumption |]. rewrite Hd. now left. }
  assert (Hnocache : forall overwrite, ~ In (CallCache (doc2path env d) overwrite) plan).
  { intros overwrite (nb & _ & Hc)%in_flat_map. unfold planned in Hc.
    destruct (excluded env nb); [destruct Hc |].
    destruct (notebooks w !! doc2path env nb) as [ntbk'|] eqn:Hnb'; [| destruct Hc].
    destruct (jupyter_notebook_force_run env || negb (has_outputs ntbk')) eqn:Hdec.
    - destruct Hc as [Hc | []]. discriminate.
    - destruct Hc as [[= Hpath] | []]. rewrite Hpath, Hnb in Hnb'.
      injection Hnb' as <-. rewrite Hno in Hdec. cbn in Hdec.
      now rewrite orb_true_r in Hdec. }
  destruct (CacheFacts.stage_loop_returns env nb_list None w Hread)
    as (pk_list & w1 & Hloop & Hcalls & _).
  fold plan in Hcalls.
  destruct (CacheFacts.execute_staged_nb_returns pk_list w1)
    as (status & w' & Hexec & _ & Hrun).
  assert (Hall : stage_and_execute env nb_list path_cache w = Ok tt w').
  { unfold stage_and_execute. rewrite Hpc. unfold bind at 1. rewrite Hloop.
    unfold bind at 1. now rewrite Hexec. }
  destruct (load_executor "basic" (engine w1)) as [error|].
  - destruct Hrun as (_ & Hc & _). exists w', plan.
    rewrite Hc, Hcalls. auto.
  - destruct Hrun as (Hc & _). exists w', (plan ++ [CallRun (or_None pk_list)]).
    split; [assumption |].
    split; [rewrite Hc, Hcalls; now rewrite <- List.app_assoc |].
    split; [apply in_or_app; now left |].
    intros overwrite [Hp | [Hp | []]]%in_app_or;
      [now apply (Hnocache overwrite) | discriminate].
Qed.

End WithEngine.
End CacheMore.

(** ** [cache.py]: failures and edge cases *)
Module CacheEdge.
Import Cache CacheSpec.

Section WithEngine.
Context {E : Type} `{CacheBase E}.

Lemma planned_never_runs env nbs nb_list filter_pks :
  ~ In (CallRun filter_pks) (flat_map (planned env nbs) nb_list).
Proof.
  intros (nb & _ & Hc)%in_flat_map.
  apply CacheMore.planned_origin in Hc as [_ [Hc | Hc]]; discriminate.
Qed.

(** X5. When a document of the pass cannot be opened, the pass raises at
    that document: the documents before it have been staged or cached, the
    ones behind it are not looked at, and [run_and_cache] is not called, so
    what was staged stays unexecuted. *)
Theorem unreadable_notebook_stops_the_pass env before nb after path_cache
    (w : World E) :
  truthy path_cache = true ->
  readable env (notebooks w) before ->
  excluded env nb = false ->
  notebooks w !! doc2path env nb = None ->
  exists w',
    stage_and_execute env (before ++ nb :: after) path_cache w = Raise OSError w' /\
    calls w' = calls w ++ flat_map (planned env (notebooks w)) before /\
    engine w' = fold_left replay (flat_map (planned env (notebooks w)) before)
                          (engine w) /\
    forall filter_pks,
      ~ In (CallRun filter_pks) (flat_map (planned env (notebooks w)) before).
Proof.
  intros Hpc Hread Hex Hnb.
  destruct (CacheFacts.stage_loop_returns env before None w Hread)
    as (pk_list & w1 & Hloop & Hcalls & Heng & Hnbs & _).
  exists w1. split; [| split; [exact Hcalls | split; [exact Heng |]]].
  - unfold stage_and_execute. rewrite Hpc. unfold bind at 1.
    rewrite CacheMore.stage_loop_app, Hloop. cbn [stage_loop]. rewrite Hex.
    unfold bind at 1. unfold read_notebook. now rewrite Hnbs, Hnb.
  - intros filter_pks. apply planned_never_runs.
Qed.

(** X6. When the executor cannot be loaded, the pass still returns: the
    message of the [ImportError] is logged as an error, the staging and
    caching calls have been made, and [run_and_cache] is not called. *)
Theorem executor_not_loaded_nothing_runs env nb_list path_cache (w : World E)
    error :
  truthy path_cache = true ->
  readable env (notebooks w) nb_list ->
  let plan := flat_map (planned env (notebooks w)) nb_list in
  load_executor "basic" (fold_left replay plan (engine w)) = Some error ->
  exists w',
    stage_and_execute env nb_list path_cache w = Ok tt w' /\
    calls w' = calls w ++ plan /\
    engine w' = fold_left replay plan (engine w) /\
    exists earlier, logs w' = earlier ++ [(ERROR, error)].
Proof.
  intros Hpc Hread plan Hload.
  destruct (CacheFacts.stage_loop_returns env nb_list None w Hread)
    as (pk_list & w1 & Hloop & Hcalls & Heng & _).
  fold plan in Hcalls, Heng.
  destruct (CacheFacts.execute_staged_nb_returns pk_list w1)
    as (status & w' & Hexec & _ & Hrun).
  rewrite Heng, Hload in Hrun. destruct Hrun as (_ & Hc & He & Hl).
  exists w'. split; [| split; [| split]].
  - unfold stage_and_execute. rewrite Hpc. unfold bind at 1. rewrite Hloop.
    unfold bind at 1. now rewrite Hexec.
  - now rewrite Hc.
  - exact He.
  - now exists (logs w1).
Qed.

(** X7. When the cache lists records for the document and each can be
    fetched by its primary key, [add_notebook_outputs] returns what
    [merge_match_into_notebook] makes of the notebook and touches nothing:
    the staged record and its traceback are not consulted and no report is
    written. When the merge finds no match its [KeyError] is not caught. *)
Theorem cache_record_means_merge file_path ntbk path_cache dest_path
    (w : World E) :
  truthy path_cache = true ->
  records_from_uri file_path (engine w) <> [] ->
  (forall r, In r (records_from_uri file_path (engine w)) ->
             is_Some (get_cache_record (pk r) (engine w))) ->
  add_notebook_outputs file_path ntbk path_cache dest_path w
  = match merge_match_into_notebook ntbk (engine w) with
    | Some (_, merged) => Ok merged w
    | None => Raise KeyError w
    end.
Proof.
  intros Hpc Hne Hall.
  destruct (CacheFacts.pick_latest_least _ Hne) as (item & Hin & Hpick & _).
  destruct (Hall item Hin) as [r Hr].
  unfold add_notebook_outputs. rewrite Hpc.
  unfold bind, gets, find_cache_record. rewrite Hpick, Hr. cbn.
  destruct (merge_match_into_notebook ntbk (engine w)) as [[k merged]|];
    reflexivity.
Qed.

(** X8. When the record the loop selected is gone from the cache, the
    [KeyError] of [get_cache_record] is caught: an error naming the
    relative path is logged, no merge is attempted and the notebook comes
    back as it was given, after the staged record has been consulted as if
    the cache had listed nothing. *)
Theorem stale_cache_key_is_caught file_path ntbk path_cache dest_path
    (w : World E) latest latest_pk :
  truthy path_cache = true ->
  pick_latest (records_from_uri file_path (engine w)) = Some (latest, latest_pk) ->
  get_cache_record latest_pk (engine w) = None ->
  exists w',
    add_notebook_outputs file_path ntbk path_cache dest_path w = Ok ntbk w' /\
    engine w' = engine w /\ calls w' = calls w /\
    In (ERROR, no_cache_key_msg (_relative_file_path (cwd w) file_path))
       (logs w') /\
    (failed_traceback
       (get_staged_record (_relative_file_path (cwd w) file_path) (engine w))
     = None -> files w' = files w /\ dirs w' = dirs w).
Proof.
  intros Hpc Hpick Hgone. unfold add_notebook_outputs. rewrite Hpc.
  unfold bind, gets, find_cache_record. rewrite Hpick, Hgone.
  cbn -[_relative_file_path no_cache_key_msg report_name report_path
        traceback_saved_msg failed_traceback].
  destruct (failed_traceback
              (get_staged_record (_relative_file_path (cwd w) file_path) (engine w)))
    as [tb|].
  - eexists. split; [reflexivity |].
    cbn -[_relative_file_path no_cache_key_msg report_name report_path
          traceback_saved_msg].
    repeat split; try discriminate.
    apply in_or_app. left. apply in_or_app. right. now left.
  - eexists. split; [reflexivity |]. cbn -[_relative_file_path no_cache_key_msg].
    repeat split. apply in_or_app. right. now left.
Qed.

Lemma pick_keeps_least l : forall c k,
  (forall r, In r l -> c <= created r) ->
  fold_left pick_step l (Some (c, k)) = Some (c, k).
Proof.
  induction l as [|x l IH]; intros c k Hall; [reflexivity |].
  cbn [fold_left pick_step].
  destruct (Z.gtb_spec c (created x)) as [Hgt | Hle].
  - specialize (Hall x (or_introl eq_refl)). lia.
  - apply IH. intros r Hr. apply Hall. now right.
Qed.

Lemma pick_stays_above l bound : forall acc,
  (forall r, In r l -> bound < created r) ->
  match acc with Some (c, _) => bound < c | None => True end ->
  match fold_left pick_step l acc with Some (c, _) => bound < c | None => True end.
Proof.
  induction l as [|x l IH]; intros acc Hall Hacc; [exact Hacc |].
  cbn [fold_left]. apply IH; [intros r Hr; apply Hall; now right |].
  specialize (Hall x (or_introl eq_refl)).
  destruct acc as [[c k]|]; cbn; [| exact Hall].
  destruct (c >? created x); assumption.
Qed.

(** X9. The record [add_notebook_outputs] selects is the one created
    first; among records created at the same time it is the one the list
    holds first. *)
Theorem pick_latest_takes_first_oldest before item after :
  (forall r, In r before -> created item < created r) ->
  (forall r, In r after -> created item <= created r) ->
  pick_latest (before ++ item :: after) = Some (created item, pk item).
Proof.
  intros Hbefore Hafter. unfold pick_latest.
  rewrite fold_left_app. cbn [fold_left].
  pose proof (pick_stays_above before (created item) None Hbefore I) as Hacc.
  destruct (fold_left pick_step before None) as [[c k]|]; cbn [pick_step].
  - destruct (Z.gtb_spec c (created item)); [| lia].
    now apply pick_keeps_least.
  - now apply pick_keeps_least.
Qed.

End WithEngine.

(** X10. A document under the parent of the working directory is named
    relative to that parent: with the working directory [parent/name] the
    path [parent/rest] becomes [rest]. *)
Theorem relative_to_parent_of_cwd parent name rest :
  PyStr.contains "/" name = false ->
  _relative_file_path (parent +:+ "/" +:+ name) (parent +:+ "/" +:+ rest) = rest.
Proof.
  intros Hname. unfold _relative_file_path.
  change ("/" +:+ name) with (String "/" name).
  rewrite PyStrFacts.rfind_last by assumption.
  rewrite <- (PyStrFacts.app_assoc parent "/" rest).
  replace (PyStr.len parent + 1) with (PyStr.len (parent +:+ "/"))
    by (rewrite PyStrFacts.len_app; reflexivity).
  apply PyStrFacts.slice_from_app.
Qed.

Lemma substring_splits s : forall k,
  (k <= String.length s)%nat ->
  exists above,
    s = above +:+ String.substring k (String.length s - k) s /\
    String.length above = k.
Proof.
  induction s as [|a s IH]; intros k Hk.
  - exists "". cbn in Hk. replace k with 0%nat by lia. split; reflexivity.
  - destruct k as [|k].
    + exists "". split; [| reflexivity]. rewrite PyStrFacts.app_empty.
      change (String.length (String a s) - 0)%nat with (S (String.length s)).
      cbn [String.substring]. f_equal.
      destruct (IH 0%nat ltac:(lia)) as (above & Hs & Hlen).
      destruct above; [| discriminate].
      rewrite PyStrFacts.app_empty, Nat.sub_0_r in Hs. exact Hs.
    + cbn [String.length] in Hk.
      destruct (IH k ltac:(lia)) as (above & Hs & Hlen).
      exists (String a above). split; [| cbn; now rewrite Hlen].
      rewrite PyStrFacts.app_cons. cbn [String.length String.substring Nat.sub].
      now f_equal.
Qed.

(** X11. [_relative_file_path] only ever drops leading characters: its
    result is what is left of the path behind as many characters as the
    working directory has up to and with its last [/] (all of the path when
    it is shorter), and the whole path when the working directory holds no
    [/]. *)
Theorem relative_file_path_is_a_suffix currentdir file_path :
  (exists above,
     file_path = above +:+ _relative_file_path currentdir file_path /\
     PyStr.len above
     = Z.min (PyStr.rfind currentdir "/" + 1) (PyStr.len file_path)) /\
  (PyStr.contains "/" currentdir = false ->
   _relative_file_path currentdir file_path = file_path).
Proof.
  assert (Hlow : -1 <= PyStr.rfind currentdir "/").
  { unfold PyStr.rfind.
    assert (Hgen : forall s i last, -1 <= last -> 0 <= i ->
                     -1 <= PyStr.rfind_from "/" s i last).
    { induction s as [|a s IH]; intros i last Hlast Hi.
      - cbn. lia.
      - cbn [PyStr.rfind_from]. apply IH; [| lia].
        destruct (String.prefix "/" (String a s)); lia. }
    apply Hgen; lia. }
  split.
  - unfold _relative_file_path, PyStr.slice_from, PyStr.slice, PyStr.clip.
    set (n := PyStr.rfind currentdir "/" + 1).
    pose proof (PyStrFacts.len_nonneg file_path) as Hlen.
    destruct (Z.ltb_spec n 0); [lia |].
    destruct (Z.ltb_spec (PyStr.len file_path) 0); [lia |].
    rewrite (Z.min_l (PyStr.len file_path)) by lia.
    destruct (substring_splits file_path (Z.to_nat (Z.min n (PyStr.len file_path))))
      as (above & Hs & Habove).
    { unfold PyStr.len in *. lia. }
    exists above. split.
    + replace (Z.to_nat (PyStr.len file_path - Z.min n (PyStr.len file_path)))
        with (String.length file_path - Z.to_nat (Z.min n (PyStr.len file_path)))%nat
        by (unfold PyStr.len; lia).
      exact Hs.
    + unfold PyStr.len at 1. rewrite Habove. lia.
  - intros Hnone. unfold _relative_file_path.
    rewrite PyStrFacts.rfind_none by assumption.
    change (-1 + 1) with (PyStr.len "").
    rewrite <- (PyStrFacts.app_empty file_path) at 1.
    apply PyStrFacts.slice_from_app.
Qed.

Lemma rfind_from_lower sub s : forall i last lo,
  lo <= last -> lo <= i -> lo <= PyStr.rfind_from sub s i last.
Proof.
  induction s as [|a s IH]; intros i last lo Hlast Hi.
  - cbn [PyStr.rfind_from]. destruct (String.prefix sub ""); lia.
  - cbn [PyStr.rfind_from]. apply IH; [| lia].
    destruct (String.prefix sub (String a s)); lia.
Qed.

Lemma rfind_from_found sub s : forall i last,
  PyStr.contains sub s = true -> i <= PyStr.rfind_from sub s i last.
Proof.
  induction s as [|a s IH]; intros i last Hs.
  - cbn [PyStr.contains] in Hs. rewrite orb_false_r in Hs.
    cbn [PyStr.rfind_from]. rewrite Hs. lia.
  - cbn [PyStr.contains] in Hs. cbn [PyStr.rfind_from].
    destruct (PyStr.contains sub s) eqn:Hrest.
    + specialize (IH (i + 1) (if String.prefix sub (String a s) then i else last)
                     eq_refl). lia.
    + rewrite orb_false_r in Hs. rewrite Hs. apply rfind_from_lower; lia.
Qed.

(** Where the working directory holds a [/], as every absolute path does,
    the relative path is shorter than the path of the document and so is
    another string. *)
Lemma relative_path_differs currentdir file_path :
  PyStr.contains "/" currentdir = true ->
  file_path <> "" ->
  _relative_file_path currentdir file_path <> file_path.
Proof.
  intros Hslash Hne.
  assert (Hfound : 0 <= PyStr.rfind currentdir "/")
    by (unfold PyStr.rfind; now apply rfind_from_found).
  unfold _relative_file_path, PyStr.slice_from, PyStr.slice, PyStr.clip.
  set (n := PyStr.rfind currentdir "/" + 1).
  pose proof (PyStrFacts.len_nonneg file_path) as Hlen.
  assert (Hpos : 0 < PyStr.len file_path).
  { destruct file_path; [congruence |]. rewrite PyStrFacts.len_cons.
    pose proof (PyStrFacts.len_nonneg file_path). lia. }
  destruct (Z.ltb_spec n 0); [lia |].
  destruct (Z.ltb_spec (PyStr.len file_path) 0); [lia |].
  rewrite (Z.min_l (PyStr.len file_path)) by lia.
  destruct (substring_splits file_path (Z.to_nat (Z.min n (PyStr.len file_path))))
    as (above & Hs & Habove).
  { unfold PyStr.len in *. lia. }
  replace (Z.to_nat (PyStr.len file_path - Z.min n (PyStr.len file_path)))
    with (String.length file_path - Z.to_nat (Z.min n (PyStr.len file_path)))%nat
    by (unfold PyStr.len; lia).
  intros Heq. rewrite Heq in Hs. apply (f_equal PyStr.len) in Hs.
  rewrite PyStrFacts.len_app in Hs.
  assert (PyStr.len above = Z.min n (PyStr.len file_path))
    by (unfold PyStr.len at 1; rewrite Habove; lia).
  lia.
Qed.

End CacheEdge.

(** ** [execution_cache] *)
Module CacheAppFacts.
Import Cache CacheSpec CacheApp.

Section WithEngine.
Context {E : Type} `{CacheBase E}.

Lemma default_cache_path_truthy srcdir :
  truthy (Some (default_cache_path srcdir)) = true.
Proof.
  cbn [truthy]. apply negb_true_iff, String.eqb_neq.
  apply PyPathFacts.str_joinpath_name. split; reflexivity.
Qed.

(** X12. [execution_cache] answers the union of the added and the changed
    documents whenever it returns. With execution switched off, or the
    cache setting false or an empty string, it returns at once and leaves
    the application as it was. Only the setting [True] touches
    [app.env.path_cache]: it then holds, also when the pass raises,
    [Path(srcdir).joinpath(".jupyter_cache")], which for a rooted source
    directory in normal form is the directory, a slash and
    [.jupyter_cache], and for the source directory [/] is
    [/.jupyter_cache]. *)
Theorem execution_cache_answers_added_and_changed cfg added changed removed
    (a : App E) :
  (forall nb_list a',
     execution_cache cfg added changed removed a = Ok nb_list a' ->
     nb_list = added ∪ changed) /\
  (jupyter_execute_notebooks cfg = false \/ jupyter_cache cfg = Disabled \/
   jupyter_cache cfg = CachePath "" ->
   execution_cache cfg added changed removed a = Ok (added ∪ changed) a) /\
  (jupyter_cache cfg <> UseDefault ->
   env_path_cache (final (execution_cache cfg added changed removed a))
   = env_path_cache a) /\
  (jupyter_execute_notebooks cfg = true -> jupyter_cache cfg = UseDefault ->
   env_path_cache (final (execution_cache cfg added changed removed a))
   = Some (PyPath.str (PyPath.joinpath (PyPath.parse (srcdir cfg))
                                       ".jupyter_cache")) /\
   forall comps,
     Forall PyPath.component comps ->
     srcdir cfg = "/" +:+ PyPath.join comps ->
     env_path_cache (final (execution_cache cfg added changed removed a))
     = Some ("/" +:+ PyPath.join (comps ++ [".jupyter_cache"]))).
Proof.
  split; [| split; [| split]].
  - intros nb_list a'. unfold execution_cache.
    destruct (jupyter_execute_notebooks cfg); [| now intros [= <- _]].
    destruct (jupyter_cache cfg);
      match goal with
      | |- context [stage_and_execute ?e ?l ?p ?w] =>
          destruct (stage_and_execute e l p w)
      end; (discriminate || now intros [= <- _]).
  - destruct a as [w p]. unfold execution_cache.
    intros [Hoff | [Hset | Hset]].
    + now rewrite Hoff.
    + rewrite Hset. destruct (jupyter_execute_notebooks cfg); reflexivity.
    + rewrite Hset. destruct (jupyter_execute_notebooks cfg); reflexivity.
  - intros Hset. unfold execution_cache.
    destruct (jupyter_execute_notebooks cfg); [| reflexivity].
    destruct (jupyter_cache cfg); [now destruct Hset | |];
      match goal with
      | |- context [stage_and_execute ?e ?l ?p ?w] =>
          destruct (stage_and_execute e l p w)
      end; reflexivity.
  - intros Hon Hset.
    assert (Hpath : env_path_cache
                      (final (execution_cache cfg added changed removed a))
                    = Some (default_cache_path (srcdir cfg))).
    { unfold execution_cache. rewrite Hon, Hset.
      match goal with
      | |- context [stage_and_execute ?e ?l ?p ?w] =>
          destruct (stage_and_execute e l p w)
      end; reflexivity. }
    split; [exact Hpath |].
    intros comps Hcomps Hsrc. rewrite Hpath. unfold default_cache_path.
    rewrite Hsrc, PyPathFacts.str_joinpath_rooted;
      [reflexivity | assumption | split; reflexivity].
Qed.

(** X13. With execution switched on and a cache path in use,
    [execution_cache] handles every added or changed document once: the
    calls it makes on the cache before the run are the planned calls of a
    list that holds each of these documents one time, so a document that is
    both added and changed is not staged twice. *)
Theorem execution_cache_handles_each_document_once cfg added changed removed
    (a : App E) path :
  jupyter_execute_notebooks cfg = true ->
  (jupyter_cache cfg = UseDefault \/
   jupyter_cache cfg = CachePath path /\ path <> "") ->
  (forall nb, nb ∈ added ∪ changed -> excluded (build cfg) nb = false ->
              is_Some (notebooks (world a) !! doc2path (build cfg) nb)) ->
  exists nb_list a' run,
    NoDup nb_list /\
    (forall nb, In nb nb_list <-> nb ∈ added \/ nb ∈ changed) /\
    execution_cache cfg added changed removed a = Ok (added ∪ changed) a' /\
    calls (world a')
    = calls (world a)
      ++ flat_map (planned (build cfg) (notebooks (world a))) nb_list ++ run /\
    (run = [] \/ exists filter_pks, run = [CallRun filter_pks]).
Proof.
  intros Hon Hset Hread.
  set (nb_list := elements (added ∪ changed)).
  assert (Hmem : forall nb, In nb nb_list <-> nb ∈ added \/ nb ∈ changed).
  { intros nb. unfold nb_list. rewrite <- list_elem_of_In, elem_of_elements.
    apply elem_of_union. }
  assert (Hreadable : readable (build cfg) (notebooks (world a)) nb_list).
  { intros nb Hin Hex. apply Hread; [| assumption].
    apply elem_of_union. now apply Hmem. }
  assert (Hgo : forall p w0, truthy p = true -> w0 = world a ->
            exists w' run,
              stage_and_execute (build cfg) nb_list p w0 = Ok tt w' /\
              calls w' = calls (world a)
                ++ flat_map (planned (build cfg) (notebooks (world a))) nb_list
                ++ run /\
              (run = [] \/ exists filter_pks, run = [CallRun filter_pks])).
  { intros p w0 Hp ->.
    destruct (CacheFacts.stage_loop_returns (build cfg) nb_list None (world a)
                Hreadable) as (pk_list & w1 & Hloop & Hcalls & _).
    destruct (CacheFacts.execute_staged_nb_returns pk_list w1)
      as (status & w' & Hexec & _ & Hrun).
    assert (Hall : stage_and_execute (build cfg) nb_list p (world a) = Ok tt w').
    { unfold stage_and_execute. rewrite Hp. unfold bind at 1. rewrite Hloop.
      unfold bind at 1. now rewrite Hexec. }
    destruct (load_executor "basic" (engine w1)) as [error|].
    - destruct Hrun as (_ & Hc & _). exists w', [].
      rewrite Hc, Hcalls, app_nil_r. auto.
    - destruct Hrun as (Hc & _). exists w', [CallRun (or_None pk_list)].
      rewrite Hc, Hcalls, <- List.app_assoc. eauto. }
  unfold execution_cache. rewrite Hon. fold nb_list.
  destruct Hset as [-> | [-> Hpath]].
  - destruct (Hgo (Some (default_cache_path (srcdir cfg))) (world a)
                  (default_cache_path_truthy _) eq_refl)
      as (w' & run & Hrun & Hcalls & Hshape).
    cbn [world env_path_cache]. rewrite Hrun.
    eexists nb_list, _, run. split; [unfold nb_list; apply NoDup_elements |].
    split; [exact Hmem |]. split; [reflexivity |]. cbn. auto.
  - assert (Hp : truthy (Some path) = true).
    { cbn. apply negb_true_iff. now apply String.eqb_neq. }
    destruct (Hgo (Some path) (world a) Hp eq_refl)
      as (w' & run & Hrun & Hcalls & Hshape).
    rewrite Hrun.
    eexists nb_list, _, run. split; [unfold nb_list; apply NoDup_elements |].
    split; [exact Hmem |]. split; [reflexivity |]. cbn. auto.
Qed.

End WithEngine.
End CacheAppFacts.

(** ** More on dictionaries *)
Module PyDictMore.
Import PyDict GlueSpec.

Lemma get_In {V} k (v : V) d : get k d = Some v -> In (k, v) d.
Proof.
  induction d as [|[k' v'] d IH]; cbn; [discriminate |].
  destruct (String.eqb k k') eqn:Hk.
  - apply String.eqb_eq in Hk. intros [= ->]. left. now subst.
  - intros Hd. right. now apply IH.
Qed.

Lemma get_None_In {V} k (d : t V) : get k d = None -> forall v, ~ In (k, v) d.
Proof.
  induction d as [|[k' v'] d IH]; cbn; [intros _ v [] |].
  destruct (String.eqb k k') eqn:Hk; [discriminate |].
  intros Hd v [[= -> ->] | Hin]; [| now apply (IH Hd v)].
  now rewrite String.eqb_refl in Hk.
Qed.

Lemma pop_In {V} k k' (v : V) d : In (k', v) (pop k d) <-> k' <> k /\ In (k', v) d.
Proof.
  unfold pop. rewrite filter_In. cbn. rewrite negb_true_iff, String.eqb_neq.
  split; intros [H1 H2]; split; auto.
Qed.

Lemma pop_comm {V} k1 k2 (d : t V) : pop k1 (pop k2 d) = pop k2 (pop k1 d).
Proof.
  unfold pop. induction d as [|[k v] d IH]; [reflexivity |].
  cbn. destruct (String.eqb k2 k) eqn:H2, (String.eqb k1 k) eqn:H1; cbn;
    rewrite ?H1, ?H2; cbn; now rewrite IH.
Qed.

Lemma set_In {V} k (v : V) d k' v' :
  In (k', v') (set k v d) -> (k' = k /\ v' = v) \/ (In (k', v') d).
Proof.
  induction d as [|[k0 v0] d IH]; cbn.
  - intros [[= <- <-] | []]. now left.
  - destruct (String.eqb k k0) eqn:Hk.
    + apply String.eqb_eq in Hk. subst k0.
      intros [[= <- <-] | Hin]; [now left | right; now right].
    + intros [Heq | Hin]; [right; now left |].
      destruct (IH Hin) as [? | ?]; [now left | right; now right].
Qed.

Lemma set_keys {V} k (v : V) d :
  List.map fst (set k v d)
  = if bool_decide (k ∈ List.map fst d) then List.map fst d
    else List.map fst d ++ [k].
Proof.
  induction d as [|[k0 v0] d IH]; [reflexivity |].
  cbn [set List.map fst]. destruct (String.eqb k k0) eqn:Hk.
  - apply String.eqb_eq in Hk. subst k0.
    rewrite bool_decide_eq_true_2 by apply list_elem_of_here. reflexivity.
  - apply String.eqb_neq in Hk. cbn [List.map fst]. rewrite IH.
    destruct (bool_decide (k ∈ List.map fst d)) eqn:Hd.
    + apply bool_decide_eq_true in Hd.
      rewrite bool_decide_eq_true_2 by now apply list_elem_of_further.
      reflexivity.
    + apply bool_decide_eq_false in Hd.
      rewrite bool_decide_eq_false_2; [reflexivity |].
      intros [Heq | Hin]%elem_of_cons; congruence.
Qed.

Lemma set_unique {V} k (v : V) d : unique d -> unique (set k v d).
Proof.
  unfold unique. rewrite set_keys. intros Hd.
  destruct (bool_decide (k ∈ List.map fst d)) eqn:Hk; [assumption |].
  apply bool_decide_eq_false in Hk.
  apply NoDup_app. split; [assumption |]. split; [| apply NoDup_singleton].
  intros x Hx [-> | []%elem_of_nil]%elem_of_cons. contradiction.
Qed.

Lemma set_In_other {V} k (v : V) d k' v' :
  unique d -> In (k', v') (set k v d) -> k' = k -> v' = v.
Proof.
  intros Hu Hin ->. revert Hu Hin. unfold unique.
  induction d as [|[k0 v0] d IH]; cbn.
  - intros _ [[= <-] | []]. reflexivity.
  - intros [Hk0 Hd]%NoDup_cons. destruct (String.eqb k k0) eqn:Hk.
    + apply String.eqb_eq in Hk. subst k0.
      intros [[= <-] | Hin]; [reflexivity |].
      exfalso. apply Hk0. apply list_elem_of_In.
      apply (in_map fst) in Hin. exact Hin.
    + apply String.eqb_neq in Hk.
      intros [[= Heq _] | Hin]; [congruence | now apply IH].
Qed.

Lemma pop_unique {V} k (d : t V) : unique d -> unique (pop k d).
Proof.
  unfold unique, pop. induction d as [|[k0 v0] d IH]; [auto |].
  cbn. intros [Hk0 Hd]%NoDup_cons.
  destruct (negb (String.eqb k k0)); [| now apply IH].
  cbn. apply NoDup_cons. split; [| now apply IH].
  intros Hin. apply Hk0. apply list_elem_of_In in Hin.
  apply in_map_iff in Hin as ([k1 v1] & <- & Hin%filter_In).
  apply list_elem_of_In. apply (in_map fst). apply Hin.
Qed.

End PyDictMore.

(** ** [NbGlueDomain]: ownership, invariants and lookups *)
Module GlueMore.
Import Glue GlueSpec.

Lemma record_owner_lookup (m : gmap string string) (vs : gset string) d v :
  (v ∈ vs -> set_fold (fun v acc => <[v := d]> acc) m vs !! v = Some d) /\
  (v ∉ vs -> set_fold (fun v acc => <[v := d]> acc) m vs !! v = m !! v).
Proof.
  apply (set_fold_ind_L
           (fun (r : gmap string string) (X : gset string) =>
              (v ∈ X -> r !! v = Some d) /\ (v ∉ X -> r !! v = m !! v))).
  - split; [intros []%not_elem_of_empty | reflexivity].
  - intros x X r Hx [IHin IHout].
    destruct (decide (x = v)) as [->|Hne].
    + split; [intros _; apply lookup_insert_eq |].
      intros Hout. exfalso. apply Hout. apply elem_of_union. left.
      now apply elem_of_singleton.
    + rewrite lookup_insert_ne by assumption. split.
      * intros [Hs%elem_of_singleton | Hin]%elem_of_union;
          [congruence | now apply IHin].
      * intros Hout. apply IHout. intros Hin. apply Hout.
        apply elem_of_union. now right.
Qed.

Lemma existing_keys_snoc dm d vs :
  existing_keys (dm ++ [(d, vs)])
  = set_fold (fun v acc => <[v := d]> acc) (existing_keys dm) vs.
Proof. unfold existing_keys. now rewrite fold_left_app. Qed.

Lemma existing_keys_owned dm v :
  (forall d, existing_keys dm !! v = Some d -> owned dm v d) /\
  (existing_keys dm !! v = None -> forall d, ~ owned dm v d).
Proof.
  induction dm as [|[d0 vs0] dm IH] using rev_ind.
  - split; [intros d; cbn; now rewrite lookup_empty |].
    intros _ d (vs & [] & _).
  - rewrite existing_keys_snoc.
    destruct (record_owner_lookup (existing_keys dm) vs0 d0 v) as [Hin Hout].
    destruct IH as [IHsome IHnone].
    destruct (decide (v ∈ vs0)) as [Hv | Hv].
    + rewrite (Hin Hv). split; [| discriminate].
      intros d [= <-]. exists vs0. split; [| assumption].
      apply in_or_app. right. now left.
    + rewrite (Hout Hv). split.
      * intros d Hd. destruct (IHsome d Hd) as (vs & Hvs & Hk).
        exists vs. split; [apply in_or_app; now left | assumption].
      * intros Hnone d (vs & [Hvs | [[= <- <-] | []]]%in_app_or & Hk).
        -- apply (IHnone Hnone d). now exists vs.
        -- contradiction.
Qed.

(** X14. The dictionary of known keys handed to the key extraction holds
    exactly the keys some document owns; a key owned by several documents
    is reported with the last of them in the order of [docmap]. *)
Theorem existing_keys_names_last_owner dm v :
  (is_Some (existing_keys dm !! v) <-> exists d, owned dm v d) /\
  (forall d, existing_keys dm !! v = Some d -> owned dm v d) /\
  (forall before d vs after,
     dm = before ++ (d, vs) :: after -> v ∈ vs ->
     (forall d' vs', In (d', vs') after -> v ∉ vs') ->
     existing_keys dm !! v = Some d).
Proof.
  destruct (existing_keys_owned dm v) as [Hsome Hnone].
  split; [| split; [exact Hsome |]].
  - split.
    + intros [d Hd]. exists d. now apply Hsome.
    + intros [d Hd]. destruct (existing_keys dm !! v) as [d'|] eqn:He; [eauto |].
      now destruct (Hnone eq_refl d).
  - clear Hsome Hnone. intros before d vs after -> Hv Hafter.
    induction after as [|[d' vs'] after IH] using rev_ind.
    + rewrite existing_keys_snoc.
      now apply (record_owner_lookup (existing_keys before) vs d v).
    + replace (before ++ (d, vs) :: after ++ [(d', vs')])
        with ((before ++ (d, vs) :: after) ++ [(d', vs')])
        by (rewrite <- List.app_assoc; reflexivity).
      rewrite existing_keys_snoc.
      destruct (record_owner_lookup
                  (existing_keys (before ++ (d, vs) :: after)) vs' d' v)
        as [_ Hout].
      rewrite Hout.
      * apply IH. intros d1 vs1 Hin. apply (Hafter d1 vs1).
        apply in_or_app. now left.
      * apply (Hafter d' vs'). apply in_or_app. right. now left.
Qed.

Lemma clear_doc_noop docname s :
  PyDict.get docname (docmap s) = None -> clear_doc docname s = s.
Proof.
  intros Hnone. unfold clear_doc. rewrite Hnone. cbn.
  rewrite set_fold_empty, PyDictFacts.pop_absent by assumption.
  now destruct s.
Qed.

Lemma clear_doc_cache docname s k :
  cache (clear_doc docname s) !! k
  = if decide (k ∈ default ∅ (PyDict.get docname (docmap s)))
    then None else cache s !! k.
Proof.
  cbn. destruct (GlueFacts.pop_keys_lookup (cache s)
                   (default ∅ (PyDict.get docname (docmap s))) k) as [Hin Hout].
  destruct (decide (k ∈ default ∅ (PyDict.get docname (docmap s)))); auto.
Qed.

(** X15. Clearing a document twice is clearing it once, and documents can
    be cleared in any order: the store that results is the same. *)
Theorem clear_doc_idempotent_and_commutes d1 d2 s :
  clear_doc d1 (clear_doc d1 s) = clear_doc d1 s /\
  clear_doc d1 (clear_doc d2 s) = clear_doc d2 (clear_doc d1 s).
Proof.
  split.
  - apply clear_doc_noop. cbn. apply PyDictFacts.get_pop_eq.
  - destruct (decide (d1 = d2)) as [-> | Hne]; [reflexivity |].
    assert (Hcache : cache (clear_doc d1 (clear_doc d2 s))
                     = cache (clear_doc d2 (clear_doc d1 s))).
    { apply map_eq. intros k. rewrite !clear_doc_cache.
      cbn [clear_doc docmap].
      rewrite (PyDictFacts.get_pop_ne d2 d1) by congruence.
      rewrite (PyDictFacts.get_pop_ne d1 d2) by congruence.
      destruct (decide (k ∈ default ∅ (PyDict.get d1 (docmap s)))),
               (decide (k ∈ default ∅ (PyDict.get d2 (docmap s)))); reflexivity. }
    assert (Hdocmap : docmap (clear_doc d1 (clear_doc d2 s))
                      = docmap (clear_doc d2 (clear_doc d1 s))).
    { cbn. apply PyDictMore.pop_comm. }
    destruct (clear_doc d1 (clear_doc d2 s)) as [h1 c1 m1] eqn:E1.
    destruct (clear_doc d2 (clear_doc d1 s)) as [h2 c2 m2] eqn:E2.
    cbn in Hcache, Hdocmap. subst c2 m2. f_equal.
    apply (f_equal heap) in E1, E2. cbn in E1, E2. congruence.
Qed.

Lemma clear_doc_foreign_key d d' k s :
  exclusive s ->
  owned (docmap s) k d' ->
  d' <> d ->
  cache (clear_doc d s) !! k = cache s !! k.
Proof.
  intros Hex Hown Hne. rewrite clear_doc_cache.
  destruct (decide (k ∈ default ∅ (PyDict.get d (docmap s)))) as [Hk |];
    [| reflexivity].
  destruct (PyDict.get d (docmap s)) as [vs|] eqn:Hd;
    [| now apply not_elem_of_empty in Hk].
  exfalso. apply Hne. apply (Hex k d' d Hown).
  exists vs. split; [now apply PyDictMore.get_In | exact Hk].
Qed.

(** X16. When no key is attributed to two documents, [clear_doc(d)] leaves
    the cache entry of every key another document owns as it was, and that
    document's key set too. *)
Theorem clear_doc_spares_keys_of_other_documents d d' k s :
  exclusive s ->
  owned (docmap s) k d' ->
  d' <> d ->
  cache (clear_doc d s) !! k = cache s !! k /\
  owned (docmap (clear_doc d s)) k d'.
Proof.
  intros Hex Hown Hne. split; [now apply (clear_doc_foreign_key d d') |].
  destruct Hown as (vs & Hin & Hk). exists vs. split; [| assumption].
  cbn. now apply PyDictMore.pop_In.
Qed.

(** X17. [clear_doc] keeps the store consistent: one entry per document,
    no key attributed to two documents, every attributed key in the
    cache. *)
Theorem clear_doc_keeps_consistency d s :
  consistent s -> consistent (clear_doc d s).
Proof.
  intros (Hu & Hex & Hoc).
  assert (Hsub : forall k d', owned (docmap (clear_doc d s)) k d' ->
                              d' <> d /\ owned (docmap s) k d').
  { intros k d' (vs & Hin & Hk). cbn in Hin.
    apply PyDictMore.pop_In in Hin as [Hne Hin]. split; [assumption |].
    now exists vs. }
  split; [| split].
  - cbn. now apply PyDictMore.pop_unique.
  - intros k da db [_ Ha]%Hsub [_ Hb]%Hsub. now apply (Hex k).
  - intros k d' [Hne Hown]%Hsub.
    rewrite (clear_doc_foreign_key d d' k s Hex Hown Hne).
    now apply (Hoc k d').
Qed.

Section Domain.
Context {Ntbk : Type} `{Imports Ntbk}.

(** X18. [add_notebook] puts every extracted key into the cache with the
    extracted object, replacing what the key held, and leaves every other
    key, every other document's key set and the objects as they were; the
    document's key set becomes the extracted keys, each of which the domain
    then contains. *)
Theorem add_notebook_upserts_extracted_keys (ntbk : Ntbk) docname s :
  let new_keys := find_all_keys ntbk (existing_keys (docmap s)) docname in
  let s' := add_notebook ntbk docname s in
  (forall k l, new_keys !! k = Some l -> cache s' !! k = Some l) /\
  (forall k, new_keys !! k = None -> cache s' !! k = cache s !! k) /\
  (forall k, k ∈ dom new_keys -> __contains__ k s' = true) /\
  PyDict.get docname (docmap s') = Some (dom new_keys) /\
  (forall d, d <> docname -> PyDict.get d (docmap s') = PyDict.get d (docmap s)) /\
  heap s' = heap s.
Proof.
  intros new_keys s'. subst s'. unfold add_notebook. fold new_keys. cbn.
  split; [| split; [| split; [| split; [| split]]]].
  - intros k l Hk. now apply lookup_union_Some_l.
  - intros k Hk. now apply lookup_union_r.
  - intros k [l Hl]%elem_of_dom. unfold __contains__. cbn.
    apply bool_decide_eq_true. exists l. now apply lookup_union_Some_l.
  - apply PyDictFacts.get_set_eq.
  - intros d Hd. apply PyDictFacts.get_set_ne. congruence.
  - reflexivity.
Qed.

(** X19. Clearing a document right after adding it removes every key it
    glued, also a key that held another value before, leaves every other
    key of the cache as it was before the notebook was added, and leaves no
    entry for the document. *)
Theorem add_then_clear_removes_extracted_keys (ntbk : Ntbk) docname s :
  let new_keys := find_all_keys ntbk (existing_keys (docmap s)) docname in
  let s' := clear_doc docname (add_notebook ntbk docname s) in
  (forall k, k ∈ dom new_keys -> cache s' !! k = None /\ __contains__ k s' = false) /\
  (forall k, k ∉ dom new_keys -> cache s' !! k = cache s !! k) /\
  PyDict.get docname (docmap s') = None /\
  (forall d, d <> docname -> PyDict.get d (docmap s') = PyDict.get d (docmap s)).
Proof.
  intros new_keys s'.
  assert (Hkeys : default ∅ (PyDict.get docname (docmap (add_notebook ntbk docname s)))
                  = dom new_keys).
  { cbn. now rewrite PyDictFacts.get_set_eq. }
  assert (Hlook : forall k, cache s' !! k
                  = if decide (k ∈ dom new_keys) then None
                    else cache (add_notebook ntbk docname s) !! k).
  { intros k. unfold s'. rewrite clear_doc_cache, Hkeys. reflexivity. }
  split; [| split; [| split]].
  - intros k Hk. assert (Hnone : cache s' !! k = None).
    { rewrite Hlook. now destruct (decide (k ∈ dom new_keys)). }
    split; [exact Hnone |]. unfold __contains__. rewrite Hnone.
    apply bool_decide_eq_false. now intros [? ?].
  - intros k Hk. rewrite Hlook.
    destruct (decide (k ∈ dom new_keys)); [contradiction |].
    cbn. fold new_keys. apply lookup_union_r. now apply not_elem_of_dom.
  - cbn. apply PyDictFacts.get_pop_eq.
  - intros d Hd. unfold s', clear_doc, add_notebook. cbn [docmap].
    rewrite PyDictFacts.get_pop_ne, PyDictFacts.get_set_ne by congruence.
    reflexivity.
Qed.

(** X20. When the extraction yields no key that a document already owns,
    [add_notebook] keeps the store consistent: one entry per document, no
    key attributed to two documents, every attributed key in the cache. *)
Theorem add_notebook_keeps_consistency (ntbk : Ntbk) docname s :
  consistent s ->
  avoids_known ntbk docname s ->
  consistent (add_notebook ntbk docname s).
Proof.
  intros (Hu & Hex & Hoc) Havoid.
  set (new_keys := find_all_keys ntbk (existing_keys (docmap s)) docname) in *.
  assert (Hsplit : forall k d, owned (docmap (add_notebook ntbk docname s)) k d ->
            (d = docname /\ k ∈ dom new_keys) \/
            (d <> docname /\ owned (docmap s) k d)).
  { intros k d (vs & Hin & Hk). cbn in Hin. fold new_keys in Hin.
    destruct (decide (d = docname)) as [-> | Hne].
    - left. split; [reflexivity |].
      now rewrite <- (PyDictMore.set_In_other _ _ _ _ _ Hu Hin eq_refl).
    - right. split; [assumption |].
      apply PyDictMore.set_In in Hin as [[? _] | Hin]; [contradiction |].
      now exists vs. }
  assert (Hfresh : forall k d, k ∈ dom new_keys -> ~ owned (docmap s) k d).
  { intros k d Hk. apply (existing_keys_owned (docmap s) k). now apply Havoid. }
  split; [| split].
  - cbn. now apply PyDictMore.set_unique.
  - intros k da db [[-> Ha] | [Hna Ha]]%Hsplit [[-> Hb] | [Hnb Hb]]%Hsplit.
    + reflexivity.
    + now destruct (Hfresh k db Ha).
    + now destruct (Hfresh k da Hb).
    + now apply (Hex k).
  - intros k d [[-> Hk] | [Hne Hown]]%Hsplit; cbn; fold new_keys.
    + apply elem_of_dom in Hk as [l Hl]. exists l. now apply lookup_union_Some_l.
    + destruct (Hoc k d Hown) as [l Hl].
      destruct (new_keys !! k) as [l'|] eqn:Hn.
      * exists l'. now apply lookup_union_Some_l.
      * exists l. now rewrite lookup_union_r.
Qed.

(** X21. In a consistent store whose references all lead to objects, every
    document of the snapshot is listed with all the keys it owns, so none
    is listed without keys. *)
Theorem snapshot_of_consistent_store_is_complete s d entries :
  consistent s ->
  live s ->
  In (d, entries) (snapshot s) ->
  exists vs, PyDict.get d (docmap s) = Some vs /\ dom entries = vs /\ vs <> ∅.
Proof.
  intros (Hu & Hex & Hoc) Hlive (vs & Hin & Hvs & ->)%GlueFacts.snapshot_In.
  exists vs. split; [| split; [| assumption]].
  - destruct (PyDict.get d (docmap s)) as [vs'|] eqn:Hget.
    + f_equal. apply PyDictMore.get_In in Hget.
      revert Hu Hin Hget. unfold unique. generalize (docmap s) as dm.
      induction dm as [|[d0 v0] dm IH]; [intros _ [] |].
      cbn. intros [Hd0 Hdm]%NoDup_cons [[= -> ->] | Hin] [[= <-] | Hget];
        try reflexivity.
      * exfalso. apply Hd0. apply list_elem_of_In.
        now apply (in_map fst) in Hget.
      * exfalso. apply Hd0. apply list_elem_of_In.
        now apply (in_map fst) in Hin.
      * now apply IH.
    + now destruct (PyDictMore.get_None_In _ _ Hget vs).
  - apply set_eq. intros k. rewrite elem_of_dom. split.
    + intros [o Ho]. now apply GlueFacts.doc_entries_lookup in Ho.
    + intros Hk. destruct (Hoc k d) as [l Hl]; [now exists vs |].
      destruct (Hlive k l Hl) as [o Ho]. exists o.
      apply GlueFacts.doc_entries_lookup. split; [assumption |].
      cbn. now rewrite Hl.
Qed.

(** X22. A cleared document is not exported: the snapshot taken after
    [clear_doc(d)] has no entry for [d], and lists for every other document
    what is left of its keys. *)
Theorem cleared_document_is_not_exported d s :
  (forall entries, ~ In (d, entries) (snapshot (clear_doc d s))) /\
  (forall d' entries, In (d', entries) (snapshot (clear_doc d s)) ->
     exists entries', In (d', entries') (snapshot s) /\
       forall k o, entries !! k = Some o -> entries' !! k = Some o).
Proof.
  split.
  - intros entries (vs & Hin & _)%GlueFacts.snapshot_In. cbn in Hin.
    apply PyDictMore.pop_In in Hin as [Hne _]. now apply Hne.
  - intros d' entries (vs & Hin & Hvs & ->)%GlueFacts.snapshot_In. cbn in Hin.
    apply PyDictMore.pop_In in Hin as [_ Hin].
    exists (doc_entries s vs). split; [apply GlueFacts.snapshot_In; eauto |].
    intros k o [Hk Ho]%GlueFacts.doc_entries_lookup.
    apply GlueFacts.doc_entries_lookup. split; [assumption |].
    unfold deref in *. rewrite clear_doc_cache in Ho.
    destruct (decide (k ∈ default ∅ (PyDict.get d (docmap s)))); [discriminate |].
    exact Ho.
Qed.

(** X23. A lookup never changes which keys the store holds, which objects
    they refer to, or which document owns them, whatever its arguments and
    whether it returns or raises. With [view=True] every object of the
    store keeps its content; with [view=False] every object but the one
    the key refers to does. *)
Theorem get_keeps_the_index key view replace s :
  let s' := final (get key view replace s) in
  cache s' = cache s /\ docmap s' = docmap s /\
  (forall l, is_Some (heap s !! l) ->
             view = true \/ cache s !! key <> Some l ->
             heap s' !! l = heap s !! l).
Proof.
  unfold get, bind, gets, ret, set_data, modify, deepcopy, raise.
  assert (Hfresh : forall l, is_Some (heap s !! l) -> fresh (dom (heap s)) <> l).
  { intros l Hl%elem_of_dom Heq. subst l. now apply (is_fresh (dom (heap s))). }
  destruct (cache s !! key) as [l0|] eqn:Hc.
  2:{ destruct view, replace; cbn; auto. }
  destruct view.
  - destruct (heap s !! l0) as [o|] eqn:Hl0.
    + destruct replace; cbn.
      * rewrite lookup_insert_eq. destruct (data o); cbn.
        -- repeat split. intros l Hl _.
           rewrite !lookup_insert_ne by now apply Hfresh. reflexivity.
        -- repeat split. intros l Hl _.
           rewrite lookup_insert_ne by now apply Hfresh. reflexivity.
      * repeat split. intros l Hl _.
        rewrite lookup_insert_ne by now apply Hfresh. reflexivity.
    + destruct replace; cbn; auto.
  - destruct replace; cbn; [| auto].
    destruct (heap s !! l0) as [o|] eqn:Hl0; cbn; [| auto].
    destruct (data o); cbn; [| auto].
    repeat split. intros l Hl [Hv | Hne]; [discriminate |].
    rewrite lookup_insert_ne by congruence. reflexivity.
Qed.

(** X24. For a key the domain does not contain, a lookup that strips the
    prefix, the default one included, raises [TypeError], and a lookup that
    does not strip answers [None]; either way the store is left as it
    was. *)
Theorem get_of_key_not_contained key view s :
  __contains__ key s = false ->
  get key view true s = Raise TypeError s /\
  get key view false s = Ok None s.
Proof.
  unfold __contains__. intros Hc. apply bool_decide_eq_false in Hc.
  assert (Hnone : cache s !! key = None).
  { destruct (cache s !! key) eqn:He; [| reflexivity]. destruct Hc. eauto. }
  unfold get, bind, gets, ret, deepcopy, raise. rewrite Hnone.
  destruct view; split; reflexivity.
Qed.

End Domain.

End GlueMore.

(** ** The store between [add_notebook] and [clear_doc]

    The extraction is made over the existing keys, so that no key comes to
    be attributed to two documents, and every key a document owns is in the
    cache: [add_notebook] and [clear_doc] keep the store consistent. The
    statements below are about such stores. *)
Module GlueOwnership.
Import Glue GlueSpec.

Lemma unique_In_get {V} (dm : PyDict.t V) d v :
  unique dm -> In (d, v) dm -> PyDict.get d dm = Some v.
Proof.
  unfold unique. induction dm as [|[d0 v0] dm IH]; [intros _ [] |].
  cbn. intros [Hd0 Hdm]%NoDup_cons [[= -> ->] | Hin].
  - now rewrite String.eqb_refl.
  - destruct (String.eqb d d0) eqn:Hd; [| now apply IH].
    apply String.eqb_eq in Hd. subst d0.
    exfalso. apply Hd0. apply list_elem_of_In.
    now apply (in_map fst) in Hin.
Qed.

(** The keys listed for a document are the keys it owns, all of them. *)
Lemma doc_entries_dom s d vs :
  owned_cached s -> live s -> In (d, vs) (docmap s) ->
  dom (doc_entries s vs) = vs.
Proof.
  intros Hoc Hlive Hin. apply set_eq. intros k. rewrite elem_of_dom. split.
  - intros [o Ho]. now apply GlueFacts.doc_entries_lookup in Ho.
  - intros Hk. destruct (Hoc k d) as [l Hl]; [now exists vs |].
    destruct (Hlive k l Hl) as [o Ho]. exists o.
    apply GlueFacts.doc_entries_lookup. split; [assumption |].
    cbn. now rewrite Hl.
Qed.

(** C4. On a store in which no key is attributed to two documents,
    [clear_doc(d)] removes from the cache the keys that [docmap] attributes
    to [d], all of them and no other key, and removes [d] from [docmap]:
    every key that another document owns keeps its cache entry and its
    owner, the entry of every other document in [docmap] is as before, and
    so are the objects. When [docmap] has no entry for [d] the store is
    unchanged. *)
Theorem clear_doc_removes_exactly_the_keys_of_the_document d s :
  exclusive s ->
  let keys := default ∅ (PyDict.get d (docmap s)) in
  let s' := clear_doc d s in
  (forall k, k ∈ keys -> cache s' !! k = None) /\
  (forall k, k ∉ keys -> cache s' !! k = cache s !! k) /\
  (forall k d', d' <> d -> owned (docmap s) k d' ->
     cache s' !! k = cache s !! k /\ owned (docmap s') k d') /\
  PyDict.get d (docmap s') = None /\
  (forall d', d' <> d -> PyDict.get d' (docmap s') = PyDict.get d' (docmap s)) /\
  heap s' = heap s /\
  (PyDict.get d (docmap s) = None -> s' = s).
Proof.
  intros Hex keys s'.
  split; [| split; [| split; [| split; [| split; [| split]]]]].
  - intros k Hk. unfold s'. rewrite GlueMore.clear_doc_cache. fold keys.
    now destruct (decide (k ∈ keys)).
  - intros k Hk. unfold s'. rewrite GlueMore.clear_doc_cache. fold keys.
    now destruct (decide (k ∈ keys)).
  - intros k d' Hne Hown. split.
    + now apply (GlueMore.clear_doc_foreign_key d d').
    + destruct Hown as (vs & Hin & Hk). exists vs. split; [| assumption].
      cbn. now apply PyDictMore.pop_In.
  - cbn. apply PyDictFacts.get_pop_eq.
  - intros d' Hne. cbn. apply PyDictFacts.get_pop_ne. congruence.
  - reflexivity.
  - apply GlueMore.clear_doc_noop.
Qed.

Section Domain.
Context {Ntbk : Type} `{Imports Ntbk}.

(** C7, as amended. On a consistent store whose references all lead to
    objects, [write_cache] writes one file, the one at the path it was
    given or [glue_cache.json] under the doctree directory, and leaves the
    others alone. The dictionary it writes lists every document whose key
    set in [docmap] is not empty, and only those, each with all the keys
    it owns, so that no document is listed with an empty mapping. Every
    listed key is mapped to the stored artifact: what a lookup without
    prefix stripping returns now, while a lookup that strips, as [get] does
    by default, returns it with the prefix removed from its MIME types. *)
Theorem write_cache_lists_the_stored_artifacts doctreedir path s json_files :
  consistent s ->
  live s ->
  let target := cache_file_path doctreedir path in
  let written := write_cache doctreedir path s json_files in
  (forall p, p <> target -> written !! p = json_files !! p) /\
  exists snap,
    written !! target = Some snap /\
    (forall d vs, PyDict.get d (docmap s) = Some vs -> vs <> ∅ ->
       exists entries, In (d, entries) snap) /\
    (forall d entries, In (d, entries) snap ->
       entries <> ∅ /\
       (exists vs, PyDict.get d (docmap s) = Some vs /\ dom entries = vs) /\
       forall k o, entries !! k = Some o ->
         (forall view, exists out s',
            get k view false s = Ok out s' /\ deref s' out = Some o) /\
         (forall view mimebundle, data o = Some mimebundle ->
            exists out s',
              get k view true s = Ok out s' /\
              deref s' out
              = Some (mkOutput (output_type o)
                               (Some (strip_prefix mimebundle)) (metadata o)))).
Proof.
  intros (Hu & Hex & Hoc) Hlive target written.
  split.
  { intros p Hp. unfold written, write_cache. fold target.
    now rewrite lookup_insert_ne by congruence. }
  exists (snapshot s). split; [| split].
  - unfold written, write_cache. apply lookup_insert_eq.
  - intros d vs Hget Hvs. exists (doc_entries s vs).
    apply GlueFacts.snapshot_In. exists vs.
    split; [now apply PyDictMore.get_In | auto].
  - intros d entries (vs & Hin & Hvs & ->)%GlueFacts.snapshot_In.
    pose proof (doc_entries_dom s d vs Hoc Hlive Hin) as Hdom.
    split; [| split].
    + intros Hempty. apply Hvs. rewrite <- Hdom, Hempty. apply dom_empty_L.
    + exists vs. split; [now apply unique_In_get | exact Hdom].
    + intros k o Hk. apply GlueFacts.doc_entries_lookup in Hk as [_ Hk].
      split.
      * intros view.
        destruct (GlueFacts.get_plain k view s) as (out & s' & Hget & Hout & _).
        exists out, s'. split; [assumption | congruence].
      * intros view mimebundle Hdata.
        destruct (cache s !! k) as [l|] eqn:Hc; [| discriminate].
        now apply (GlueFacts.get_stripping k view l o mimebundle s).
Qed.

End Domain.

End GlueOwnership.

(** ** More on strings *)
Module PyStrMoreFacts.
Import PyStr PyStrMore.

Lemma prefix_app a b : String.prefix a (a +:+ b) = true.
Proof.
  induction a as [|x a IH]; [apply PyStrFacts.prefix_empty |].
  rewrite PyStrFacts.app_cons. cbn.
  destruct (Ascii.ascii_dec x x) as [_|Hne]; [exact IH | now destruct Hne].
Qed.

Lemma remove_from_skip old a : forall s,
  remove_from old (a +:+ s) (String.length a) = remove_from old s 0.
Proof.
  induction a as [|x a IH]; intros s; [reflexivity |].
  rewrite PyStrFacts.app_cons. cbn [String.length remove_from]. apply IH.
Qed.

Lemma remove_all_absent old s :
  contains old s = false -> remove_all s old = s.
Proof.
  intros Hs. unfold remove_all.
  destruct old as [|c o]; [reflexivity |].
  induction s as [|a s IH]; [reflexivity |].
  cbn [contains] in Hs. apply orb_false_iff in Hs as [Hp Hrest].
  cbn [remove_from]. rewrite Hp. f_equal. now apply IH.
Qed.

Lemma remove_all_prefixed old s :
  remove_all (old +:+ s) old = remove_all s old.
Proof.
  unfold remove_all. destruct old as [|c o]; [reflexivity |].
  rewrite PyStrFacts.app_cons. cbn [remove_from].
  change (String c (o +:+ s)) with (String c o +:+ s).
  rewrite prefix_app. cbn [String.length].
  replace (S (String.length o) - 1)%nat with (String.length o) by lia.
  apply remove_from_skip.
Qed.

(** The text before the last occurrence of a one-character separator and
    the text behind it. *)
Lemma rsplit1_last c a b :
  contains (String c "") b = false ->
  rsplit1 (a +:+ String c b) (String c "") = [a; b].
Proof.
  intros Hb. unfold rsplit1. rewrite PyStrFacts.rfind_last by assumption.
  pose proof (PyStrFacts.len_nonneg a).
  destruct (Z.ltb_spec (len a) 0); [lia |]. f_equal; [| f_equal].
  - change (a +:+ String c b) with ("" +:+ a +:+ String c b).
    change 0 with (len "") at 1.
    replace (len a) with (len "" + len a) by (rewrite PyStrFacts.len_empty; lia).
    apply PyStrFacts.slice_middle.
  - change (String c b) with (String c "" +:+ b).
    rewrite <- PyStrFacts.app_assoc.
    replace (len a + len (String c "")) with (len (a +:+ String c ""))
      by (rewrite PyStrFacts.len_app; reflexivity).
    apply PyStrFacts.slice_from_app.
Qed.

Lemma rsplit1_none c s :
  contains (String c "") s = false -> rsplit1 s (String c "") = [s].
Proof. intros Hs. unfold rsplit1. now rewrite PyStrFacts.rfind_none. Qed.

Lemma endswith_app a suffix : endswith (a +:+ suffix) suffix = true.
Proof.
  unfold endswith. rewrite PyStrFacts.len_app.
  pose proof (PyStrFacts.len_nonneg a).
  apply andb_true_iff. split; [apply Z.leb_le; lia |].
  replace (len a + len suffix - len suffix) with (len a) by lia.
  rewrite PyStrFacts.slice_from_app. apply String.eqb_refl.
Qed.

Lemma lstrip_repeated c n s : lstrip c (repeated c n +:+ s) = lstrip c s.
Proof.
  induction n as [|n IH]; [reflexivity |].
  cbn [repeated]. rewrite PyStrFacts.app_cons. cbn [lstrip].
  now rewrite Ascii.eqb_refl.
Qed.

Lemma lstrip_fixed c s : (forall u, s <> String c u) -> lstrip c s = s.
Proof.
  intros Hs. destruct s as [|a s]; [reflexivity |]. cbn.
  destruct (Ascii.eqb a c) eqn:Ha; [| reflexivity].
  apply Ascii.eqb_eq in Ha. subst a. now destruct (Hs s).
Qed.

Lemma rstrip_repeated c n : forall s,
  rstrip c (s +:+ repeated c n) = rstrip c s.
Proof.
  assert (Hall : rstrip c (repeated c n) = "").
  { induction n as [|n IH]; [reflexivity |].
    cbn [repeated rstrip]. rewrite IH. now rewrite Ascii.eqb_refl. }
  induction s as [|a s IH]; [exact Hall |].
  rewrite PyStrFacts.app_cons. cbn [rstrip]. now rewrite IH.
Qed.

Lemma rstrip_fixed c s : (forall u, s <> u +:+ String c "") -> rstrip c s = s.
Proof.
  induction s as [|a s IH]; intros Hs; [reflexivity |].
  cbn [rstrip]. rewrite IH.
  - destruct s as [|b s]; [| reflexivity].
    destruct (Ascii.eqb a c) eqn:Ha; [| reflexivity].
    apply Ascii.eqb_eq in Ha. subst a. now destruct (Hs "").
  - intros u ->. now destruct (Hs (String a u)).
Qed.

(** [strip] takes the character away from both ends and nothing else. *)
Lemma strip_between c m n s :
  (forall u, s <> String c u) ->
  (forall u, s <> u +:+ String c "") ->
  strip c (repeated c m +:+ s +:+ repeated c n) = s.
Proof.
  intros Hstart Hend. unfold strip. rewrite lstrip_repeated.
  destruct s as [|a s].
  - rewrite PyStrFacts.app_empty.
    rewrite <- (PyStrFacts.app_empty_r (repeated c n)), lstrip_repeated.
    reflexivity.
  - assert (Ha : a <> c) by (intros ->; now destruct (Hstart s)).
    rewrite lstrip_fixed.
    + rewrite rstrip_repeated. now apply rstrip_fixed.
    + rewrite PyStrFacts.app_cons. intros u [= Heq _]. contradiction.
Qed.

End PyStrMoreFacts.

(** ** [NbGlueDomain.get]: what stripping the prefix gives *)
Module GlueStrip.
Import Glue GlueSpec.

Lemma set_new_key {V} k (v : V) d :
  k ∉ List.map fst d -> PyDict.set k v d = d ++ [(k, v)].
Proof.
  induction d as [|[k0 v0] d IH]; [reflexivity |].
  cbn. intros [Hne Hd]%not_elem_of_cons.
  apply String.eqb_neq in Hne. rewrite Hne. now rewrite IH.
Qed.

Lemma fold_set_distinct {V} (f : string -> string) (d : PyDict.t V) : forall acc,
  NoDup (List.map fst acc ++ List.map (fun kv => f (fst kv)) d) ->
  fold_left (fun acc kv => PyDict.set (f (fst kv)) (snd kv) acc) d acc
  = acc ++ List.map (fun kv => (f (fst kv), snd kv)) d.
Proof.
  induction d as [|[k v] d IH]; intros acc Hnd.
  - cbn. now rewrite app_nil_r.
  - cbn [fold_left List.map fst snd] in *.
    assert (Hk : f k ∉ List.map fst acc).
    { apply NoDup_app in Hnd as (_ & Hdisj & _). intros Hin.
      apply (Hdisj (f k) Hin). apply list_elem_of_here. }
    rewrite (set_new_key _ _ _ Hk). rewrite IH.
    + now rewrite <- List.app_assoc.
    + rewrite List.map_app. cbn [List.map fst].
      now rewrite <- List.app_assoc.
Qed.

Section Domain.
Context {Ntbk : Type} `{Imports Ntbk}.

Lemma strip_prefix_distinct (d : Mimebundle) :
  NoDup (List.map (fun kv => PyStr.remove_all (fst kv) GLUE_PREFIX) d) ->
  strip_prefix d
  = List.map (fun kv => (PyStr.remove_all (fst kv) GLUE_PREFIX, snd kv)) d.
Proof.
  intros Hnd. unfold strip_prefix.
  now rewrite (fold_set_distinct (fun k => PyStr.remove_all k GLUE_PREFIX) d []).
Qed.

(** X25. A stored artifact whose MIME types all carry the glue prefix, in
    front of MIME types that are distinct and do not hold the prefix
    themselves, is shown by a stripping lookup with its plain MIME types, in
    their order and with their contents. *)
Theorem get_shows_plain_mime_types key view l o (plain : Mimebundle) s :
  cache s !! key = Some l ->
  heap s !! l = Some o ->
  data o = Some (prefixed plain) ->
  NoDup (List.map fst plain) ->
  (forall mime, mime ∈ List.map fst plain ->
                PyStr.contains GLUE_PREFIX mime = false) ->
  exists out s',
    get key view true s = Ok out s' /\
    deref s' out = Some (mkOutput (output_type o) (Some plain) (metadata o)).
Proof.
  intros Hc Hl Hd Hnd Hfree.
  assert (Hstrip : strip_prefix (prefixed plain) = plain).
  { assert (Hkeys : forall kv, In kv plain ->
              PyStr.remove_all (GLUE_PREFIX +:+ fst kv) GLUE_PREFIX = fst kv).
    { intros kv Hin. rewrite PyStrMoreFacts.remove_all_prefixed.
      apply PyStrMoreFacts.remove_all_absent. apply Hfree.
      apply list_elem_of_In. now apply (in_map fst). }
    rewrite strip_prefix_distinct; unfold prefixed; rewrite List.map_map; cbn [fst snd].
    - rewrite <- (List.map_id plain) at 2. apply List.map_ext_in.
      intros [k v] Hin. cbn. f_equal. exact (Hkeys (k, v) Hin).
    - erewrite List.map_ext_in; [exact Hnd |]. intros kv Hin. now apply Hkeys. }
  destruct (GlueFacts.get_stripping key view l o (prefixed plain) s Hc Hl Hd)
    as (out & s' & Hget & Hout).
  exists out, s'. split; [assumption |]. now rewrite Hout, Hstrip.
Qed.

(** X26. A stored artifact none of whose MIME types holds the glue prefix
    comes out of a stripping lookup as it is stored. *)
Theorem get_leaves_plain_artifact key view l o (d : Mimebundle) s :
  cache s !! key = Some l ->
  heap s !! l = Some o ->
  data o = Some d ->
  NoDup (List.map fst d) ->
  (forall mime, mime ∈ List.map fst d ->
                PyStr.contains GLUE_PREFIX mime = false) ->
  exists out s',
    get key view true s = Ok out s' /\ deref s' out = Some o.
Proof.
  intros Hc Hl Hd Hnd Hfree.
  assert (Hkeys : forall kv, In kv d ->
            PyStr.remove_all (fst kv) GLUE_PREFIX = fst kv).
  { intros kv Hin. apply PyStrMoreFacts.remove_all_absent. apply Hfree.
    apply list_elem_of_In. now apply (in_map fst). }
  assert (Hstrip : strip_prefix d = d).
  { rewrite strip_prefix_distinct.
    - rewrite <- (List.map_id d) at 2. apply List.map_ext_in.
      intros [k v] Hin. cbn. f_equal. exact (Hkeys (k, v) Hin).
    - erewrite List.map_ext_in; [exact Hnd |]. intros kv Hin. now apply Hkeys. }
  destruct (GlueFacts.get_stripping key view l o d s Hc Hl Hd)
    as (out & s' & Hget & Hout).
  exists out, s'. split; [assumption |]. rewrite Hout, Hstrip.
  destruct o as [ty dat meta]. cbn in *. now subst dat.
Qed.

End Domain.
End GlueStrip.

(** ** Paste roles and nodes *)
Module PasteFacts.
Import Paste.

Section Roles.
Context `{StdLib}.

(** X27. The text of the role is split at its last colon: what stands
    before it is the key, what stands behind it the formatting, so a key
    may hold colons and a formatting may not; a text without a colon is a
    key without formatting. *)
Theorem role_splits_text_at_last_colon text lineno path :
  (forall key fmt,
     text = key +:+ ":" +:+ fmt -> PyStr.contains ":" fmt = false ->
     paste_text_role text lineno path
     = match paste_location path (Some lineno) with
       | Some loc => Some (mkPasteText key (Some fmt) loc)
       | None => None
       end) /\
  (PyStr.contains ":" text = false ->
   paste_text_role text lineno path
   = match paste_location path (Some lineno) with
     | Some loc => Some (mkPasteText text None loc)
     | None => None
     end).
Proof.
  split.
  - intros key fmt -> Hfmt. unfold paste_text_role.
    change (":" +:+ fmt) with (String ":" fmt).
    now rewrite PyStrMoreFacts.rsplit1_last.
  - intros Htext. unfold paste_text_role.
    now rewrite PyStrMoreFacts.rsplit1_none.
Qed.

(** X28. A paste node made in a notebook, a source whose path ends in
    [.ipynb], carries no line number, whichever line the parser reported;
    in any other source it carries the reported line. The directive keeps
    its argument as the key. *)
Theorem notebook_location_has_no_line argument path lineno node :
  paste_run argument path lineno = Some node ->
  key node = argument /\
  (forall stem, path = stem +:+ ".ipynb" -> snd (location node) = None) /\
  (PyStrMore.endswith path ".ipynb" = false -> snd (location node) = lineno).
Proof.
  unfold paste_run, paste_location.
  destruct (with_suffix_empty path) as [p|]; [| discriminate].
  intros [= <-]. cbn. split; [reflexivity |]. split.
  - intros stem ->. now rewrite PyStrMoreFacts.endswith_app.
  - intros Hend. now rewrite Hend.
Qed.

(** X29. [create_node] pastes the [text/plain] entry of the mimebundle
    without the quotes around it: for an entry that is a text between
    quotes, the text itself when the node has no formatting, an empty one,
    or one that the number formatting rejects, and the formatted number
    otherwise. *)
Theorem create_node_pastes_unquoted_text node outputs mimebundle text m n :
  data outputs = Some mimebundle ->
  PyDict.get "text/plain" mimebundle
  = Some (PyStrMore.repeated "'" m +:+ text +:+ PyStrMore.repeated "'" n) ->
  (forall u, text <> String "'" u) ->
  (forall u, text <> u +:+ "'") ->
  create_node node outputs tt
  = Ok (Some match wants_format node with
             | Some f => default text (format_float text f)
             | None => text
             end) tt.
Proof.
  intros Hd Hplain Hstart Hend. unfold create_node. rewrite Hd, Hplain.
  rewrite PyStrMoreFacts.strip_between by assumption.
  destruct (wants_format node) as [f|]; [| reflexivity].
  destruct (format_float text f); reflexivity.
Qed.

End Roles.
End PasteFacts.

(** ** More runs on the sample data *)
Module MoreRuns.
Import Cache CacheSpec CacheApp Sample SampleMore.

Lemma sample_tree_readable env' nb_list :
  (forall nb, In nb nb_list -> nb = "index" \/ nb = "bare" \/ nb = "done") ->
  execution_excludepatterns env' = ["index"] ->
  doc2path env' = doc2path env ->
  readable env' source_tree nb_list.
Proof.
  intros Hall Hpat Hpath nb Hin Hex. rewrite Hpath.
  destruct (Hall nb Hin) as [-> | [-> | ->]].
  - unfold excluded in Hex. rewrite Hpat in Hex. vm_compute in Hex. discriminate.
  - exists nb_bare. reflexivity.
  - exists nb_done. reflexivity.
Qed.

Lemma pass_ends_with_one_run_witness :
  exists w' filter_pks,
    stage_and_execute env ["index"; "bare"; "done"] (Some ".jupyter_cache")
      (world_of fresh_engine) = Ok tt w' /\
    calls w' = calls (world_of fresh_engine)
               ++ flat_map (planned env source_tree) ["index"; "bare"; "done"]
               ++ [CallRun filter_pks].
Proof.
  assert (Hpc : truthy (Some ".jupyter_cache") = true) by reflexivity.
  assert (Hread : readable env (notebooks (world_of fresh_engine))
                           ["index"; "bare"; "done"]).
  { apply sample_tree_readable; [| reflexivity | reflexivity].
    intros nb [<- | [<- | [<- | []]]]; auto. }
  assert (Hload : load_executor "basic"
                    (fold_left replay
                       (flat_map (planned env (notebooks (world_of fresh_engine)))
                                 ["index"; "bare"; "done"])
                       (engine (world_of fresh_engine))) = None)
    by (vm_compute; reflexivity).
  destruct (CacheMore.pass_ends_with_one_run env ["index"; "bare"; "done"]
              (Some ".jupyter_cache") (world_of fresh_engine) Hpc Hread Hload)
    as (w' & filter_pks & Hrun & Hcalls & _ & _).
  exists w', filter_pks. split; [exact Hrun | exact Hcalls].
Defined.

Lemma forced_run_stages_every_document_witness :
  exists w' new,
    stage_and_execute forced_env ["index"; "bare"; "done"] (Some ".jupyter_cache")
      (world_of fresh_engine) = Ok tt w' /\
    calls w' = new /\
    In (CallStage "/proj/docs/done.ipynb") new.
Proof.
  assert (Hpc : truthy (Some ".jupyter_cache") = true) by reflexivity.
  assert (Hread : readable forced_env (notebooks (world_of fresh_engine))
                           ["index"; "bare"; "done"]).
  { apply sample_tree_readable; [| reflexivity | reflexivity].
    intros nb [<- | [<- | [<- | []]]]; auto. }
  assert (Hforce : jupyter_notebook_force_run forced_env = true) by reflexivity.
  destruct (CacheMore.forced_run_stages_every_document forced_env
              ["index"; "bare"; "done"] (Some ".jupyter_cache")
              (world_of fresh_engine) Hpc Hread Hforce)
    as (w' & new & Hrun & Hcalls & Hstaged & _).
  exists w', new. split; [exact Hrun |]. split; [exact Hcalls |].
  apply (Hstaged "done"); [simpl; auto | reflexivity].
Defined.

Lemma missing_output_is_staged_witness :
  exists w' new,
    stage_and_execute env ["index"; "bare"; "done"] (Some ".jupyter_cache")
      (world_of fresh_engine) = Ok tt w' /\
    calls w' = calls (world_of fresh_engine) ++ new /\
    In (CallStage (doc2path env "bare")) new /\
    forall overwrite, ~ In (CallCache (doc2path env "bare") overwrite) new.
Proof.
  apply (CacheMore.missing_output_is_staged env ["index"; "bare"; "done"]
           (Some ".jupyter_cache") (world_of fresh_engine) "bare" nb_bare
           (mkCell "code" "2 * 2" [])).
  - reflexivity.
  - apply sample_tree_readable; [| reflexivity | reflexivity].
    intros nb [<- | [<- | [<- | []]]]; auto.
  - simpl. auto.
  - reflexivity.
  - reflexivity.
  - simpl. auto.
  - reflexivity.
  - reflexivity.
Defined.

Lemma unreadable_notebook_stops_the_pass_witness :
  exists w',
    stage_and_execute env (["done"] ++ "missing" :: ["bare"]) (Some ".jupyter_cache")
      (world_of fresh_engine) = Raise OSError w' /\
    calls w' = [CallCache "/proj/docs/done.ipynb" true].
Proof.
  assert (Hpc : truthy (Some ".jupyter_cache") = true) by reflexivity.
  assert (Hread : readable env (notebooks (world_of fresh_engine)) ["done"]).
  { apply sample_tree_readable; [| reflexivity | reflexivity].
    intros nb [<- | []]; auto. }
  assert (Hex : excluded env "missing" = false) by reflexivity.
  assert (Hnb : notebooks (world_of fresh_engine) !! doc2path env "missing" = None)
    by reflexivity.
  destruct (CacheEdge.unreadable_notebook_stops_the_pass env ["done"] "missing"
              ["bare"] (Some ".jupyter_cache") (world_of fresh_engine)
              Hpc Hread Hex Hnb)
    as (w' & Hrun & Hcalls & _).
  exists w'. split; [exact Hrun |]. rewrite Hcalls. reflexivity.
Defined.

Lemma executor_not_loaded_nothing_runs_witness :
  exists w',
    stage_and_execute env ["bare"; "done"] (Some ".jupyter_cache")
      (world_of engine_without_executor) = Ok tt w' /\
    calls w' = [CallStage "/proj/docs/bare.ipynb";
                CallCache "/proj/docs/done.ipynb" true].
Proof.
  assert (Hpc : truthy (Some ".jupyter_cache") = true) by reflexivity.
  assert (Hread : readable env (notebooks (world_of engine_without_executor))
                           ["bare"; "done"]).
  { apply sample_tree_readable; [| reflexivity | reflexivity].
    intros nb [<- | [<- | []]]; auto. }
  assert (Hload : load_executor "basic"
                    (fold_left replay
                       (flat_map (planned env
                                    (notebooks (world_of engine_without_executor)))
                                 ["bare"; "done"])
                       (engine (world_of engine_without_executor)))
                  = Some "No executor registered under basic")
    by (vm_compute; reflexivity).
  destruct (CacheEdge.executor_not_loaded_nothing_runs env ["bare"; "done"]
              (Some ".jupyter_cache") (world_of engine_without_executor)
              "No executor registered under basic" Hpc Hread Hload)
    as (w' & Hrun & Hcalls & _).
  exists w'. split; [exact Hrun |]. rewrite Hcalls. reflexivity.
Defined.

Lemma cache_record_means_merge_witness :
  add_notebook_outputs "/proj/docs/done.ipynb" nb_done (Some ".jupyter_cache")
    "/proj/_build" (world_of engine_with_history)
  = Ok nb_done (world_of engine_with_history).
Proof.
  rewrite (CacheEdge.cache_record_means_merge "/proj/docs/done.ipynb" nb_done
             (Some ".jupyter_cache") "/proj/_build" (world_of engine_with_history)).
  - reflexivity.
  - reflexivity.
  - discriminate.
  - intros r [<- | [<- | []]]; eexists; reflexivity.
Defined.

Lemma stale_cache_key_is_caught_witness :
  exists w',
    add_notebook_outputs "/proj/docs/done.ipynb" nb_done (Some ".jupyter_cache")
      "/proj/_build" lossy_world = Ok nb_done w' /\
    In (ERROR, "Couldn't find cache key for notebook file docs/done.ipynb. Outputs will not be inserted")
       (logs w').
Proof.
  assert (Hpc : truthy (Some ".jupyter_cache") = true) by reflexivity.
  assert (Hpick : pick_latest (records_from_uri "/proj/docs/done.ipynb"
                                 (engine lossy_world)) = Some (1000, 1))
    by reflexivity.
  assert (Hgone : get_cache_record 1 (engine lossy_world) = None) by reflexivity.
  destruct (CacheEdge.stale_cache_key_is_caught "/proj/docs/done.ipynb" nb_done
              (Some ".jupyter_cache") "/proj/_build" lossy_world 1000 1
              Hpc Hpick Hgone)
    as (w' & Hrun & _ & _ & Hlog & _).
  exists w'. split; [exact Hrun | exact Hlog].
Defined.

Lemma pick_latest_takes_first_oldest_witness :
  pick_latest ([newer] ++ older :: []) = Some (created older, pk older).
Proof.
  apply (CacheEdge.pick_latest_takes_first_oldest [newer] older []).
  - intros r [<- | []]. vm_compute. reflexivity.
  - intros r [].
Defined.

Lemma relative_to_parent_of_cwd_witness :
  _relative_file_path ("/proj" +:+ "/" +:+ "docs")
                      ("/proj" +:+ "/" +:+ "docs/bare.ipynb")
  = "docs/bare.ipynb".
Proof.
  apply (CacheEdge.relative_to_parent_of_cwd "/proj" "docs" "docs/bare.ipynb").
  reflexivity.
Defined.

Lemma execution_cache_handles_each_document_once_witness :
  exists nb_list a' run,
    NoDup nb_list /\
    (forall nb, In nb nb_list <-> nb ∈ ({["bare"]} : gset string)
                                  \/ nb ∈ ({["bare"; "done"]} : gset string)) /\
    execution_cache config {["bare"]} {["bare"; "done"]} ∅ app
    = Ok ({["bare"]} ∪ {["bare"; "done"]}) a' /\
    calls (world a')
    = calls (world app)
      ++ flat_map (planned (build config) (notebooks (world app))) nb_list ++ run /\
    (run = [] \/ exists filter_pks, run = [CallRun filter_pks]).
Proof.
  apply (CacheAppFacts.execution_cache_handles_each_document_once
           config {["bare"]} {["bare"; "done"]} ∅ app "").
  - reflexivity.
  - left. reflexivity.
  - intros nb Hnb Hex.
    assert (Hcases : nb = "bare" \/ nb = "done").
    { apply elem_of_union in Hnb as [Hb%elem_of_singleton | Hb]; [now left |].
      apply elem_of_union in Hb as [Hb%elem_of_singleton | Hb%elem_of_singleton];
        auto. }
    destruct Hcases as [-> | ->]; [exists nb_bare | exists nb_done]; reflexivity.
Defined.

End MoreRuns.

(** ** More runs on the sample glue data *)
Module GlueMoreRuns.
Import Glue GlueSpec GlueSample SampleMore Paste.

Lemma tidy_store_owned k d :
  owned (docmap tidy_store) k d <->
  (d = "docA" /\ k = "x") \/ (d = "docB" /\ k = "y").
Proof.
  split.
  - intros (vs & [[= <- <-] | [[= <- <-] | []]] & Hk);
      apply elem_of_singleton in Hk; auto.
  - intros [[-> ->] | [-> ->]].
    + exists {["x"]}. split; [now left | now apply elem_of_singleton].
    + exists {["y"]}. split; [right; now left | now apply elem_of_singleton].
Qed.

Lemma tidy_store_consistent : consistent tidy_store.
Proof.
  split; [| split].
  - unfold unique. cbn. apply NoDup_cons. split.
    + intros Hin%list_elem_of_singleton. discriminate.
    + apply NoDup_singleton.
  - intros k d1 d2 [[-> ->] | [-> ->]]%tidy_store_owned
                   [[-> Hk] | [-> Hk]]%tidy_store_owned;
      (reflexivity || discriminate).
  - intros k d [[-> ->] | [-> ->]]%tidy_store_owned; eexists; reflexivity.
Qed.

Example tidy_store_after_two_notebooks :
  add_notebook n_y "docB" (add_notebook n1 "docA" fresh_store) = tidy_store.
Proof. vm_compute. reflexivity. Qed.

Example plain_store_after_one_notebook :
  add_notebook ({[ "four" := 1%positive ]} : GlueSample.Ntbk) "docA"
    (mkData {[ 1%positive := Sample.result_4 ]} ∅ [])
  = plain_store.
Proof. vm_compute. reflexivity. Qed.

Lemma tidy_store_live : live tidy_store.
Proof.
  intros k l Hk.
  assert (Hcases : l = 1%positive \/ l = 2%positive).
  { unfold tidy_store in Hk. cbn in Hk.
    destruct (decide (k = "x")) as [-> | Hx].
    - rewrite lookup_insert_eq in Hk. injection Hk as <-. now left.
    - rewrite lookup_insert_ne in Hk by congruence.
      apply lookup_singleton_Some in Hk as [_ <-]. now right. }
  destruct Hcases as [-> | ->]; eexists; reflexivity.
Qed.

Lemma clear_doc_removes_exactly_the_keys_of_the_document_witness :
  cache (clear_doc "docA" tidy_store) !! "x" = None /\
  cache (clear_doc "docA" tidy_store) !! "y" = Some 2%positive /\
  PyDict.get "docA" (docmap (clear_doc "docA" tidy_store)) = None /\
  PyDict.get "docB" (docmap (clear_doc "docA" tidy_store)) = Some {["y"]}.
Proof.
  destruct (GlueOwnership.clear_doc_removes_exactly_the_keys_of_the_document
              "docA" tidy_store (proj1 (proj2 tidy_store_consistent)))
    as (Hgone & _ & Hkept & Hdoc & Hothers & _).
  split; [| split; [| split]].
  - apply Hgone. cbn. now apply elem_of_singleton.
  - destruct (Hkept "y" "docB") as [Hy _].
    + discriminate.
    + apply tidy_store_owned. right. split; reflexivity.
    + etransitivity; [exact Hy | reflexivity].
  - exact Hdoc.
  - etransitivity; [apply Hothers; discriminate | reflexivity].
Defined.

Lemma write_cache_lists_the_stored_artifacts_witness :
  exists snap,
    write_cache "/proj/_build/.doctrees" None tidy_store ∅
      !! "/proj/_build/.doctrees/glue_cache.json" = Some snap /\
    (exists entries, In ("docA", entries) snap) /\
    (forall d entries, In (d, entries) snap -> entries <> ∅).
Proof.
  destruct (GlueOwnership.write_cache_lists_the_stored_artifacts
              "/proj/_build/.doctrees" None tidy_store ∅
              tidy_store_consistent tidy_store_live)
    as (_ & snap & Hfile & Hlisted & Hentries).
  exists snap. split; [exact Hfile |]. split.
  - apply (Hlisted "docA" {["x"]}); [reflexivity |].
    intros Hempty. assert (Hx : "x" ∈ ({["x"]} : gset string))
      by now apply elem_of_singleton.
    rewrite Hempty in Hx. now apply not_elem_of_empty in Hx.
  - intros d entries Hin. now destruct (Hentries d entries Hin).
Defined.

Lemma clear_doc_spares_keys_of_other_documents_witness :
  cache (clear_doc "docA" tidy_store) !! "y" = cache tidy_store !! "y" /\
  owned (docmap (clear_doc "docA" tidy_store)) "y" "docB".
Proof.
  apply (GlueMore.clear_doc_spares_keys_of_other_documents "docA" "docB" "y"
           tidy_store).
  - apply tidy_store_consistent.
  - apply tidy_store_owned. right. split; reflexivity.
  - discriminate.
Defined.

Lemma clear_doc_keeps_consistency_witness :
  consistent (clear_doc "docA" tidy_store).
Proof.
  apply (GlueMore.clear_doc_keeps_consistency "docA" tidy_store).
  apply tidy_store_consistent.
Defined.

Lemma add_notebook_keeps_consistency_witness :
  consistent (add_notebook n_z "docC" tidy_store).
Proof.
  apply (GlueMore.add_notebook_keeps_consistency n_z "docC" tidy_store).
  - apply tidy_store_consistent.
  - intros k Hk. apply elem_of_dom in Hk as [l Hl].
    cbn [find_all_keys imports] in Hl.
    now apply map_lookup_filter_Some in Hl as [_ Hnew].
Defined.

Lemma snapshot_of_consistent_store_is_complete_witness :
  exists vs,
    PyDict.get "docA" (docmap tidy_store) = Some vs /\
    dom (doc_entries tidy_store {["x"]}) = vs /\ vs <> ∅.
Proof.
  apply (GlueMore.snapshot_of_consistent_store_is_complete tidy_store "docA"
           (doc_entries tidy_store {["x"]})).
  - apply tidy_store_consistent.
  - apply tidy_store_live.
  - apply GlueFacts.snapshot_In. exists {["x"]}.
    split; [now left |]. split; [| reflexivity].
    intros Hempty. assert (Hx : "x" ∈ ({["x"]} : gset string))
      by now apply elem_of_singleton.
    rewrite Hempty in Hx. now apply not_elem_of_empty in Hx.
Defined.

Lemma get_of_key_not_contained_witness :
  get "y" true true glued_store = Raise TypeError glued_store /\
  get "y" true false glued_store = Ok None glued_store.
Proof.
  apply (GlueMore.get_of_key_not_contained "y" true glued_store).
  reflexivity.
Defined.

Lemma get_shows_plain_mime_types_witness :
  exists out s',
    get "x" true true glued_store = Ok out s' /\
    deref s' out
    = Some (mkOutput "display_data"
                     (Some [("text/plain", "2"); ("text/html", "<b>2</b>")])
                     [("scrapbook", "x")]).
Proof.
  apply (GlueStrip.get_shows_plain_mime_types "x" true 2%positive (glued "2")
           [("text/plain", "2"); ("text/html", "<b>2</b>")] glued_store).
  - reflexivity.
  - reflexivity.
  - reflexivity.
  - cbn. apply NoDup_cons. split.
    + intros Hin%list_elem_of_singleton. discriminate.
    + apply NoDup_singleton.
  - intros mime [-> | [-> | []%elem_of_nil]%elem_of_cons]%elem_of_cons;
      reflexivity.
Defined.

Lemma get_leaves_plain_artifact_witness :
  exists out s',
    get "four" true true plain_store = Ok out s' /\
    deref s' out = Some Sample.result_4.
Proof.
  apply (GlueStrip.get_leaves_plain_artifact "four" true 1%positive
           Sample.result_4 [("text/plain", "4")] plain_store).
  - reflexivity.
  - reflexivity.
  - reflexivity.
  - cbn. apply NoDup_singleton.
  - intros mime [-> | []%elem_of_nil]%elem_of_cons. reflexivity.
Defined.

Lemma notebook_location_has_no_line_witness :
  key (mkPaste "x" ("/proj/docs/done", None)) = "x" /\
  (forall stem, "/proj/docs/done.ipynb" = stem +:+ ".ipynb" ->
                snd (location (mkPaste "x" ("/proj/docs/done", None))) = None) /\
  (PyStrMore.endswith "/proj/docs/done.ipynb" ".ipynb" = false ->
   snd (location (mkPaste "x" ("/proj/docs/done", None))) = Some 12).
Proof.
  apply (PasteFacts.notebook_location_has_no_line "x" "/proj/docs/done.ipynb"
           (Some 12) (mkPaste "x" ("/proj/docs/done", None))).
  reflexivity.
Defined.

Lemma create_node_pastes_unquoted_text_witness :
  create_node text_node quoted_output tt = Ok (Some "abc") tt.
Proof.
  apply (PasteFacts.create_node_pastes_unquoted_text text_node quoted_output
           [("text/plain", "'abc'")] "abc" 1 1).
  - reflexivity.
  - reflexivity.
  - discriminate.
  - intros [|a [|b [|c [|d u]]]]; discriminate.
Defined.

Example role_with_format : 
  paste_text_role "ratio:a:.2f" 7 "/proj/docs/page.md"
  = Some (mkPasteText "ratio:a" (Some ".2f") ("/proj/docs/page", Some 7)).
Proof. reflexivity. Qed.

Example role_in_notebook :
  paste_text_role "ratio" 7 "/proj/docs/done.ipynb"
  = Some (mkPasteText "ratio" None ("/proj/docs/done", None)).
Proof. reflexivity. Qed.

End GlueMoreRuns.
